(** * Evaluation script of the rice environment: a shallow embedding

    This development follows [scripts/evaluate_submission.py].  The script
    validates a results directory, runs the unit tests, re-creates a trainer
    from the saved run configuration, replays episodes and aggregates the
    metrics.  Python code is embedded as state-passing functions with
    exceptions: the state holds the local variables of the running function
    (so that an assignment made before an exception is still visible in the
    handler, as in Python) and the world outside the script.

    Numbers come in two layers.  The pipeline is embedded over exact
    rationals, which is all its control flow needs; [perform_format] and
    [compute_metrics] are embedded a second time in the module [Numpy],
    over typed 64-bit integers and float64 numbers, for the properties
    about the values of the metrics. *)

From Stdlib Require Import ZArith QArith Qround Qabs Lqa Ascii String.
From stdpp Require Import gmap strings list fin_maps pretty.

Open Scope string_scope.
Open Scope Z_scope.

(** ** Exceptions and outcomes *)

(** Instances of Python's [Exception] class.  [OtherError] stands for
    whatever the external libraries raise. *)
Inductive Exn : Type :=
| AssertionError
| ValueError (msg : string)
| KeyError (key : string)
| IndexError
| UnboundLocalError (name : string)
| CalledProcessError
| OtherError (msg : string).

Inductive Outcome (A : Type) : Type :=
| Return (a : A)
| Raise (e : Exn).
Arguments Return {A} a.
Arguments Raise {A} e.

(** ** State and exception monad *)

Definition Eff (S A : Type) : Type := S -> Outcome A * S.

Definition ret {S A} (a : A) : Eff S A := fun s => (Return a, s).

Definition raise {S A} (e : Exn) : Eff S A := fun s => (Raise e, s).

Definition bind {S A B} (m : Eff S A) (k : A -> Eff S B) : Eff S B :=
  fun s =>
    match m s with
    | (Return a, s') => k a s'
    | (Raise e, s') => (Raise e, s')
    end.

(** [try: m except Exception as err: h err].  The handler runs in the state
    reached when the exception was raised. *)
Definition try_except {S A} (m : Eff S A) (h : Exn -> Eff S A) : Eff S A :=
  fun s =>
    match m s with
    | (Return a, s') => (Return a, s')
    | (Raise e, s') => h e s'
    end.

Definition assert {S} (b : bool) : Eff S unit :=
  if b then ret tt else raise AssertionError.

Declare Scope eff_scope.
Delimit Scope eff_scope with eff.
Notation "x <- m ;; k" := (bind m (fun x => k))
  (at level 100, m at next level, right associativity) : eff_scope.
Notation "m ;; k" := (bind m (fun _ => k))
  (at level 100, right associativity) : eff_scope.
Open Scope eff_scope.

(** A [for] loop whose body may [break]. *)
Inductive LoopCtl : Type := Continue | Break.

Fixpoint for_each {S B} (xs : list B) (body : B -> Eff S LoopCtl) : Eff S unit :=
  match xs with
  | [] => ret tt
  | x :: rest =>
      c <- body x ;;
      match c with
      | Continue => for_each rest body
      | Break => ret tt
      end
  end.

(** [range(n)] for a Python integer [n]. *)
Definition range (n : Z) : list nat := seq 0 (Z.to_nat n).

(** The local variables of a function live next to the world while its body
    runs; [call] runs a body with fresh locals and drops them on return. *)
Definition call {L W A} (init : L) (body : Eff (L * W) A) : Eff W A :=
  fun w => let '(r, (_, w')) := body (init, w) in (r, w').

Definition locals {L W} : Eff (L * W) L := fun s => (Return (fst s), s).

Definition assign {L W} (f : L -> L) : Eff (L * W) unit :=
  fun s => (Return tt, (f (fst s), snd s)).

Definition world {L W A} (m : Eff W A) : Eff (L * W) A :=
  fun s => let '(r, w') := m (snd s) in (r, (fst s, w')).

(** [assert v is not None], giving the value. *)
Definition assert_not_none {S A} (v : option A) : Eff S A :=
  match v with
  | Some a => ret a
  | None => raise AssertionError
  end.

(** A computation that does not touch the state. *)
Definition pure {S A} (r : Outcome A) : Eff S A := fun s => (r, s).

(** Reading a local that may not have been assigned yet. *)
Definition read_var {S A} (name : string) (v : option A) : Eff S A :=
  match v with
  | Some a => ret a
  | None => raise (UnboundLocalError name)
  end.

(** ** The directory validator *)

(** Local variables of [validate_dir].  [success] and [comment] are only
    assigned inside the branches. *)
Record ValidateLocals : Type := {
  vd_framework : option string;
  vd_success : option bool;
  vd_comment : option string
}.

Definition warpdrive_files : list string :=
  ["rice.py"; "rice_helpers.py"; "rice_cuda.py"; "rice_step.cu";
   "rice_warpdrive.yaml"].

Definition rllib_files : list string :=
  ["rice.py"; "rice_helpers.py"; "rice_rllib.yaml"].

Definition not_present (file : string) : string :=
  file +:+ " is not present in the results directory!".

Section Validate.
Context {W : Type}.
(** [os.listdir], which raises on a path that is not a readable directory. *)
Variable os_listdir : string -> Eff W (list string).

Definition set_framework (fw : option string) (l : ValidateLocals) :=
  {| vd_framework := fw; vd_success := vd_success l; vd_comment := vd_comment l |}.
Definition set_success (b : bool) (l : ValidateLocals) :=
  {| vd_framework := vd_framework l; vd_success := Some b; vd_comment := vd_comment l |}.
Definition set_comment (c : string) (l : ValidateLocals) :=
  {| vd_framework := vd_framework l; vd_success := vd_success l; vd_comment := Some c |}.

(** The loop over the required files, the same in both branches. *)
Definition check_files (files required : list string)
  : Eff (ValidateLocals * W) unit :=
  for_each required (fun file =>
    if negb (bool_decide (file ∈ files)) then
      assign (set_success false) ;;
      assign (set_comment (not_present file)) ;;
      ret Break
    else
      assign (set_success true) ;;
      assign (set_comment "Valid submission") ;;
      ret Continue).

Definition validate_dir_body (results_dir : option string)
  : Eff (ValidateLocals * W) (option string * bool * string) :=
  dir <- assert_not_none results_dir ;;
  assign (set_framework None) ;;
  files <- world (os_listdir dir) ;;
  (if bool_decide (".warpdrive" ∈ files) then
     assign (set_framework (Some "warpdrive")) ;;
     check_files files warpdrive_files
   else if bool_decide (".rllib" ∈ files) then
     assign (set_framework (Some "rllib")) ;;
     check_files files rllib_files
   else
     assign (set_success false) ;;
     assign (set_comment "Missing identifier file!")) ;;
  l <- locals ;;
  success <- read_var "success" (vd_success l) ;;
  comment <- read_var "comment" (vd_comment l) ;;
  ret (vd_framework l, success, comment).

Definition validate_dir (results_dir : option string)
  : Eff W (option string * bool * string) :=
  call {| vd_framework := None; vd_success := None; vd_comment := None |}
       (validate_dir_body results_dir).
End Validate.

(** ** Numbers, arrays and numpy

    Numeric values are exact rationals here.  This idealisation serves the
    properties of the control flow: which calls are made, and what is
    returned on which failure.  It leaves out the rounding of float64, the
    wrap-around of int64, the infinities and NaN: with exact numbers
    [np_round] rounds exactly, the mean of an empty list is 0 where numpy
    gives NaN, and [int] never raises.  The values of the metrics are the
    subject of the module [Numpy] further down, over numpy's typed
    numbers.  An array is a list of rows (time steps) of columns
    (regions). *)

Definition Array : Type := list (list Q).

(** Python indexing of a sequence: a negative index counts from the end. *)
Definition py_index {A} (l : list A) (i : Z) : Outcome A :=
  let n := Z.of_nat (length l) in
  let j := if i <? 0 then i + n else i in
  if (j <? 0) || (n <=? j) then Raise IndexError
  else match l !! Z.to_nat j with
       | Some a => Return a
       | None => Raise IndexError
       end.

(** [arr[i, j]] *)
Definition index2 (arr : Array) (i j : Z) : Outcome Q :=
  match py_index arr i with
  | Return row => py_index row j
  | Raise e => Raise e
  end.

Definition Qsum (l : list Q) : Q := foldr Qplus 0%Q l.

(** [np.sum(arr)]: the sum of all entries. *)
Definition np_sum (arr : Array) : Q := Qsum (concat arr).

(** The entries of a list of numbers, when none of them is [None]. *)
Fixpoint all_numbers (l : list (option Q)) : option (list Q) :=
  match l with
  | [] => Some []
  | None :: _ => None
  | Some q :: rest =>
      match all_numbers rest with
      | Some qs => Some (q :: qs)
      | None => None
      end
  end.

Definition Qmean (l : list Q) : Q := (Qsum l / inject_Z (Z.of_nat (length l)))%Q.

(** [np.mean(values)] of a Python list; a [None] entry is a type error. *)
Definition np_mean (values : list (option Q)) : Outcome Q :=
  match all_numbers values with
  | Some qs => Return (Qmean qs)
  | None => Raise (OtherError "TypeError")
  end.

(** Rounding to the nearest integer, halves to the even neighbour: numpy's
    [rint] and Python's [round] with one argument. *)
Definition rint (q : Q) : Z :=
  let f := Qfloor q in
  match Qcompare (q - inject_Z f) (1 # 2) with
  | Lt => f
  | Gt => f + 1
  | Eq => if Z.even f then f else f + 1
  end.

Definition py_round (q : Q) : Z := rint q.

(** [np.round(val, decimals)]: scale by a power of ten, round, scale back. *)
Definition np_round (val : Q) (decimals : Z) : Q :=
  let scale := inject_Z (10 ^ Z.abs decimals) in
  if 0 <=? decimals then Qred (inject_Z (rint (val * scale)) / scale)
  else Qred (inject_Z (rint (val / scale)) * scale).

(** [int(x)]: truncation towards zero. *)
Definition py_int (q : Q) : Z := Z.quot (Qnum q) (Zpos (Qden q)).

(** A formatted metric is a Python [int] or a floating value. *)
Inductive Value : Type :=
| VInt (z : Z)
| VFloat (q : Q).

Definition is_int (v : Value) : bool :=
  match v with VInt _ => true | VFloat _ => false end.

Definition perform_format {S} (val : Q) (num_decimal_places : Z) : Eff S Value :=
  assert (0 <=? num_decimal_places) ;;
  let rounded_val := np_round val num_decimal_places in
  if num_decimal_places =? 0 then ret (VInt (py_int rounded_val))
  else ret (VFloat rounded_val).

(** ** The metric registry *)

(** [_METRICS_TO_LABEL_DICT], in insertion order: feature name, label and
    number of decimal places. *)
Definition _METRICS_TO_LABEL_DICT : list (string * (string * Z)) :=
  [("reward_all_regions", ("Total Episode Reward", 2));
   ("global_temperature", ("Global Temperature Rise", 2));
   ("global_carbon_mass", ("Global Carbon Mass", 0));
   ("capital_all_regions", ("Total Capital", 0));
   ("production_all_regions", ("Total Production", 0));
   ("gross_output_all_regions", ("Total Gross Output", 0));
   ("investment_all_regions", ("Total Investment", 0));
   ("abatement_cost_all_regions", ("Total Abatement Cost", 2))].

Definition _NUM_ROLLOUT_EPISODES : Z := 5.
Definition _SEED : Z := 123456.

(** [d[key]] on an ordered dictionary. *)
Fixpoint odict_get {V} (d : list (string * V)) (key : string) : Outcome V :=
  match d with
  | [] => Raise (KeyError key)
  | (k, v) :: rest => if bool_decide (k = key) then Return v else odict_get rest key
  end.

(** [d[key]] on a dictionary. *)
Definition dict_get {K V} `{Countable K} (show : K -> string)
    (d : gmap K V) (key : K) : Outcome V :=
  match d !! key with
  | Some v => Return v
  | None => Raise (KeyError (show key))
  end.

(** [l[i] = v] on a list: an index out of range raises. *)
Definition list_set {A} (l : list A) (i : nat) (v : A) : Outcome (list A) :=
  if bool_decide (i < length l)%nat then Return (<[i := v]> l)
  else Raise IndexError.

(** ** The world outside the script *)

(** An episode state maps a feature name to its array. *)
Abbreviation EpisodeState := (gmap string Array).
Abbreviation Metrics := (gmap string Value).

(** Calls that leave the script, in the order they are made. *)
Inductive Event (T : Type) : Type :=
| EvListdir (results_dir : string)
| EvRunUnittests (results_dir : string)
| EvOpen (path : string)
| EvCreateTrainer
| EvLoadCheckpoints (trainer : T) (results_dir : string)
| EvFetchEpisodeStates (trainer : T)
| EvGracefulClose (trainer : T).
Arguments EvListdir {T} results_dir.
Arguments EvRunUnittests {T} results_dir.
Arguments EvOpen {T} path.
Arguments EvCreateTrainer {T}.
Arguments EvLoadCheckpoints {T} trainer results_dir.
Arguments EvFetchEpisodeStates {T} trainer.
Arguments EvGracefulClose {T} trainer.

(** The state [X] of the machine (files, processes, the trainer's
    internals) and the calls made so far. *)
Record World (X T : Type) : Type := {
  ext : X;
  trace : list (Event T)
}.
Arguments ext {X T} w.
Arguments trace {X T} w.

(** The world after a call [ev] that left the machine in state [x']. *)
Definition record_call {X T} (ev : Event T) (x' : X) (w : World X T) : World X T :=
  {| ext := x'; trace := trace w ++ [ev] |}.

(** An external call: it is recorded, then it runs on the machine state. *)
Definition extern {X T A} (ev : Event T) (f : Eff X A) : Eff (World X T) A :=
  fun w =>
    let '(r, x') := f (ext w) in
    (r, record_call ev x' w).

(** A query of the machine state that cannot fail. *)
Definition query {X T A} (f : X -> A) : Eff (World X T) A :=
  fun w => (Return (f (ext w)), w).

(** The three functions a backend module supplies. *)
Record Backend (X T C : Type) : Type := {
  create_trainer : C -> option Z -> Eff X T;
  load_model_checkpoints : T -> string -> Eff X unit;
  fetch_episode_states : T -> list string -> Eff X EpisodeState
}.
Arguments create_trainer {X T C} b.
Arguments load_model_checkpoints {X T C} b.
Arguments fetch_episode_states {X T C} b.

(** Everything the script reaches outside itself: the file system, the unit
    test process, the YAML parser, the two backend modules and the
    trainer's shutdown method. *)
Record Env (X T C : Type) : Type := {
  os_listdir : string -> Eff X (list string);
  os_path_exists : string -> X -> bool;
  run_unittests : string -> Eff X unit;
  open_read : string -> Eff X string;
  yaml_safe_load : string -> Outcome C;
  train_with_rllib : Backend X T C;
  train_with_warp_drive : Backend X T C;
  graceful_close : T -> Eff X unit
}.
Arguments os_listdir {X T C} e.
Arguments os_path_exists {X T C} e.
Arguments run_unittests {X T C} e.
Arguments open_read {X T C} e.
Arguments yaml_safe_load {X T C} e.
Arguments train_with_rllib {X T C} e.
Arguments train_with_warp_drive {X T C} e.
Arguments graceful_close {X T C} e.

(** ** Episode rollouts and metric aggregation *)

(** The dictionaries and the list that [compute_metrics] fills in place. *)
Record MetricsLocals : Type := {
  cm_episode_states : gmap nat EpisodeState;
  cm_eval_metrics : Metrics;
  cm_feature_values : list (option Q)
}.

Definition set_episode_state (episode_id : nat) (st : EpisodeState) (l : MetricsLocals) :=
  {| cm_episode_states := <[episode_id := st]> (cm_episode_states l);
     cm_eval_metrics := cm_eval_metrics l;
     cm_feature_values := cm_feature_values l |}.

Definition set_eval_metrics (m : Metrics) (l : MetricsLocals) :=
  {| cm_episode_states := cm_episode_states l;
     cm_eval_metrics := m;
     cm_feature_values := cm_feature_values l |}.

Definition set_feature_values (fv : list (option Q)) (l : MetricsLocals) :=
  {| cm_episode_states := cm_episode_states l;
     cm_eval_metrics := cm_eval_metrics l;
     cm_feature_values := fv |}.

(** [episode_states = {}] and [eval_metrics = {}]. *)
Definition metrics_locals0 : MetricsLocals :=
  {| cm_episode_states := ∅; cm_eval_metrics := ∅; cm_feature_values := [] |}.

Definition available_frameworks : list string := ["rllib"; "warpdrive"].

(** A [for] loop without [break]. *)
Definition for_all {S B} (xs : list B) (body : B -> Eff S unit) : Eff S unit :=
  for_each xs (fun x => body x ;; ret Continue).

Section Metrics.
Context {X T : Type}.

(** [episode_states[episode_id][feature]] *)
Definition episode_feature (episode_id : nat) (feature : string)
  : Eff (MetricsLocals * World X T) Array :=
  l <- locals ;;
  state <- pure (dict_get pretty (cm_episode_states l) episode_id) ;;
  pure (dict_get id state feature).

(** [feature_values[episode_id] = v] *)
Definition store_feature_value (episode_id : nat) (v : Q)
  : Eff (MetricsLocals * World X T) unit :=
  l <- locals ;;
  fv <- pure (list_set (cm_feature_values l) episode_id (Some v)) ;;
  assign (set_feature_values fv).

(** The three reductions of an episode's array to a scalar. *)
Definition reduce_feature (feature : string) (num_episodes : Z)
  : Eff (MetricsLocals * World X T) unit :=
  if bool_decide (feature = "global_temperature") then
    for_all (range num_episodes) (fun episode_id =>
      a <- episode_feature episode_id feature ;;
      last <- pure (index2 a (-1) 0) ;;
      b <- episode_feature episode_id feature ;;
      first <- pure (index2 b 0 0) ;;
      store_feature_value episode_id (last - first)%Q)
  else if bool_decide (feature = "global_carbon_mass") then
    for_all (range num_episodes) (fun episode_id =>
      a <- episode_feature episode_id feature ;;
      last <- pure (index2 a (-1) 0) ;;
      store_feature_value episode_id last)
  else
    for_all (range num_episodes) (fun episode_id =>
      a <- episode_feature episode_id feature ;;
      store_feature_value episode_id (np_sum a)).

(** One round of the loop over the features: the mean over the episodes,
    formatted and stored under the feature's label. *)
Definition feature_metric (num_episodes : Z) (feature : string)
  : Eff (MetricsLocals * World X T) unit :=
  assign (set_feature_values (replicate (Z.to_nat num_episodes) None)) ;;
  reduce_feature feature num_episodes ;;
  l <- locals ;;
  mean_feature_value <- pure (np_mean (cm_feature_values l)) ;;
  metrics_to_label_dict <- pure (odict_get _METRICS_TO_LABEL_DICT feature) ;;
  v <- perform_format mean_feature_value (snd metrics_to_label_dict) ;;
  l <- locals ;;
  assign (set_eval_metrics (<[fst metrics_to_label_dict := v]> (cm_eval_metrics l))).

(** The body of the [try] block. *)
Definition compute_metrics_try
    (fetch : T -> list string -> Eff X EpisodeState) (trainer : T)
    (num_episodes : Z) (desired_outputs : list string)
  : Eff (MetricsLocals * World X T) unit :=
  for_all (range num_episodes) (fun episode_id =>
    st <- world (extern (EvFetchEpisodeStates trainer)
                        (fetch trainer desired_outputs)) ;;
    assign (set_episode_state episode_id st)) ;;
  for_all desired_outputs (feature_metric num_episodes).

Definition compute_metrics
    (fetch : option (T -> list string -> Eff X EpisodeState))
    (trainer : option T) (framework : option string) (num_episodes : Z)
  : Eff (World X T) (bool * string * Metrics) :=
  fetch_episode_states <- assert_not_none fetch ;;
  trainer <- assert_not_none trainer ;;
  assert (bool_decide (framework ∈ Some <$> available_frameworks)) ;;
  let desired_outputs := _METRICS_TO_LABEL_DICT.*1 in
  call metrics_locals0
    (r <- try_except
            (compute_metrics_try fetch_episode_states trainer num_episodes
                                 desired_outputs ;;
             ret (true, "Successful submission"))
            (fun err =>
               assign (set_eval_metrics ∅) ;;
               ret (false, "Could not obtain an episode rollout!")) ;;
     l <- locals ;;
     ret (r.1, r.2, cm_eval_metrics l)).
End Metrics.

(** ** The top-level evaluator *)

(** [os.path.join(a, b)] for a relative [b] on a POSIX system. *)
Definition ends_with_slash (a : string) : bool :=
  match last (String.list_ascii_of_string a) with
  | Some c => bool_decide (c = "/"%char)
  | None => false
  end.

Definition os_path_join (a b : string) : string :=
  if bool_decide (a = "") || ends_with_slash a then a +:+ b
  else a +:+ "/" +:+ b.

(** How an f-string prints a value that is a string or [None]. *)
Definition fmt (v : option string) : string :=
  match v with
  | Some s => s
  | None => "None"
  end.

(** The locals of [perform_evaluation] that its handlers assign. *)
Record EvalLocals : Type := {
  pe_success : bool;
  pe_comment : string;
  pe_eval_metrics : Metrics
}.

Definition set_pe_success (b : bool) (l : EvalLocals) :=
  {| pe_success := b; pe_comment := pe_comment l;
     pe_eval_metrics := pe_eval_metrics l |}.

Definition set_pe_comment (c : string) (l : EvalLocals) :=
  {| pe_success := pe_success l; pe_comment := c;
     pe_eval_metrics := pe_eval_metrics l |}.

Definition set_pe_eval_metrics (m : Metrics) (l : EvalLocals) :=
  {| pe_success := pe_success l; pe_comment := pe_comment l;
     pe_eval_metrics := m |}.

Section Evaluation.
Context {X T C : Type}.
Variable env : Env X T C.

(** The backend modules are taken as loaded: an import gives the module's
    three functions. *)
Definition get_imports {S} (framework : option string) : Eff S (Backend X T C) :=
  assert (bool_decide (is_Some framework)) ;;
  if bool_decide (framework = Some "rllib") then ret (train_with_rllib env)
  else if bool_decide (framework = Some "warpdrive") then ret (train_with_warp_drive env)
  else raise (ValueError ("Unknown framework " +:+ fmt framework +:+ "!")).

(** The [except] clauses: each assigns [success] and [comment] only. *)
Definition fail_with {W} (comment : string) (err : Exn) : Eff (EvalLocals * W) unit :=
  assign (set_pe_success false) ;;
  assign (set_pe_comment comment).

(** The innermost [try] block. *)
Definition metrics_stage (imports : Backend X T C) (trainer : T)
    (framework : option string) (num_episodes : Z)
  : Eff (EvalLocals * World X T) unit :=
  r <- world (compute_metrics (Some (fetch_episode_states imports))
                              (Some trainer) framework num_episodes) ;;
  assign (set_pe_success r.1.1) ;;
  assign (set_pe_comment r.1.2) ;;
  assign (set_pe_eval_metrics r.2) ;;
  (if bool_decide (framework = Some "warpdrive") then
     world (extern (EvGracefulClose trainer) (graceful_close env trainer))
   else ret tt).

(** The block that follows the directory validation. *)
Definition evaluation_stages (results_dir : string) (framework : option string)
    (num_episodes : Z) (eval_seed : option Z)
  : Eff (EvalLocals * World X T) unit :=
  world (extern (EvRunUnittests results_dir) (run_unittests env results_dir)) ;;
  imports <- get_imports framework ;;
  let config_file :=
    os_path_join results_dir ("rice_" +:+ fmt framework +:+ ".yaml") in
  present <- world (query (os_path_exists env config_file)) ;;
  if negb present then
    assign (set_pe_success false) ;;
    assign (set_pe_comment
              ("The run configuration is missing in " +:+ results_dir +:+ "."))
  else
    contents <- world (extern (EvOpen config_file) (open_read env config_file)) ;;
    run_config <- pure (yaml_safe_load env contents) ;;
    try_except
      (trainer <- world (extern EvCreateTrainer
                                (create_trainer imports run_config eval_seed)) ;;
       try_except
         (world (extern (EvLoadCheckpoints trainer results_dir)
                        (load_model_checkpoints imports trainer results_dir)) ;;
          try_except
            (metrics_stage imports trainer framework num_episodes)
            (fail_with "Count not fetch episode and compute metrics."))
         (fail_with "Could not load model checkpoints."))
      (fail_with "Could not create trainer with the run_config provided.").

Definition perform_evaluation (results_dir : option string) (num_episodes : Z)
    (eval_seed : option Z)
  : Eff (World X T) (option string * bool * Metrics * string) :=
  dir <- assert_not_none results_dir ;;
  assert (0 <? num_episodes) ;;
  r <- validate_dir (fun d => extern (EvListdir d) (os_listdir env d))
                    results_dir ;;
  let framework := r.1.1 in
  call {| pe_success := r.1.2; pe_comment := r.2; pe_eval_metrics := ∅ |}
    ((if r.1.2 then
        try_except
          (evaluation_stages dir framework num_episodes eval_seed)
          (fail_with "Unit tests were not successful.")
      else ret tt) ;;
     l <- locals ;;
     ret (framework, pe_success l, pe_eval_metrics l, pe_comment l)).
End Evaluation.

(** ** The command line entry point *)

(** [s.endswith(suffix)] *)
Definition ends_with (s suffix : string) : bool :=
  let n := String.length s in
  let k := String.length suffix in
  (k <=? n)%nat && bool_decide (String.substring (n - k) k s = suffix).

(** What the entry point reaches beyond the evaluator: the clock, read as
    [str(time.time())], and [shutil.unpack_archive]. *)
Record Shell (X : Type) : Type := {
  clock : X -> string;
  unpack_archive : string -> string -> Eff X unit
}.
Arguments clock {X} s.
Arguments unpack_archive {X} s.

(** An external call that the trace does not record. *)
Definition silent {X T A} (f : Eff X A) : Eff (World X T) A :=
  fun w =>
    let '(r, x') := f (ext w) in
    (r, {| ext := x'; trace := trace w |}).

Section Main.
Context {X T C : Type}.
Variable env : Env X T C.
Variable shell : Shell X.

(** [get_results_dir], from the parsed [--results_dir] argument on (the
    argument has a default, so it is always among the parsed ones); the
    directory is returned without the parser. *)
Definition get_results_dir (results_dir : string) : Eff (World X T) string :=
  present <- query (os_path_exists env results_dir) ;;
  if negb present then
    raise (ValueError ("The results directory is missing. Please make sure the "
                       +:+ "correct path is specified!"))
  else ret results_dir.

(** The body of the script, returning what it logs. *)
Definition main (argument : string)
  : Eff (World X T) (option string * bool * Metrics * string) :=
  results_dir <- get_results_dir argument ;;
  results_dir <-
    (if ends_with results_dir ".zip" then
       now <- query (clock shell) ;;
       let unzipped_results_dir := os_path_join "/tmp" now in
       silent (unpack_archive shell results_dir unzipped_results_dir) ;;
       ret unzipped_results_dir
     else ret results_dir) ;;
  perform_evaluation env (Some results_dir) _NUM_ROLLOUT_EPISODES (Some _SEED).
End Main.

(** ** A family of concrete machines

    The machine state counts the episodes fetched so far; everything else
    is fixed by a scenario: the directory listing, whether the run
    configuration is seen, and the outcome of each external call. *)

Record Scenario : Type := {
  sc_listing : Outcome (list string);
  sc_config_present : bool;
  sc_unittests : Outcome unit;
  sc_open : Outcome string;
  sc_yaml : Outcome string;
  sc_create : Outcome nat;
  sc_load : Outcome unit;
  sc_fetch : nat -> Outcome EpisodeState;
  sc_close : Outcome unit
}.

Definition scenario_backend (sc : Scenario) : Backend nat nat string :=
  {| create_trainer := fun _ _ => pure (sc_create sc);
     load_model_checkpoints := fun _ _ => pure (sc_load sc);
     fetch_episode_states := fun _ _ => fun n => (sc_fetch sc n, S n) |}.

Definition scenario_env (sc : Scenario) : Env nat nat string :=
  {| os_listdir := fun _ => pure (sc_listing sc);
     os_path_exists := fun _ _ => sc_config_present sc;
     run_unittests := fun _ => pure (sc_unittests sc);
     open_read := fun _ => pure (sc_open sc);
     yaml_safe_load := fun _ => sc_yaml sc;
     train_with_rllib := scenario_backend sc;
     train_with_warp_drive := scenario_backend sc;
     graceful_close := fun _ => pure (sc_close sc) |}.

Definition start : World nat nat := {| ext := 0%nat; trace := [] |}.

(** An episode whose arrays all hold the same two time steps of two
    regions, shifted by the episode number. *)
Definition demo_array (n : nat) : Array :=
  let k := inject_Z (Z.of_nat n) in
  [[(1 + k)%Q; (2 # 1)%Q]; [(7 # 2) + k; (4 # 1)]%Q].

Definition demo_episode (n : nat) : EpisodeState :=
  list_to_map ((fun f => (f, demo_array n)) <$> _METRICS_TO_LABEL_DICT.*1).

Definition good_warpdrive : Scenario :=
  {| sc_listing := Return (".warpdrive" :: warpdrive_files);
     sc_config_present := true;
     sc_unittests := Return tt;
     sc_open := Return "seed: 1";
     sc_yaml := Return "seed: 1";
     sc_create := Return 7%nat;
     sc_load := Return tt;
     sc_fetch := fun n => Return (demo_episode n);
     sc_close := Return tt |}.

Definition good_rllib : Scenario :=
  {| sc_listing := Return (".rllib" :: rllib_files);
     sc_config_present := true;
     sc_unittests := Return tt;
     sc_open := Return "seed: 1";
     sc_yaml := Return "seed: 1";
     sc_create := Return 7%nat;
     sc_load := Return tt;
     sc_fetch := fun n => Return (demo_episode n);
     sc_close := Return tt |}.

(** A rollout worker that dies during the second episode. *)
Definition crashing_rollout : Scenario :=
  {| sc_listing := Return (".rllib" :: rllib_files);
     sc_config_present := true;
     sc_unittests := Return tt;
     sc_open := Return "seed: 1";
     sc_yaml := Return "seed: 1";
     sc_create := Return 7%nat;
     sc_load := Return tt;
     sc_fetch := fun n => if (n <? 1)%nat then Return (demo_episode n)
                          else Raise (OtherError "rollout worker died");
     sc_close := Return tt |}.

(** A trainer whose shutdown fails. *)
Definition failing_close : Scenario :=
  {| sc_listing := Return (".warpdrive" :: warpdrive_files);
     sc_config_present := true;
     sc_unittests := Return tt;
     sc_open := Return "seed: 1";
     sc_yaml := Return "seed: 1";
     sc_create := Return 7%nat;
     sc_load := Return tt;
     sc_fetch := fun n => Return (demo_episode n);
     sc_close := Raise (OtherError "device context lost") |}.

(** A run configuration that is listed but cannot be reached (a dangling
    link, say). *)
Definition missing_config : Scenario :=
  {| sc_listing := Return (".rllib" :: rllib_files);
     sc_config_present := false;
     sc_unittests := Return tt;
     sc_open := Raise (OtherError "FileNotFoundError");
     sc_yaml := Return "seed: 1";
     sc_create := Return 7%nat;
     sc_load := Return tt;
     sc_fetch := fun n => Return (demo_episode n);
     sc_close := Return tt |}.

(** A run configuration that is not valid YAML. *)
Definition broken_yaml : Scenario :=
  {| sc_listing := Return (".rllib" :: rllib_files);
     sc_config_present := true;
     sc_unittests := Return tt;
     sc_open := Return "seed: [1";
     sc_yaml := Raise (OtherError "yaml.parser.ParserError");
     sc_create := Return 7%nat;
     sc_load := Return tt;
     sc_fetch := fun n => Return (demo_episode n);
     sc_close := Return tt |}.

(** A results directory that cannot be listed. *)
Definition unlisted_directory : Scenario :=
  {| sc_listing := Raise (OtherError "FileNotFoundError");
     sc_config_present := true;
     sc_unittests := Return tt;
     sc_open := Return "seed: 1";
     sc_yaml := Return "seed: 1";
     sc_create := Return 7%nat;
     sc_load := Return tt;
     sc_fetch := fun n => Return (demo_episode n);
     sc_close := Return tt |}.

(** A directory with the sources but no marker file. *)
Definition no_marker : Scenario :=
  {| sc_listing := Return ["rice.py"; "rice_helpers.py"; "rice_rllib.yaml"];
     sc_config_present := true;
     sc_unittests := Return tt;
     sc_open := Return "seed: 1";
     sc_yaml := Return "seed: 1";
     sc_create := Return 7%nat;
     sc_load := Return tt;
     sc_fetch := fun n => Return (demo_episode n);
     sc_close := Return tt |}.

(** Unit tests that exit with a non-zero status. *)
Definition failing_unittests : Scenario :=
  {| sc_listing := Return (".rllib" :: rllib_files);
     sc_config_present := true;
     sc_unittests := Raise CalledProcessError;
     sc_open := Return "seed: 1";
     sc_yaml := Return "seed: 1";
     sc_create := Return 7%nat;
     sc_load := Return tt;
     sc_fetch := fun n => Return (demo_episode n);
     sc_close := Return tt |}.

(** A backend that rejects the run configuration. *)
Definition failing_create : Scenario :=
  {| sc_listing := Return (".rllib" :: rllib_files);
     sc_config_present := true;
     sc_unittests := Return tt;
     sc_open := Return "seed: 1";
     sc_yaml := Return "seed: 1";
     sc_create := Raise (OtherError "bad run configuration");
     sc_load := Return tt;
     sc_fetch := fun n => Return (demo_episode n);
     sc_close := Return tt |}.

(** A warpdrive submission whose checkpoints cannot be loaded. *)
Definition failing_load : Scenario :=
  {| sc_listing := Return (".warpdrive" :: warpdrive_files);
     sc_config_present := true;
     sc_unittests := Return tt;
     sc_open := Return "seed: 1";
     sc_yaml := Return "seed: 1";
     sc_create := Return 7%nat;
     sc_load := Raise (OtherError "no checkpoint found");
     sc_fetch := fun n => Return (demo_episode n);
     sc_close := Return tt |}.

(** A warpdrive rollout that dies during the second episode. *)
Definition crashing_warpdrive : Scenario :=
  {| sc_listing := Return (".warpdrive" :: warpdrive_files);
     sc_config_present := true;
     sc_unittests := Return tt;
     sc_open := Return "seed: 1";
     sc_yaml := Return "seed: 1";
     sc_create := Return 7%nat;
     sc_load := Return tt;
     sc_fetch := fun n => if (n <? 1)%nat then Return (demo_episode n)
                          else Raise (OtherError "rollout worker died");
     sc_close := Return tt |}.

(** Episodes that lack the carbon mass. *)
Definition sparse_episodes : Scenario :=
  {| sc_listing := Return (".rllib" :: rllib_files);
     sc_config_present := true;
     sc_unittests := Return tt;
     sc_open := Return "seed: 1";
     sc_yaml := Return "seed: 1";
     sc_create := Return 7%nat;
     sc_load := Return tt;
     sc_fetch := fun n => Return (delete "global_carbon_mass" (demo_episode n));
     sc_close := Return tt |}.

(** Episodes whose temperature array has no time step. *)
Definition empty_temperature : Scenario :=
  {| sc_listing := Return (".rllib" :: rllib_files);
     sc_config_present := true;
     sc_unittests := Return tt;
     sc_open := Return "seed: 1";
     sc_yaml := Return "seed: 1";
     sc_create := Return 7%nat;
     sc_load := Return tt;
     sc_fetch := fun n => Return (<["global_temperature" := []]> (demo_episode n));
     sc_close := Return tt |}.

(** A clock that reads a fixed time and an archive that unpacks. *)
Definition demo_shell : Shell nat :=
  {| clock := fun _ => "1700000000.5";
     unpack_archive := fun _ _ => pure (Return tt) |}.

(** ** Definitions used to state the properties *)

(** The first required file, in check order, that the listing lacks. *)
Definition first_missing (required files : list string) : option string :=
  head (filter (fun f => f ∉ files) required).

(** The backend a listing selects, and the companion files it requires. *)
Definition marker_backend (files : list string) : option string :=
  if bool_decide (".warpdrive" ∈ files) then Some "warpdrive"
  else if bool_decide (".rllib" ∈ files) then Some "rllib"
  else None.

Definition required_files (framework : string) : list string :=
  if bool_decide (framework = "warpdrive") then warpdrive_files else rllib_files.

(** What the loop over the required files leaves in [success] and [comment]. *)
Definition verdict (required files : list string) (l : ValidateLocals) : ValidateLocals :=
  match first_missing required files with
  | Some file => set_comment (not_present file) (set_success false l)
  | None =>
      match required with
      | [] => l
      | _ => set_comment "Valid submission" (set_success true l)
      end
  end.

(** The module a valid framework tag imports. *)
Definition backend_of {X T C} (env : Env X T C) (framework : string) : Backend X T C :=
  if bool_decide (framework = "rllib") then train_with_rllib env
  else train_with_warp_drive env.

(** The locals of [perform_evaluation] after unpacking the result of
    [compute_metrics], and after an [except] clause. *)
Definition assigned (r : bool * string * Metrics) (l : EvalLocals) : EvalLocals :=
  set_pe_eval_metrics r.2 (set_pe_comment r.1.2 (set_pe_success r.1.1 l)).

Definition failed (comment : string) (l : EvalLocals) : EvalLocals :=
  set_pe_comment comment (set_pe_success false l).

(** The trainers shut down in a trace. *)
Definition shutdowns {T} (tr : list (Event T)) : list T :=
  omap (fun ev => match ev with EvGracefulClose t => Some t | _ => None end) tr.

(** The mapping an evaluation returns. *)
Definition metrics_of (r : Outcome (option string * bool * Metrics * string)) : Metrics :=
  match r with
  | Return (_, _, m, _) => m
  | Raise _ => ∅
  end.

(** The value of an outcome, when there is one. *)
Definition defined {A} (r : Outcome A) : option A :=
  match r with
  | Return a => Some a
  | Raise _ => None
  end.

(** The scalar an episode contributes to a feature: the rise of column 0
    over the episode for the temperature, the last value of column 0 for
    the carbon mass, the sum of the whole array for every other feature. *)
Definition episode_scalar (feature : string) (ep : EpisodeState) : option Q :=
  arr ← ep !! feature;
  if bool_decide (feature = "global_temperature") then
    last ← defined (index2 arr (-1) 0);
    first ← defined (index2 arr 0 0);
    Some (last - first)%Q
  else if bool_decide (feature = "global_carbon_mass") then
    defined (index2 arr (-1) 0)
  else Some (np_sum arr).

Definition episode_scalars (feature : string) (eps : list EpisodeState)
  : option (list Q) :=
  mapM (episode_scalar feature) eps.

(** A mean rounded to a precision: an integer for precision 0. *)
Definition rounded (v : Q) (precision : Z) : Value :=
  if precision =? 0 then VInt (py_round v) else VFloat (np_round v precision).

(** The metrics of a list of episodes, one registry entry after the other. *)
Fixpoint aggregate (eps : list EpisodeState)
    (registry : list (string * (string * Z))) (m : Metrics) : option Metrics :=
  match registry with
  | [] => Some m
  | (feature, (label, precision)) :: rest =>
      qs ← episode_scalars feature eps;
      aggregate eps rest (<[label := rounded (Qmean qs) precision]> m)
  end.

Definition expected_metrics (eps : list EpisodeState) : option Metrics :=
  aggregate eps _METRICS_TO_LABEL_DICT ∅.

(** The labels of the registry. *)
Definition labels : gset string := list_to_set (_METRICS_TO_LABEL_DICT.*2.*1).

(** [k] successive calls of the fetch function. *)
Fixpoint rollouts {X T} (fetch : T -> list string -> Eff X EpisodeState)
    (trainer : T) (desired_outputs : list string) (k : nat)
  : Eff (World X T) (list EpisodeState) :=
  match k with
  | O => ret []
  | S k' =>
      st <- extern (EvFetchEpisodeStates trainer) (fetch trainer desired_outputs) ;;
      rest <- rollouts fetch trainer desired_outputs k' ;;
      ret (st :: rest)
  end.

(** The episode dictionary after storing [eps] from index [i] on. *)
Fixpoint store_episodes (i : nat) (eps : list EpisodeState)
    (m : gmap nat EpisodeState) : gmap nat EpisodeState :=
  match eps with
  | [] => m
  | ep :: rest => store_episodes (S i) rest (<[i := ep]> m)
  end.

Definition with_episodes (m : gmap nat EpisodeState) (l : MetricsLocals) :=
  {| cm_episode_states := m;
     cm_eval_metrics := cm_eval_metrics l;
     cm_feature_values := cm_feature_values l |}.

(** The list of feature values after storing [qs] from index [i] on. *)
Definition fill (i : nat) (qs : list Q) (fv : list (option Q)) : list (option Q) :=
  take i fv ++ (Some <$> qs) ++ drop (i + length qs) fv.

(** The stages from the unit tests to the loading of the checkpoints all
    succeed, giving [trainer] and leaving the world [w4]. *)
Definition stages_loaded {X T C} (env : Env X T C) (dir framework : string)
    (seed : option Z) (w1 : World X T) (trainer : T) (w4 : World X T) : Prop :=
  let config_file := os_path_join dir ("rice_" +:+ framework +:+ ".yaml") in
  exists x1 contents x2 run_config x3 x4,
    run_unittests env dir (ext w1) = (Return tt, x1)
    /\ os_path_exists env config_file x1 = true
    /\ open_read env config_file x1 = (Return contents, x2)
    /\ yaml_safe_load env contents = Return run_config
    /\ create_trainer (backend_of env framework) run_config seed x2
       = (Return trainer, x3)
    /\ load_model_checkpoints (backend_of env framework) trainer dir x3
       = (Return tt, x4)
    /\ w4 = record_call (EvLoadCheckpoints trainer dir) x4
              (record_call EvCreateTrainer x3
                 (record_call (EvOpen config_file) x2
                    (record_call (EvRunUnittests dir) x1 w1))).

(** The place of a call in the pipeline. *)
Definition phase {T} (ev : Event T) : nat :=
  match ev with
  | EvListdir _ => 1
  | EvRunUnittests _ => 2
  | EvOpen _ => 3
  | EvCreateTrainer => 4
  | EvLoadCheckpoints _ _ => 5
  | EvFetchEpisodeStates _ => 6
  | EvGracefulClose _ => 7
  end.

(** Calls made in pipeline order after phase [prev]: each call is the next
    phase, or one more fetch. *)
Fixpoint in_order {T} (prev : nat) (evs : list (Event T)) : bool :=
  match evs with
  | [] => true
  | ev :: rest =>
      ((phase ev =? S prev)%nat || ((phase ev =? 6)%nat && (prev =? 6)%nat))
      && in_order (phase ev) rest
  end.

(** The order of two formatted values of the same kind. *)
Definition value_le (a b : Value) : Prop :=
  match a, b with
  | VInt x, VInt y => x <= y
  | VFloat x, VFloat y => (x <= y)%Q
  | _, _ => False
  end.

(** ** numpy's machine numbers

    The metrics that the script returns are numpy values: 64-bit integers,
    which wrap around, and float64 numbers, which are rounded after every
    operation and include the infinities and NaN.  This module embeds
    [perform_format] and [compute_metrics] once more, over such values,
    for the properties that are about the values of the metrics.

    A float64 is represented by its value, a rational number; zeros carry
    no sign (the script divides by zero only when it takes the mean of an
    empty list, where the sign plays no part).  Arrays have two dimensions
    and dtype int64 or float64.  Two things are left open, as parameters:
    - [rnd x], the float64 nearest to the real number [x], an infinity
      when [x] is out of range;
    - [add_reduce l], the sum of the float64 numbers [l] as numpy's
      reduction computes it: additions rounded one by one, in an order of
      numpy's choosing (pairwise, in blocks).
    [binary64] and [add_in_order] below are IEEE 754's rounding and the
    summation from the left; they serve on concrete inputs. *)

Module Numpy.

(** A float64: a finite value, an infinity or NaN. *)
Inductive float64 : Type :=
| Finite (q : Q)
| Inf (negative : bool)
| NaN.

(** A numpy scalar: [np.int64] or [np.float64]. *)
Inductive Scalar : Type :=
| Int64 (z : Z)
| Float64 (f : float64).

(** An array of two dimensions, of dtype int64 or float64: a list of rows
    (time steps) of columns (regions). *)
Inductive Array : Type :=
| IntArray (rows : list (list Z))
| FloatArray (rows : list (list float64)).

(** What [perform_format] returns: a Python [int] or a numpy scalar. *)
Inductive Value : Type :=
| PyInt (z : Z)
| Np (x : Scalar).

Definition integer_typed (v : Value) : bool :=
  match v with
  | PyInt _ => true
  | Np (Int64 _) => true
  | Np (Float64 _) => false
  end.

(** 64-bit two's complement wrap-around. *)
Definition int64 (z : Z) : Z := (z + 2 ^ 63) mod 2 ^ 64 - 2 ^ 63.

(** The float64 nearest to a real number. *)
Class Rounding : Type := rnd : Q -> float64.

(** numpy's sum of float64 numbers. *)
Class Reduction : Type := add_reduce : list float64 -> float64.

Definition is_zero (q : Q) : bool := Qeq_bool q 0.

Definition is_negative (q : Q) : bool := negb (Qle_bool 0 q).

Section Float64.
Context {rounding : Rounding}.

(** The operations of IEEE 754 on float64. *)
Definition float_opp (x : float64) : float64 :=
  match x with
  | Finite a => Finite (- a)
  | Inf s => Inf (negb s)
  | NaN => NaN
  end.

Definition float_add (x y : float64) : float64 :=
  match x, y with
  | NaN, _ | _, NaN => NaN
  | Inf s, Inf s' => if Bool.eqb s s' then Inf s else NaN
  | Inf s, Finite _ => Inf s
  | Finite _, Inf s' => Inf s'
  | Finite a, Finite b => rnd (a + b)
  end.

Definition float_subtract (x y : float64) : float64 := float_add x (float_opp y).

Definition float_multiply (x y : float64) : float64 :=
  match x, y with
  | NaN, _ | _, NaN => NaN
  | Inf s, Inf s' => Inf (xorb s s')
  | Inf s, Finite b => if is_zero b then NaN else Inf (xorb s (is_negative b))
  | Finite a, Inf s' => if is_zero a then NaN else Inf (xorb (is_negative a) s')
  | Finite a, Finite b => rnd (a * b)
  end.

Definition float_divide (x y : float64) : float64 :=
  match x, y with
  | NaN, _ | _, NaN => NaN
  | Inf _, Inf _ => NaN
  | Inf s, Finite b => Inf (xorb s (is_negative b))
  | Finite _, Inf _ => Finite 0
  | Finite a, Finite b =>
      if is_zero b then (if is_zero a then NaN else Inf (is_negative a))
      else rnd (a / b)
  end.

(** [np.rint]: the nearest integer, halves to the even neighbour.  The
    result is a float64 whenever the argument is one. *)
Definition float_rint (x : float64) : float64 :=
  match x with
  | Finite a => Finite (inject_Z (rint a))
  | _ => x
  end.

(** Conversion of a scalar to float64. *)
Definition to_float64 (x : Scalar) : float64 :=
  match x with
  | Int64 z => rnd (inject_Z z)
  | Float64 f => f
  end.

(** [a - b] on two numpy scalars. *)
Definition np_subtract (a b : Scalar) : Scalar :=
  match a, b with
  | Int64 x, Int64 y => Int64 (int64 (x - y))
  | _, _ => Float64 (float_subtract (to_float64 a) (to_float64 b))
  end.

(** [arr[i, j]] *)
Definition index2 (arr : Array) (i j : Z) : Outcome Scalar :=
  match arr with
  | IntArray rows =>
      match py_index rows i with
      | Return row =>
          match py_index row j with
          | Return z => Return (Int64 z)
          | Raise e => Raise e
          end
      | Raise e => Raise e
      end
  | FloatArray rows =>
      match py_index rows i with
      | Return row =>
          match py_index row j with
          | Return f => Return (Float64 f)
          | Raise e => Raise e
          end
      | Raise e => Raise e
      end
  end.

(** [power_of_ten(n)] of numpy's rounding code: a constant up to [1e8],
    and [1e9] multiplied by ten again and again beyond. *)
Definition power_of_ten (n : N) : float64 :=
  if (n <? 9)%N then rnd (inject_Z (10 ^ Z.of_N n))
  else N.iter (n - 9) (fun ret => float_multiply ret (rnd 10)) (rnd (inject_Z (10 ^ 9))).

(** [np.round(val, decimals)] for [decimals >= 0]: an integer is returned
    as it is; a float64 is rounded by [rint] for no decimals, and
    otherwise multiplied by the power of ten, rounded by [rint] and
    divided by the power of ten, each step in float64. *)
Definition np_round (val : Scalar) (decimals : N) : Scalar :=
  match val with
  | Int64 z => Int64 z
  | Float64 f =>
      if (decimals =? 0)%N then Float64 (float_rint f)
      else
        let p := power_of_ten decimals in
        Float64 (float_divide (float_rint (float_multiply f p)) p)
  end.

(** [int(x)]: truncation towards zero; NaN and the infinities have no
    integer. *)
Definition int (x : Scalar) : Outcome Z :=
  match x with
  | Int64 z => Return z
  | Float64 (Finite a) => Return (py_int a)
  | Float64 (Inf _) => Raise (OtherError "OverflowError")
  | Float64 NaN => Raise (ValueError "cannot convert float NaN to integer")
  end.

(** The assertion has made the number of decimal places a natural
    number when [np.round] is reached. *)
Definition perform_format {S} (val : Scalar) (num_decimal_places : Z) : Eff S Value :=
  assert (0 <=? num_decimal_places) ;;
  let rounded_val := np_round val (Z.to_N num_decimal_places) in
  if num_decimal_places =? 0 then
    z <- pure (int rounded_val) ;;
    ret (PyInt z)
  else ret (Np rounded_val).

Context {reduction : Reduction}.

(** [np.sum(arr)]: integers are added modulo [2^64]. *)
Definition np_sum (arr : Array) : Scalar :=
  match arr with
  | IntArray rows => Int64 (int64 (foldr Z.add 0 (concat rows)))
  | FloatArray rows => Float64 (add_reduce (concat rows))
  end.

(** The entries of a list, when none of them is [None]. *)
Fixpoint all_scalars (l : list (option Scalar)) : option (list Scalar) :=
  match l with
  | [] => Some []
  | None :: _ => None
  | Some x :: rest =>
      match all_scalars rest with
      | Some xs => Some (x :: xs)
      | None => None
      end
  end.

(** [np.mean(values)] of a Python list: the entries are converted to
    float64 and added, and the sum is divided by their number; a [None]
    entry is a type error. *)
Definition np_mean (values : list (option Scalar)) : Outcome Scalar :=
  match all_scalars values with
  | Some xs =>
      let total := add_reduce (to_float64 <$> xs) in
      let count := rnd (inject_Z (Z.of_nat (length xs))) in
      Return (Float64 (float_divide total count))
  | None => Raise (OtherError "TypeError")
  end.

End Float64.

Abbreviation EpisodeState := (gmap string Array).
Abbreviation Metrics := (gmap string Value).

(** The dictionaries and the list that [compute_metrics] fills in place. *)
Record MetricsLocals : Type := {
  cm_episode_states : gmap nat EpisodeState;
  cm_eval_metrics : Metrics;
  cm_feature_values : list (option Scalar)
}.

Definition set_episode_state (episode_id : nat) (st : EpisodeState) (l : MetricsLocals) :=
  {| cm_episode_states := <[episode_id := st]> (cm_episode_states l);
     cm_eval_metrics := cm_eval_metrics l;
     cm_feature_values := cm_feature_values l |}.

Definition set_eval_metrics (m : Metrics) (l : MetricsLocals) :=
  {| cm_episode_states := cm_episode_states l;
     cm_eval_metrics := m;
     cm_feature_values := cm_feature_values l |}.

Definition set_feature_values (fv : list (option Scalar)) (l : MetricsLocals) :=
  {| cm_episode_states := cm_episode_states l;
     cm_eval_metrics := cm_eval_metrics l;
     cm_feature_values := fv |}.

(** [episode_states = {}] and [eval_metrics = {}]. *)
Definition metrics_locals0 : MetricsLocals :=
  {| cm_episode_states := ∅; cm_eval_metrics := ∅; cm_feature_values := [] |}.

Section Metrics.
Context {X T : Type} {rounding : Rounding} {reduction : Reduction}.

(** [episode_states[episode_id][feature]] *)
Definition episode_feature (episode_id : nat) (feature : string)
  : Eff (MetricsLocals * World X T) Array :=
  l <- locals ;;
  state <- pure (dict_get pretty (cm_episode_states l) episode_id) ;;
  pure (dict_get id state feature).

(** [feature_values[episode_id] = v] *)
Definition store_feature_value (episode_id : nat) (v : Scalar)
  : Eff (MetricsLocals * World X T) unit :=
  l <- locals ;;
  fv <- pure (list_set (cm_feature_values l) episode_id (Some v)) ;;
  assign (set_feature_values fv).

(** The three reductions of an episode's array to a scalar. *)
Definition reduce_feature (feature : string) (num_episodes : Z)
  : Eff (MetricsLocals * World X T) unit :=
  if bool_decide (feature = "global_temperature") then
    for_all (range num_episodes) (fun episode_id =>
      a <- episode_feature episode_id feature ;;
      last <- pure (index2 a (-1) 0) ;;
      b <- episode_feature episode_id feature ;;
      first <- pure (index2 b 0 0) ;;
      store_feature_value episode_id (np_subtract last first))
  else if bool_decide (feature = "global_carbon_mass") then
    for_all (range num_episodes) (fun episode_id =>
      a <- episode_feature episode_id feature ;;
      last <- pure (index2 a (-1) 0) ;;
      store_feature_value episode_id last)
  else
    for_all (range num_episodes) (fun episode_id =>
      a <- episode_feature episode_id feature ;;
      store_feature_value episode_id (np_sum a)).

(** One round of the loop over the features: the mean over the episodes,
    formatted and stored under the feature's label. *)
Definition feature_metric (num_episodes : Z) (feature : string)
  : Eff (MetricsLocals * World X T) unit :=
  assign (set_feature_values (replicate (Z.to_nat num_episodes) None)) ;;
  reduce_feature feature num_episodes ;;
  l <- locals ;;
  mean_feature_value <- pure (np_mean (cm_feature_values l)) ;;
  metrics_to_label_dict <- pure (odict_get _METRICS_TO_LABEL_DICT feature) ;;
  v <- perform_format mean_feature_value (snd metrics_to_label_dict) ;;
  l <- locals ;;
  assign (set_eval_metrics (<[fst metrics_to_label_dict := v]> (cm_eval_metrics l))).

(** The body of the [try] block. *)
Definition compute_metrics_try
    (fetch : T -> list string -> Eff X EpisodeState) (trainer : T)
    (num_episodes : Z) (desired_outputs : list string)
  : Eff (MetricsLocals * World X T) unit :=
  for_all (range num_episodes) (fun episode_id =>
    st <- world (extern (EvFetchEpisodeStates trainer)
                        (fetch trainer desired_outputs)) ;;
    assign (set_episode_state episode_id st)) ;;
  for_all desired_outputs (feature_metric num_episodes).

Definition compute_metrics
    (fetch : option (T -> list string -> Eff X EpisodeState))
    (trainer : option T) (framework : option string) (num_episodes : Z)
  : Eff (World X T) (bool * string * Metrics) :=
  fetch_episode_states <- assert_not_none fetch ;;
  trainer <- assert_not_none trainer ;;
  assert (bool_decide (framework ∈ Some <$> available_frameworks)) ;;
  let desired_outputs := _METRICS_TO_LABEL_DICT.*1 in
  call metrics_locals0
    (r <- try_except
            (compute_metrics_try fetch_episode_states trainer num_episodes
                                 desired_outputs ;;
             ret (true, "Successful submission"))
            (fun err =>
               assign (set_eval_metrics ∅) ;;
               ret (false, "Could not obtain an episode rollout!")) ;;
     l <- locals ;;
     ret (r.1, r.2, cm_eval_metrics l)).

(** *** Definitions used to state the properties *)

(** The sum over an entire array, row by row: modulo [2^64] for
    integers, numpy's reduction of all the entries for float64. *)
Definition array_sum (arr : Array) : Scalar :=
  match arr with
  | IntArray rows => Int64 (int64 (foldr (fun row s => foldr Z.add 0 row + s) 0 rows))
  | FloatArray rows => Float64 (add_reduce (mjoin rows))
  end.

(** The scalar an episode contributes to a feature: the difference of the
    last and the first entry of column 0 for the temperature, the last
    entry of column 0 for the carbon mass, the sum of the whole array for
    every other feature. *)
Definition episode_scalar (feature : string) (ep : EpisodeState) : option Scalar :=
  arr ← ep !! feature;
  if bool_decide (feature = "global_temperature") then
    last ← defined (index2 arr (-1) 0);
    first ← defined (index2 arr 0 0);
    Some (np_subtract last first)
  else if bool_decide (feature = "global_carbon_mass") then
    defined (index2 arr (-1) 0)
  else Some (array_sum arr).

Definition episode_scalars (feature : string) (eps : list EpisodeState)
  : option (list Scalar) :=
  mapM (episode_scalar feature) eps.

(** The mean of scalars: their float64 sum divided by their number. *)
Definition mean (xs : list Scalar) : float64 :=
  float_divide (add_reduce (to_float64 <$> xs))
               (rnd (inject_Z (Z.of_nat (length xs)))).

(** A mean brought to a precision: for precision 0 the Python integer
    [round(v)], which a NaN or an infinity does not have; otherwise the
    float64 [rint(v * 10^precision) / 10^precision], the product and the
    quotient rounded. *)
Definition formatted (v : float64) (precision : Z) : option Value :=
  if precision =? 0 then
    match v with
    | Finite a => Some (PyInt (py_round a))
    | _ => None
    end
  else
    let scale := power_of_ten (Z.to_N precision) in
    Some (Np (Float64 (float_divide (float_rint (float_multiply v scale)) scale))).

(** The metrics of a list of episodes, one registry entry after the other. *)
Fixpoint aggregate (eps : list EpisodeState)
    (registry : list (string * (string * Z))) (m : Metrics) : option Metrics :=
  match registry with
  | [] => Some m
  | (feature, (label, precision)) :: rest =>
      xs ← episode_scalars feature eps;
      v ← formatted (mean xs) precision;
      aggregate eps rest (<[label := v]> m)
  end.

Definition expected_metrics (eps : list EpisodeState) : option Metrics :=
  aggregate eps _METRICS_TO_LABEL_DICT ∅.

(** [k] successive calls of the fetch function. *)
Fixpoint rollouts (fetch : T -> list string -> Eff X EpisodeState)
    (trainer : T) (desired_outputs : list string) (k : nat)
  : Eff (World X T) (list EpisodeState) :=
  match k with
  | O => ret []
  | S k' =>
      st <- extern (EvFetchEpisodeStates trainer) (fetch trainer desired_outputs) ;;
      rest <- rollouts fetch trainer desired_outputs k' ;;
      ret (st :: rest)
  end.

End Metrics.

(** The episode dictionary after storing [eps] from index [i] on. *)
Fixpoint store_episodes (i : nat) (eps : list EpisodeState)
    (m : gmap nat EpisodeState) : gmap nat EpisodeState :=
  match eps with
  | [] => m
  | ep :: rest => store_episodes (S i) rest (<[i := ep]> m)
  end.

Definition with_episodes (m : gmap nat EpisodeState) (l : MetricsLocals) :=
  {| cm_episode_states := m;
     cm_eval_metrics := cm_eval_metrics l;
     cm_feature_values := cm_feature_values l |}.

(** The list of feature values after storing [xs] from index [i] on. *)
Definition fill (i : nat) (xs : list Scalar) (fv : list (option Scalar))
  : list (option Scalar) :=
  take i fv ++ (Some <$> xs) ++ drop (i + length xs) fv.

(** *** IEEE 754 binary64 *)

(** The exponent [e] with [2^e <= q < 2^(e+1)], for a positive [q]. *)
Definition Qlog2 (q : Q) : Z :=
  let l := Z.log2 (Qnum q) - Z.log2 (Zpos (Qden q)) in
  if Qle_bool (2 ^ l) q then l else l - 1.

(** Rounding to nearest, halves to the even significand: 53 bits of
    significand, the last place of the subnormal numbers at [2^-1074],
    overflow at [2^1024]. *)
Definition binary64 (q : Q) : float64 :=
  if is_zero q then Finite 0
  else
    let e := Z.max (Qlog2 (Qabs q) - 52) (-1074) in
    let r := Qred (inject_Z (rint (q / 2 ^ e)) * 2 ^ e) in
    if Qle_bool (2 ^ 1024) (Qabs r) then Inf (is_negative q) else Finite r.

(** The additions made one after the other from the left, starting from
    zero: what numpy's reduction does on fewer than eight numbers. *)
Definition add_in_order (l : list float64) : float64 :=
  foldl (float_add (rounding := binary64)) (Finite 0) l.

(** The float64 of a decimal literal of Python. *)
Definition literal (q : Q) : Scalar := Float64 (binary64 q).

(** *** Exact values, to compare with *)

(** The value of a scalar as a real number. *)
Definition value (x : Scalar) : option Q :=
  match x with
  | Int64 z => Some (inject_Z z)
  | Float64 (Finite a) => Some a
  | Float64 _ => None
  end.

(** The sum of the entries of an array as real numbers. *)
Definition exact_sum (arr : Array) : option Q :=
  match arr with
  | IntArray rows => Some (inject_Z (foldr Z.add 0 (concat rows)))
  | FloatArray rows =>
      foldr (fun f acc => a ← value (Float64 f); s ← acc; Some (a + s)%Q)
            (Some 0%Q) (concat rows)
  end.

(** The multiple of [10^-k] nearest to [a], halves to the even one. *)
Definition decimal (a : Q) (k : Z) : Q :=
  (inject_Z (rint (a * inject_Z (10 ^ k))) / inject_Z (10 ^ k))%Q.

(** *** Concrete episodes *)

(** The float64 array written with the decimal literals [rows]. *)
Definition float_array (rows : list (list Q)) : Array :=
  FloatArray (map (map binary64) rows).

(** A fetch function whose [k]-th call returns [episode k]. *)
Definition replay (episode : nat -> EpisodeState)
  : nat -> list string -> Eff nat EpisodeState :=
  fun _ _ k => (Return (episode k), S k).

(** Two time steps of two regions, shifted by the episode number; the
    capital is an array of integers.  No operation on these numbers is
    rounded. *)
Definition exact_episode (k : nat) : EpisodeState :=
  let n := inject_Z (Z.of_nat k) in
  <["capital_all_regions" := IntArray [[1; 2]; [3; 4 + 2 * Z.of_nat k]]]>
    (list_to_map
       ((fun f => (f, float_array [[1 + n; 2]; [(7 # 2) + n; 4]]%Q))
          <$> _METRICS_TO_LABEL_DICT.*1)).

(** An episode whose reward does not add up in float64 and whose
    temperature rise, 2.675, lies next to a half of the second decimal. *)
Definition inexact_episode (k : nat) : EpisodeState :=
  <["reward_all_regions" := float_array [[inject_Z (10 ^ 16); 1]]%Q]>
    (<["global_temperature" := float_array [[0]; [2675 # 1000]]%Q]>
       (list_to_map
          ((fun f => (f, float_array [[0]]%Q)) <$> _METRICS_TO_LABEL_DICT.*1))).

(** An episode whose carbon mass is not a number. *)
Definition nan_episode (k : nat) : EpisodeState :=
  <["global_carbon_mass" := FloatArray [[NaN]]]> (exact_episode k).

End Numpy.

(** * Properties *)

Ltac run_eff :=
  unfold bind, ret, raise, assign, locals, world, pure, assert, read_var,
    assert_not_none, try_except, call, query; simpl.

Section ValidateFacts.
Context {W : Type}.
Variable os_listdir : string -> Eff W (list string).

Lemma first_missing_cons file rest files :
  first_missing (file :: rest) files =
  if bool_decide (file ∈ files) then first_missing rest files else Some file.
Proof.
  unfold first_missing. rewrite filter_cons.
  destruct (decide (file ∉ files)) as [Hn | Hn]; case_bool_decide; done.
Qed.

Lemma check_files_run files required (l : ValidateLocals) (w : W) :
  check_files files required (l, w) = (Return tt, (verdict required files l, w)).
Proof.
  revert l. induction required as [| file rest IH]; intros l; [reflexivity |].
  unfold check_files in *. cbn [for_each]. unfold verdict.
  rewrite first_missing_cons.
  unfold bind at 1. unfold bind at 1.
  case_bool_decide; simpl.
  - run_eff. rewrite IH. unfold verdict.
    destruct (first_missing rest files); [reflexivity |].
    destruct rest; reflexivity.
  - reflexivity.
Qed.

Lemma validate_dir_run dir files (w w' : W) :
  os_listdir dir w = (Return files, w') ->
  validate_dir os_listdir (Some dir) w =
  (Return
     match marker_backend files with
     | Some fw =>
         match first_missing (required_files fw) files with
         | Some file => (Some fw, false, not_present file)
         | None => (Some fw, true, "Valid submission")
         end
     | None => (None, false, "Missing identifier file!")
     end, w').
Proof.
  intros Hls. unfold validate_dir, validate_dir_body, marker_backend.
  run_eff. rewrite Hls. simpl.
  case_bool_decide; [| case_bool_decide]; simpl.
  - rewrite check_files_run. unfold verdict. simpl.
    destruct (first_missing (required_files "warpdrive") files) eqn:E;
      unfold required_files in E; simpl in E; rewrite E; reflexivity.
  - rewrite check_files_run. unfold verdict. simpl.
    destruct (first_missing (required_files "rllib") files) eqn:E;
      unfold required_files in E; simpl in E; rewrite E; reflexivity.
  - reflexivity.
Qed.

Lemma validate_dir_raises dir (w w' : W) e :
  os_listdir dir w = (Raise e, w') ->
  validate_dir os_listdir (Some dir) w = (Raise e, w').
Proof.
  intros Hls. unfold validate_dir, validate_dir_body. run_eff. by rewrite Hls.
Qed.

(** A successful validation has selected one of the two backends. *)
Lemma validate_dir_success dir (w w' : W) framework comment :
  validate_dir os_listdir (Some dir) w = (Return (framework, true, comment), w') ->
  exists fw, framework = Some fw /\ fw ∈ available_frameworks.
Proof.
  intros H. destruct (os_listdir dir w) as [[files | e] w1] eqn:Hls.
  - rewrite (validate_dir_run _ _ _ _ Hls) in H. unfold marker_backend in H.
    case_bool_decide; [| case_bool_decide]; [| | discriminate].
    + exists "warpdrive". split; [| set_solver].
      destruct (first_missing _ files); by inversion H.
    + exists "rllib". split; [| set_solver].
      destruct (first_missing _ files); by inversion H.
  - rewrite (validate_dir_raises _ _ _ _ Hls) in H. discriminate.
Qed.



(** C6: a directory with neither marker file is rejected with framework
    [None] and the comment "Missing identifier file!", whatever else it
    holds. *)
Theorem validate_dir_missing_identifier dir files (w w' : W) :
  os_listdir dir w = (Return files, w') ->
  ".warpdrive" ∉ files ->
  ".rllib" ∉ files ->
  validate_dir os_listdir (Some dir) w =
  (Return (None, false, "Missing identifier file!"), w').
Proof.
  intros Hls Hw Hr. rewrite (validate_dir_run _ _ _ _ Hls).
  unfold marker_backend. by rewrite !bool_decide_eq_false_2.
Qed.

(** C10: with both marker files present the warpdrive backend is selected
    and its five files are checked; the second marker causes no failure. *)
Theorem validate_dir_both_markers dir files (w w' : W) :
  os_listdir dir w = (Return files, w') ->
  ".warpdrive" ∈ files ->
  ".rllib" ∈ files ->
  validate_dir os_listdir (Some dir) w =
  (Return
     match first_missing warpdrive_files files with
     | Some file => (Some "warpdrive", false, not_present file)
     | None => (Some "warpdrive", true, "Valid submission")
     end, w').
Proof.
  intros Hls Hw Hr. rewrite (validate_dir_run _ _ _ _ Hls).
  unfold marker_backend. by rewrite bool_decide_eq_true_2.
Qed.
End ValidateFacts.


Lemma validate_dir_missing_identifier_witness :
  validate_dir (fun _ : string => ret ["rice.py"; "rice_helpers.py"; "rice_rllib.yaml"])
               (Some "results") tt
  = (Return (None, false, "Missing identifier file!"), tt).
Proof.
  apply (validate_dir_missing_identifier _ "results"
           ["rice.py"; "rice_helpers.py"; "rice_rllib.yaml"] tt tt).
  - reflexivity.
  - apply (bool_decide_unpack _); exact I.
  - apply (bool_decide_unpack _); exact I.
Defined.

Lemma validate_dir_both_markers_witness :
  validate_dir (fun _ : string => ret (".rllib" :: ".warpdrive" :: warpdrive_files))
               (Some "results") tt
  = (Return (Some "warpdrive", true, "Valid submission"), tt).
Proof.
  apply (validate_dir_both_markers _ "results"
           (".rllib" :: ".warpdrive" :: warpdrive_files) tt tt).
  - reflexivity.
  - apply (bool_decide_unpack _); exact I.
  - apply (bool_decide_unpack _); exact I.
Defined.


(** ** Rounding and formatting *)

Lemma rint_comp (q q' : Q) : (q == q')%Q -> rint q = rint q'.
Proof.
  intros E. unfold rint. rewrite (Qfloor_comp _ _ E).
  assert (Hc : (q - inject_Z (Qfloor q') ?= 1 # 2)%Q
               = (q' - inject_Z (Qfloor q') ?= 1 # 2)%Q).
  { apply Qcompare_comp; [rewrite E |]; reflexivity. }
  rewrite Hc. reflexivity.
Qed.

Lemma py_int_integer (q : Q) (z : Z) : (q == inject_Z z)%Q -> py_int q = z.
Proof.
  unfold Qeq, py_int. simpl. intros E. rewrite Z.mul_1_r in E. rewrite E.
  apply Z.quot_mul. discriminate.
Qed.

Lemma pow10_pos (k : Z) : 0 <= k -> (0 < inject_Z (10 ^ k))%Q.
Proof.
  intros Hk. change 0%Q with (inject_Z 0). rewrite <- Zlt_Qlt.
  apply Z.pow_pos_nonneg; lia.
Qed.

Lemma np_round_decimals (v : Q) (k : Z) :
  0 <= k ->
  (np_round v k == inject_Z (rint (v * inject_Z (10 ^ k))) / inject_Z (10 ^ k))%Q.
Proof.
  intros Hk. unfold np_round. rewrite Z.abs_eq by assumption.
  rewrite (proj2 (Z.leb_le 0 k) Hk). apply Qred_correct.
Qed.

Lemma py_int_np_round (v : Q) : py_int (np_round v 0) = py_round v.
Proof.
  unfold py_round.
  rewrite (py_int_integer _ (rint (v * inject_Z (10 ^ 0)))).
  - apply rint_comp. change (inject_Z (10 ^ 0)) with 1%Q. ring.
  - rewrite (np_round_decimals v 0) by lia.
    change (inject_Z (10 ^ 0)) with 1%Q. field.
Qed.

Lemma perform_format_rounded {S : Type} (v : Q) (k : Z) (s : S) :
  0 <= k -> perform_format v k s = (Return (rounded v k), s).
Proof.
  intros Hk. unfold perform_format, rounded. run_eff.
  rewrite (proj2 (Z.leb_le 0 k) Hk). simpl.
  destruct (k =? 0) eqn:E; [| reflexivity].
  apply Z.eqb_eq in E. subst k. by rewrite py_int_np_round.
Qed.

(** ** Loops *)

Lemma for_all_cons {S B} (x : B) (xs : list B) (body : B -> Eff S unit) (s : S) :
  for_all (x :: xs) body s =
  match body x s with
  | (Return _, s') => for_all xs body s'
  | (Raise e, s') => (Raise e, s')
  end.
Proof.
  unfold for_all. cbn [for_each]. unfold bind, ret.
  destruct (body x s) as [[[] | e] s']; reflexivity.
Qed.

Lemma bind_return {S A B} (m : Eff S A) (k : A -> Eff S B) (s s' : S) (a : A) :
  m s = (Return a, s') -> bind m k s = k a s'.
Proof. intros H. unfold bind. by rewrite H. Qed.

Lemma bind_raise {S A B} (m : Eff S A) (k : A -> Eff S B) (s s' : S) (e : Exn) :
  m s = (Raise e, s') -> bind m k s = (Raise e, s').
Proof. intros H. unfold bind. by rewrite H. Qed.

(** ** The per-episode scalars *)

Lemma index2_first (x : Q) (row : list Q) (rows : Array) :
  index2 ((x :: row) :: rows) 0 0 = Return x.
Proof. reflexivity. Qed.

Lemma index2_last (x : Q) (row : list Q) (rows : Array) :
  index2 (rows ++ [x :: row])%list (-1) 0 = Return x.
Proof.
  unfold index2, py_index at 1. rewrite length_app, Nat.add_1_r. cbn [length].
  change (-1 <? 0) with true. cbn iota.
  replace (-1 + Z.of_nat (S (length rows))) with (Z.of_nat (length rows)) by lia.
  rewrite (proj2 (Z.ltb_ge _ 0)) by lia.
  rewrite (proj2 (Z.leb_gt _ _)) by lia.
  cbn [orb]. rewrite Nat2Z.id, list_lookup_middle by reflexivity. reflexivity.
Qed.

(** ** Episode rollouts and metric aggregation *)

Section MetricsFacts.
Context {X T : Type}.
Implicit Types (l : MetricsLocals) (w : World X T).

Lemma fetch_loop (fetch : T -> list string -> Eff X EpisodeState) (trainer : T)
    (desired : list string) (k : nat) :
  forall (i : nat) l w,
    match rollouts fetch trainer desired k w with
    | (Return eps, w') =>
        for_all (seq i k) (fun episode_id =>
          st <- world (extern (EvFetchEpisodeStates trainer) (fetch trainer desired)) ;;
          assign (set_episode_state episode_id st)) (l, w)
        = (Return tt, (with_episodes (store_episodes i eps (cm_episode_states l)) l, w'))
    | (Raise e, w') =>
        exists l',
        for_all (seq i k) (fun episode_id =>
          st <- world (extern (EvFetchEpisodeStates trainer) (fetch trainer desired)) ;;
          assign (set_episode_state episode_id st)) (l, w)
        = (Raise e, (l', w'))
    end.
Proof.
  set (body := fun episode_id : nat =>
    st <- world (extern (EvFetchEpisodeStates trainer) (fetch trainer desired)) ;;
    assign (L := MetricsLocals) (W := World X T) (set_episode_state episode_id st)).
  assert (Hbody : forall i l w,
    body i (l, w) =
    match fetch trainer desired (ext w) with
    | (Return st, x') =>
        (Return tt, (set_episode_state i st l,
                     record_call (EvFetchEpisodeStates trainer) x' w))
    | (Raise e, x') =>
        (Raise e, (l, record_call (EvFetchEpisodeStates trainer) x' w))
    end).
  { intros i l w. unfold body, bind, world, extern, assign. simpl.
    destruct (fetch trainer desired (ext w)) as [[st | e] x']; reflexivity. }
  induction k as [| k IH]; intros i l w.
  - simpl. destruct l; reflexivity.
  - cbn [seq rollouts]. rewrite for_all_cons, Hbody.
    unfold bind, extern.
    destruct (fetch trainer desired (ext w)) as [[st | e] x'].
    + specialize (IH (S i) (set_episode_state i st l)
                     (record_call (EvFetchEpisodeStates trainer) x' w)).
      destruct (rollouts fetch trainer desired k _) as [[eps | e] w'']; exact IH.
    + exists l. reflexivity.
Qed.

Lemma fill_nil (i : nat) (fv : list (option Q)) : fill i [] fv = fv.
Proof. unfold fill. simpl. rewrite Nat.add_0_r. apply take_drop. Qed.

Lemma fill_cons (i : nat) (q : Q) (qs : list Q) (fv : list (option Q)) :
  (i < length fv)%nat ->
  fill (S i) qs (<[i := Some q]> fv) = fill i (q :: qs) fv.
Proof.
  intros Hi. unfold fill.
  rewrite (take_S_r _ i (Some q)) by (by apply list_lookup_insert_eq).
  rewrite take_insert_ge by lia. rewrite drop_insert_lt by lia.
  rewrite <- app_assoc. simpl. by rewrite Nat.add_succ_r.
Qed.

Lemma fill_all (qs : list Q) (fv : list (option Q)) :
  length fv = length qs -> fill 0 qs fv = Some <$> qs.
Proof.
  intros Hlen. unfold fill. simpl. rewrite drop_ge by lia. apply app_nil_r.
Qed.

(** A loop that stores one scalar per episode fills the list of feature
    values, or raises at the first episode that has no scalar. *)
Lemma fill_loop (sc : EpisodeState -> option Q)
    (body : nat -> Eff (MetricsLocals * World X T) unit) :
  (forall i ep l w,
     cm_episode_states l !! i = Some ep ->
     (i < length (cm_feature_values l))%nat ->
     match sc ep with
     | Some q =>
         body i (l, w) =
         (Return tt, (set_feature_values (<[i := Some q]> (cm_feature_values l)) l, w))
     | None => exists e, body i (l, w) = (Raise e, (l, w))
     end) ->
  forall (eps : list EpisodeState) (i : nat) l w,
    (forall j ep, eps !! j = Some ep -> cm_episode_states l !! (i + j)%nat = Some ep) ->
    (i + length eps <= length (cm_feature_values l))%nat ->
    match mapM sc eps with
    | Some qs =>
        for_all (seq i (length eps)) body (l, w) =
        (Return tt, (set_feature_values (fill i qs (cm_feature_values l)) l, w))
    | None =>
        exists e l', for_all (seq i (length eps)) body (l, w) = (Raise e, (l', w))
    end.
Proof.
  intros Hstep. induction eps as [| ep eps IH]; intros i l w Hst Hlen.
  - simpl. rewrite fill_nil. destruct l; reflexivity.
  - cbn [length seq mapM]. rewrite for_all_cons. simpl in Hlen.
    assert (Hi : cm_episode_states l !! i = Some ep).
    { rewrite <- (Nat.add_0_r i). by apply Hst. }
    specialize (Hstep i ep l w Hi ltac:(lia)) as Hb.
    destruct (sc ep) as [q |]; simpl.
    + rewrite Hb.
      specialize (IH (S i) (set_feature_values (<[i := Some q]> (cm_feature_values l)) l) w).
      simpl in IH. rewrite length_insert in IH.
      assert (H1 : forall j ep', eps !! j = Some ep' ->
                     cm_episode_states l !! S (i + j) = Some ep').
      { intros j ep' Hj. rewrite <- Nat.add_succ_r. by apply Hst. }
      specialize (IH H1 ltac:(lia)).
      destruct (mapM sc eps) as [qs |]; simpl.
      * rewrite IH. rewrite fill_cons by lia. reflexivity.
      * exact IH.
    + destruct Hb as [e Hb]. rewrite Hb. eauto.
Qed.

Ltac run_step ep feature Hi Hlt :=
  unfold episode_feature, store_feature_value, episode_scalar;
  unfold bind, locals, pure, assign, dict_get, list_set; simpl;
  rewrite ?Hi; simpl;
  let E := fresh "E" in
  destruct (ep !! feature) as [? |] eqn:E; simpl; [| by eauto];
  repeat first
    [ rewrite Hi; simpl
    | rewrite E; simpl
    | match goal with
      | |- context [index2 ?a ?i ?j] =>
          destruct (index2 a i j) as [? | ?]; simpl; [| by eauto]
      end ];
  rewrite ?(bool_decide_eq_true_2 _ Hlt); try reflexivity.

Lemma reduce_feature_run (feature : string) (n : Z) (eps : list EpisodeState) l w :
  length eps = Z.to_nat n ->
  (forall j ep, eps !! j = Some ep -> cm_episode_states l !! j = Some ep) ->
  length (cm_feature_values l) = Z.to_nat n ->
  match episode_scalars feature eps with
  | Some qs =>
      reduce_feature feature n (l, w) =
      (Return tt, (set_feature_values (Some <$> qs) l, w))
  | None => exists e l', reduce_feature feature n (l, w) = (Raise e, (l', w))
  end.
Proof.
  intros Hlen Hst Hfv. unfold reduce_feature, range, episode_scalars.
  rewrite <- Hlen in *.
  assert (Hfin : forall body : nat -> Eff (MetricsLocals * World X T) unit,
    match mapM (episode_scalar feature) eps with
    | Some qs =>
        for_all (seq 0 (length eps)) body (l, w) =
        (Return tt, (set_feature_values (fill 0 qs (cm_feature_values l)) l, w))
    | None => exists e l', for_all (seq 0 (length eps)) body (l, w) = (Raise e, (l', w))
    end ->
    match mapM (episode_scalar feature) eps with
    | Some qs =>
        for_all (seq 0 (length eps)) body (l, w) =
        (Return tt, (set_feature_values (Some <$> qs) l, w))
    | None => exists e l', for_all (seq 0 (length eps)) body (l, w) = (Raise e, (l', w))
    end).
  { intros body Hb. destruct (mapM (episode_scalar feature) eps) as [qs |] eqn:E;
      [| exact Hb].
    rewrite Hb, fill_all; [reflexivity |].
    rewrite Hfv. by apply length_mapM in E. }
  case_bool_decide as Ht; [| case_bool_decide as Hc].
  - apply Hfin, (fill_loop (episode_scalar feature)); [| exact Hst | lia].
    intros i ep l0 w0 Hi Hlt. subst feature.
    run_step ep "global_temperature" Hi Hlt.
  - apply Hfin, (fill_loop (episode_scalar feature)); [| exact Hst | lia].
    intros i ep l0 w0 Hi Hlt. subst feature.
    run_step ep "global_carbon_mass" Hi Hlt.
  - apply Hfin, (fill_loop (episode_scalar feature)); [| exact Hst | lia].
    intros i ep l0 w0 Hi Hlt.
    run_step ep feature Hi Hlt.
    rewrite !bool_decide_eq_false_2 by assumption. reflexivity.
Qed.

Lemma all_numbers_fmap (qs : list Q) : all_numbers (Some <$> qs) = Some qs.
Proof.
  induction qs as [| q qs IH]; [reflexivity |].
  rewrite fmap_cons. cbn [all_numbers]. by rewrite IH.
Qed.

Lemma feature_metric_run (n : Z) (eps : list EpisodeState) (feature label : string)
    (precision : Z) l w :
  length eps = Z.to_nat n ->
  (forall j ep, eps !! j = Some ep -> cm_episode_states l !! j = Some ep) ->
  odict_get _METRICS_TO_LABEL_DICT feature = Return (label, precision) ->
  0 <= precision ->
  match episode_scalars feature eps with
  | Some qs =>
      feature_metric n feature (l, w) =
      (Return tt,
       ({| cm_episode_states := cm_episode_states l;
           cm_eval_metrics := <[label := rounded (Qmean qs) precision]> (cm_eval_metrics l);
           cm_feature_values := Some <$> qs |}, w))
  | None => exists e l', feature_metric n feature (l, w) = (Raise e, (l', w))
  end.
Proof.
  intros Hlen Hst Hget Hprec. unfold feature_metric.
  erewrite bind_return; [| reflexivity].
  pose proof (reduce_feature_run feature n eps
                (set_feature_values (replicate (Z.to_nat n) None) l) w Hlen Hst
                (length_replicate _ _)) as Hred.
  destruct (episode_scalars feature eps) as [qs |].
  - erewrite bind_return; [| exact Hred].
    unfold bind, locals, pure, assign.
    cbn [fst snd cm_feature_values set_feature_values].
    unfold np_mean. rewrite all_numbers_fmap, Hget.
    cbn [fst snd]. rewrite perform_format_rounded by assumption. reflexivity.
  - destruct Hred as (e & l' & Hred).
    erewrite bind_raise; [| exact Hred]. eauto.
Qed.

(** The loop over the features computes [aggregate], or raises. *)
Lemma aggregate_loop (n : Z) (eps : list EpisodeState) :
  length eps = Z.to_nat n ->
  forall (entries : list (string * (string * Z))) l w,
    (forall j ep, eps !! j = Some ep -> cm_episode_states l !! j = Some ep) ->
    Forall (fun en => odict_get _METRICS_TO_LABEL_DICT en.1 = Return en.2
                      /\ 0 <= en.2.2) entries ->
    match aggregate eps entries (cm_eval_metrics l) with
    | Some m =>
        exists l', for_all entries.*1 (feature_metric n) (l, w) = (Return tt, (l', w))
                   /\ cm_eval_metrics l' = m
    | None =>
        exists e l', for_all entries.*1 (feature_metric n) (l, w) = (Raise e, (l', w))
    end.
Proof.
  intros Hlen. induction entries as [| [feature [label precision]] entries IH];
    intros l w Hst Hreg.
  - simpl. eauto.
  - apply Forall_cons in Hreg as [[Hget Hprec] Hreg].
    cbn [fst snd] in Hget, Hprec.
    cbn [aggregate fmap list_fmap fst]. rewrite for_all_cons.
    pose proof (feature_metric_run n eps feature label precision l w
                  Hlen Hst Hget Hprec) as Hrun.
    destruct (episode_scalars feature eps) as [qs |]; simpl.
    + rewrite Hrun.
      exact (IH {| cm_episode_states := cm_episode_states l;
                   cm_eval_metrics :=
                     <[label := rounded (Qmean qs) precision]> (cm_eval_metrics l);
                   cm_feature_values := Some <$> qs |} w Hst Hreg).
    + destruct Hrun as (e & l' & Hrun). rewrite Hrun. eauto.
Qed.

Lemma rollouts_length (fetch : T -> list string -> Eff X EpisodeState) (trainer : T)
    (desired : list string) (k : nat) :
  forall w eps w',
    rollouts fetch trainer desired k w = (Return eps, w') -> length eps = k.
Proof.
  induction k as [| k IH]; intros w eps w' H.
  - by inversion H.
  - cbn [rollouts] in H. unfold bind in H.
    destruct (extern _ _ w) as [[st | e] w1]; [| discriminate].
    destruct (rollouts fetch trainer desired k w1) as [[rest | e] w2] eqn:E;
      [| discriminate].
    inversion H; subst. simpl. f_equal. by eapply IH.
Qed.

Lemma store_episodes_before (eps : list EpisodeState) :
  forall (i k : nat) (m : gmap nat EpisodeState),
    (k < i)%nat -> store_episodes i eps m !! k = m !! k.
Proof.
  induction eps as [| ep eps IH]; intros i k m Hk; [reflexivity |].
  simpl. rewrite IH by lia. apply lookup_insert_ne. lia.
Qed.

Lemma store_episodes_lookup (eps : list EpisodeState) :
  forall (i j : nat) (m : gmap nat EpisodeState) (ep : EpisodeState),
    eps !! j = Some ep -> store_episodes i eps m !! (i + j)%nat = Some ep.
Proof.
  induction eps as [| ep0 eps IH]; intros i j m ep Hj; [done |].
  destruct j as [| j]; simpl in *.
  - inversion Hj; subst. rewrite Nat.add_0_r, store_episodes_before by lia.
    apply lookup_insert_eq.
  - rewrite <- Nat.add_succ_comm. by apply IH.
Qed.

Lemma registry_entries :
  Forall (fun en : string * (string * Z) =>
            odict_get _METRICS_TO_LABEL_DICT en.1 = Return en.2 /\ 0 <= en.2.2)
         _METRICS_TO_LABEL_DICT.
Proof. repeat constructor; simpl; lia. Qed.

Lemma aggregate_dom (eps : list EpisodeState) (entries : list (string * (string * Z))) :
  forall m0 m : Metrics,
    aggregate eps entries m0 = Some m ->
    dom m = dom m0 ∪ list_to_set (entries.*2.*1).
Proof.
  induction entries as [| [feature [label precision]] entries IH]; intros m0 m H.
  - inversion H; subst. set_solver.
  - cbn [aggregate] in H.
    destruct (episode_scalars feature eps) as [qs |]; [| discriminate].
    apply IH in H. rewrite H, dom_insert_L. set_solver.
Qed.

(** What [compute_metrics] returns, from the episodes fetched. *)
Lemma compute_metrics_run (fetch : T -> list string -> Eff X EpisodeState)
    (trainer : T) (framework : string) (n : Z) w :
  framework ∈ available_frameworks ->
  compute_metrics (Some fetch) (Some trainer) (Some framework) n w =
  match rollouts fetch trainer (_METRICS_TO_LABEL_DICT.*1) (Z.to_nat n) w with
  | (Return eps, w') =>
      match expected_metrics eps with
      | Some m => (Return (true, "Successful submission", m), w')
      | None => (Return (false, "Could not obtain an episode rollout!", ∅), w')
      end
  | (Raise e, w') =>
      (Return (false, "Could not obtain an episode rollout!", ∅), w')
  end.
Proof.
  intros Hfw. unfold compute_metrics.
  erewrite bind_return; [| reflexivity].
  erewrite bind_return; [| reflexivity].
  erewrite bind_return; cycle 1.
  { unfold assert. rewrite bool_decide_eq_true_2; [reflexivity |].
    by apply list_elem_of_fmap_2. }
  unfold call, compute_metrics_try, range.
  set (l0 := metrics_locals0).
  pose proof (fetch_loop fetch trainer (_METRICS_TO_LABEL_DICT.*1) (Z.to_nat n) 0 l0 w)
    as Hfetch.
  destruct (rollouts fetch trainer _ (Z.to_nat n) w) as [[eps | e] w'] eqn:Hroll.
  - pose proof (rollouts_length _ _ _ _ _ _ _ Hroll) as Hlen.
    pose proof (aggregate_loop n eps Hlen _METRICS_TO_LABEL_DICT
                  (with_episodes (store_episodes 0 eps (cm_episode_states l0)) l0) w'
                  (fun j ep Hj => store_episodes_lookup eps 0 j _ ep Hj)
                  registry_entries) as Hagg.
    change (aggregate eps _METRICS_TO_LABEL_DICT _) with (expected_metrics eps) in Hagg.
    destruct (expected_metrics eps) as [m |].
    + destruct Hagg as (l' & Hagg & Hm).
      erewrite (bind_return (try_except _ _)); cycle 1.
      { unfold try_except. erewrite bind_return; cycle 1.
        { erewrite bind_return; [exact Hagg | exact Hfetch]. }
        reflexivity. }
      unfold bind, locals, ret. simpl. by rewrite Hm.
    + destruct Hagg as (e & l' & Hagg).
      erewrite (bind_return (try_except _ _)); cycle 1.
      { unfold try_except. erewrite bind_raise; cycle 1.
        { erewrite bind_return; [exact Hagg | exact Hfetch]. }
        reflexivity. }
      reflexivity.
  - destruct Hfetch as (l' & Hfetch).
    erewrite (bind_return (try_except _ _)); cycle 1.
    { unfold try_except. erewrite bind_raise; cycle 1.
      { erewrite bind_raise; [reflexivity | exact Hfetch]. }
      reflexivity. }
    reflexivity.
Qed.

(** The calls recorded by the rollouts: one per episode fetched, the
    failed one included. *)
Lemma rollouts_trace (fetch : T -> list string -> Eff X EpisodeState) (trainer : T)
    (desired : list string) (k : nat) :
  forall w, exists j : nat,
    (j <= k)%nat
    /\ trace (rollouts fetch trainer desired k w).2 =
       (trace w ++ replicate j (EvFetchEpisodeStates trainer))%list
    /\ (forall eps, (rollouts fetch trainer desired k w).1 = Return eps -> j = k).
Proof.
  induction k as [| k IH]; intros w.
  - exists 0%nat. simpl. rewrite app_nil_r. auto.
  - cbn [rollouts]. unfold bind, extern.
    destruct (fetch trainer desired (ext w)) as [[st | e] x'].
    + destruct (IH {| ext := x'; trace := trace w ++ [EvFetchEpisodeStates trainer] |})
        as (j & Hj & Htr & Hret).
      exists (S j).
      destruct (rollouts fetch trainer desired k _) as [[eps | e] w'']; simpl in *.
      * rewrite Htr, <- app_assoc. split; [lia |]. split; [reflexivity |].
        intros _ _. f_equal. by eapply Hret.
      * rewrite Htr, <- app_assoc. split; [lia |]. split; [reflexivity |].
        intros ? [=].
    + exists 1%nat. simpl. split; [lia |]. split; [reflexivity |]. intros ? [=].
Qed.

(** [compute_metrics] always returns; it records only fetch calls, one per
    episode when it succeeds, and its mapping is empty when it fails. *)
Lemma compute_metrics_returns (fetch : T -> list string -> Eff X EpisodeState)
    (trainer : T) (framework : string) (n : Z) w :
  framework ∈ available_frameworks ->
  exists success comment (m : Metrics) w' (j : nat),
    compute_metrics (Some fetch) (Some trainer) (Some framework) n w =
    (Return (success, comment, m), w')
    /\ trace w' = (trace w ++ replicate j (EvFetchEpisodeStates trainer))%list
    /\ (success = true -> j = Z.to_nat n)
    /\ (success = false -> m = ∅).
Proof.
  intros Hfw. rewrite compute_metrics_run by assumption.
  destruct (rollouts_trace fetch trainer (_METRICS_TO_LABEL_DICT.*1) (Z.to_nat n) w)
    as (j & Hj & Htr & Hret).
  destruct (rollouts fetch trainer _ (Z.to_nat n) w) as [[eps | e] w']; simpl in *.
  - destruct (expected_metrics eps) as [m |].
    + exists true, "Successful submission", m, w', j.
      split; [reflexivity |]. split; [exact Htr |]. split; [| discriminate].
      intros _. by eapply Hret.
    + exists false, "Could not obtain an episode rollout!", ∅, w', j.
      split; [reflexivity |]. split; [exact Htr |]. split; [discriminate | done].
  - exists false, "Could not obtain an episode rollout!", ∅, w', j.
    split; [reflexivity |]. split; [exact Htr |]. split; [discriminate | done].
Qed.

(** C1: an exception raised anywhere in the [try] block of
    [compute_metrics], in the episode loop or in the aggregation, gives
    success [false], the comment "Could not obtain an episode rollout!" and
    an empty mapping; this is so in particular when a fetch raises; and the
    mapping returned is never partly filled: it is empty or has all the
    labels of the registry. *)
Theorem compute_metrics_exception_discards
    (fetch : T -> list string -> Eff X EpisodeState) (trainer : T)
    (framework : string) (n : Z) w :
  framework ∈ available_frameworks ->
  (forall e l' w',
     compute_metrics_try fetch trainer n (_METRICS_TO_LABEL_DICT.*1)
                         (metrics_locals0, w) = (Raise e, (l', w')) ->
     compute_metrics (Some fetch) (Some trainer) (Some framework) n w =
     (Return (false, "Could not obtain an episode rollout!", ∅), w'))
  /\ (forall e w',
       rollouts fetch trainer (_METRICS_TO_LABEL_DICT.*1) (Z.to_nat n) w
       = (Raise e, w') ->
       compute_metrics (Some fetch) (Some trainer) (Some framework) n w =
       (Return (false, "Could not obtain an episode rollout!", ∅), w'))
  /\ (exists success comment (m : Metrics) w',
       compute_metrics (Some fetch) (Some trainer) (Some framework) n w =
       (Return (success, comment, m), w')
       /\ ((success = false /\ comment = "Could not obtain an episode rollout!"
            /\ m = ∅)
           \/ (success = true /\ dom m = labels))).
Proof.
  intros Hfw. split; [| split].
  - intros e l' w' Hbody. unfold compute_metrics.
    erewrite bind_return; [| reflexivity].
    erewrite bind_return; [| reflexivity].
    erewrite bind_return; cycle 1.
    { unfold assert. rewrite bool_decide_eq_true_2; [reflexivity |].
      by apply list_elem_of_fmap_2. }
    unfold call.
    erewrite (bind_return (try_except _ _)); cycle 1.
    { unfold try_except. erewrite bind_raise; [| exact Hbody]. reflexivity. }
    reflexivity.
  - intros e w' Hroll. rewrite compute_metrics_run by assumption.
    by rewrite Hroll.
  - rewrite compute_metrics_run by assumption.
    destruct (rollouts fetch trainer _ (Z.to_nat n) w) as [[eps | e] w'].
    + destruct (expected_metrics eps) as [m |] eqn:E.
      * exists true, "Successful submission", m, w'. split; [reflexivity |].
        right. split; [reflexivity |].
        apply aggregate_dom in E. rewrite E, dom_empty_L. unfold labels.
        apply (left_id_L ∅ (∪)).
      * exists false, "Could not obtain an episode rollout!", ∅, w'. by auto.
    + exists false, "Could not obtain an episode rollout!", ∅, w'. by auto.
Qed.

End MetricsFacts.

Lemma compute_metrics_exception_discards_witness :
  compute_metrics
    (Some (fetch_episode_states (scenario_backend crashing_rollout)))
    (Some 7%nat) (Some "rllib") 3 start
  = (Return (false, "Could not obtain an episode rollout!", ∅),
     {| ext := 2%nat;
        trace := [EvFetchEpisodeStates 7%nat; EvFetchEpisodeStates 7%nat] |}).
Proof.
  assert (Hfw : "rllib" ∈ available_frameworks).
  { apply (bool_decide_unpack _). exact I. }
  eapply (proj1 (compute_metrics_exception_discards
                   (fetch_episode_states (scenario_backend crashing_rollout))
                   7%nat "rllib" 3 start Hfw)).
  reflexivity.
Defined.

(** ** The metrics as numpy computes them *)

Section NumpyFacts.
Import Numpy.
Context {X T : Type} {rounding : Rounding} {reduction : Reduction}.
Implicit Types (l : MetricsLocals) (w : World X T).

(** With no decimal places, [int] undoes nothing of [np.rint]: the result
    is Python's [round]. *)
Lemma numpy_int_rint (a : Q) : int (np_round (Float64 (Finite a)) 0) = Return (py_round a).
Proof.
  unfold np_round, float_rint, int, py_round. cbn [N.eqb].
  f_equal. by apply py_int_integer.
Qed.

(** With [k > 0] decimal places [np.round] scales, rounds and scales back. *)
Lemma numpy_round_decimals (f : float64) (k : Z) :
  0 < k ->
  np_round (Float64 f) (Z.to_N k)
  = Float64 (float_divide (float_rint (float_multiply f (power_of_ten (Z.to_N k))))
                          (power_of_ten (Z.to_N k))).
Proof.
  intros Hk. unfold np_round.
  rewrite (proj2 (N.eqb_neq (Z.to_N k) 0)) by lia. reflexivity.
Qed.

(** The powers of ten up to [1e8] are the float64 of the number. *)
Lemma numpy_power_of_ten (k : Z) :
  0 <= k < 9 -> power_of_ten (Z.to_N k) = rnd (inject_Z (10 ^ k)).
Proof.
  intros Hk. unfold power_of_ten.
  rewrite (proj2 (N.ltb_lt (Z.to_N k) 9)) by lia.
  rewrite Z2N.id by lia. reflexivity.
Qed.

Lemma numpy_perform_format_formatted {S : Type} (f : float64) (k : Z) (s : S) :
  0 <= k ->
  match formatted f k with
  | Some v => perform_format (Float64 f) k s = (Return v, s)
  | None => exists e, perform_format (Float64 f) k s = (Raise e, s)
  end.
Proof.
  intros Hk. unfold perform_format, formatted, bind, assert, pure, ret.
  rewrite (proj2 (Z.leb_le 0 k) Hk).
  destruct (k =? 0) eqn:E.
  - apply Z.eqb_eq in E. subst k. change (Z.to_N 0) with 0%N.
    destruct f as [a | negative |].
    + by rewrite numpy_int_rint.
    + by eexists.
    + by eexists.
  - apply Z.eqb_neq in E. rewrite numpy_round_decimals by lia. reflexivity.
Qed.

(** [np.sum] adds up the whole array. *)
Lemma numpy_sum_rows (rows : list (list Z)) :
  foldr Z.add 0 (concat rows) = foldr (fun row s => foldr Z.add 0 row + s) 0 rows.
Proof.
  induction rows as [| row rows IH]; [reflexivity |].
  cbn [concat foldr]. rewrite foldr_app, IH.
  generalize (foldr (fun row s => foldr Z.add 0 row + s) 0 rows). intros acc.
  induction row as [| z row IHrow]; cbn [foldr]; lia.
Qed.

Lemma numpy_sum_array_sum (arr : Array) : np_sum arr = array_sum arr.
Proof.
  destruct arr as [rows | rows]; cbn [np_sum array_sum].
  - by rewrite numpy_sum_rows.
  - do 2 f_equal. induction rows as [| row rows IH]; [reflexivity |].
    cbn [concat]. by rewrite IH.
Qed.

Lemma numpy_fetch_loop (fetch : T -> list string -> Eff X EpisodeState) (trainer : T)
    (desired : list string) (k : nat) :
  forall (i : nat) l w,
    match rollouts fetch trainer desired k w with
    | (Return eps, w') =>
        for_all (seq i k) (fun episode_id =>
          st <- world (extern (EvFetchEpisodeStates trainer) (fetch trainer desired)) ;;
          assign (set_episode_state episode_id st)) (l, w)
        = (Return tt, (with_episodes (store_episodes i eps (cm_episode_states l)) l, w'))
    | (Raise e, w') =>
        exists l',
        for_all (seq i k) (fun episode_id =>
          st <- world (extern (EvFetchEpisodeStates trainer) (fetch trainer desired)) ;;
          assign (set_episode_state episode_id st)) (l, w)
        = (Raise e, (l', w'))
    end.
Proof.
  set (body := fun episode_id : nat =>
    st <- world (extern (EvFetchEpisodeStates trainer) (fetch trainer desired)) ;;
    assign (L := MetricsLocals) (W := World X T) (set_episode_state episode_id st)).
  assert (Hbody : forall i l w,
    body i (l, w) =
    match fetch trainer desired (ext w) with
    | (Return st, x') =>
        (Return tt, (set_episode_state i st l,
                     record_call (EvFetchEpisodeStates trainer) x' w))
    | (Raise e, x') =>
        (Raise e, (l, record_call (EvFetchEpisodeStates trainer) x' w))
    end).
  { intros i l w. unfold body, bind, world, extern, assign. simpl.
    destruct (fetch trainer desired (ext w)) as [[st | e] x']; reflexivity. }
  induction k as [| k IH]; intros i l w.
  - simpl. destruct l; reflexivity.
  - cbn [seq rollouts]. rewrite for_all_cons, Hbody.
    unfold bind, extern.
    destruct (fetch trainer desired (ext w)) as [[st | e] x'].
    + specialize (IH (S i) (set_episode_state i st l)
                     (record_call (EvFetchEpisodeStates trainer) x' w)).
      destruct (rollouts fetch trainer desired k _) as [[eps | e] w'']; exact IH.
    + exists l. reflexivity.
Qed.

Lemma numpy_fill_nil (i : nat) (fv : list (option Scalar)) : fill i [] fv = fv.
Proof. unfold fill. simpl. rewrite Nat.add_0_r. apply take_drop. Qed.

Lemma numpy_fill_cons (i : nat) (x : Scalar) (xs : list Scalar)
    (fv : list (option Scalar)) :
  (i < length fv)%nat ->
  fill (S i) xs (<[i := Some x]> fv) = fill i (x :: xs) fv.
Proof.
  intros Hi. unfold fill.
  rewrite (take_S_r _ i (Some x)) by (by apply list_lookup_insert_eq).
  rewrite take_insert_ge by lia. rewrite drop_insert_lt by lia.
  rewrite <- app_assoc. simpl. by rewrite Nat.add_succ_r.
Qed.

Lemma numpy_fill_all (xs : list Scalar) (fv : list (option Scalar)) :
  length fv = length xs -> fill 0 xs fv = Some <$> xs.
Proof.
  intros Hlen. unfold fill. simpl. rewrite drop_ge by lia. apply app_nil_r.
Qed.

(** A loop that stores one scalar per episode fills the list of feature
    values, or raises at the first episode that has no scalar. *)
Lemma numpy_fill_loop (sc : EpisodeState -> option Scalar)
    (body : nat -> Eff (MetricsLocals * World X T) unit) :
  (forall i ep l w,
     cm_episode_states l !! i = Some ep ->
     (i < length (cm_feature_values l))%nat ->
     match sc ep with
     | Some x =>
         body i (l, w) =
         (Return tt, (set_feature_values (<[i := Some x]> (cm_feature_values l)) l, w))
     | None => exists e, body i (l, w) = (Raise e, (l, w))
     end) ->
  forall (eps : list EpisodeState) (i : nat) l w,
    (forall j ep, eps !! j = Some ep -> cm_episode_states l !! (i + j)%nat = Some ep) ->
    (i + length eps <= length (cm_feature_values l))%nat ->
    match mapM sc eps with
    | Some xs =>
        for_all (seq i (length eps)) body (l, w) =
        (Return tt, (set_feature_values (fill i xs (cm_feature_values l)) l, w))
    | None =>
        exists e l', for_all (seq i (length eps)) body (l, w) = (Raise e, (l', w))
    end.
Proof.
  intros Hstep. induction eps as [| ep eps IH]; intros i l w Hst Hlen.
  - simpl. rewrite numpy_fill_nil. destruct l; reflexivity.
  - cbn [length seq mapM]. rewrite for_all_cons. simpl in Hlen.
    assert (Hi : cm_episode_states l !! i = Some ep).
    { rewrite <- (Nat.add_0_r i). by apply Hst. }
    specialize (Hstep i ep l w Hi ltac:(lia)) as Hb.
    destruct (sc ep) as [x |]; simpl.
    + rewrite Hb.
      specialize (IH (S i) (set_feature_values (<[i := Some x]> (cm_feature_values l)) l) w).
      simpl in IH. rewrite length_insert in IH.
      assert (H1 : forall j ep', eps !! j = Some ep' ->
                     cm_episode_states l !! S (i + j) = Some ep').
      { intros j ep' Hj. rewrite <- Nat.add_succ_r. by apply Hst. }
      specialize (IH H1 ltac:(lia)).
      destruct (mapM sc eps) as [xs |]; simpl.
      * rewrite IH. rewrite numpy_fill_cons by lia. reflexivity.
      * exact IH.
    + destruct Hb as [e Hb]. rewrite Hb. eauto.
Qed.

Ltac numpy_run_step ep feature Hi Hlt :=
  unfold episode_feature, store_feature_value, episode_scalar;
  unfold bind, locals, pure, assign, dict_get, list_set; simpl;
  rewrite ?Hi; simpl;
  let E := fresh "E" in
  destruct (ep !! feature) as [? |] eqn:E; simpl; [| by eauto];
  repeat first
    [ rewrite Hi; simpl
    | rewrite E; simpl
    | match goal with
      | |- context [index2 ?a ?i ?j] =>
          destruct (index2 a i j) as [? | ?]; simpl; [| by eauto]
      end ];
  rewrite ?(bool_decide_eq_true_2 _ Hlt); try reflexivity.

Lemma numpy_reduce_feature_run (feature : string) (n : Z) (eps : list EpisodeState) l w :
  length eps = Z.to_nat n ->
  (forall j ep, eps !! j = Some ep -> cm_episode_states l !! j = Some ep) ->
  length (cm_feature_values l) = Z.to_nat n ->
  match episode_scalars feature eps with
  | Some xs =>
      reduce_feature feature n (l, w) =
      (Return tt, (set_feature_values (Some <$> xs) l, w))
  | None => exists e l', reduce_feature feature n (l, w) = (Raise e, (l', w))
  end.
Proof.
  intros Hlen Hst Hfv. unfold reduce_feature, range, episode_scalars.
  rewrite <- Hlen in *.
  assert (Hfin : forall body : nat -> Eff (MetricsLocals * World X T) unit,
    match mapM (episode_scalar feature) eps with
    | Some xs =>
        for_all (seq 0 (length eps)) body (l, w) =
        (Return tt, (set_feature_values (fill 0 xs (cm_feature_values l)) l, w))
    | None => exists e l', for_all (seq 0 (length eps)) body (l, w) = (Raise e, (l', w))
    end ->
    match mapM (episode_scalar feature) eps with
    | Some xs =>
        for_all (seq 0 (length eps)) body (l, w) =
        (Return tt, (set_feature_values (Some <$> xs) l, w))
    | None => exists e l', for_all (seq 0 (length eps)) body (l, w) = (Raise e, (l', w))
    end).
  { intros body Hb. destruct (mapM (episode_scalar feature) eps) as [xs |] eqn:E;
      [| exact Hb].
    rewrite Hb, numpy_fill_all; [reflexivity |].
    rewrite Hfv. by apply length_mapM in E. }
  case_bool_decide as Ht; [| case_bool_decide as Hc].
  - apply Hfin, (numpy_fill_loop (episode_scalar feature)); [| exact Hst | lia].
    intros i ep l0 w0 Hi Hlt. subst feature.
    numpy_run_step ep "global_temperature" Hi Hlt.
  - apply Hfin, (numpy_fill_loop (episode_scalar feature)); [| exact Hst | lia].
    intros i ep l0 w0 Hi Hlt. subst feature.
    numpy_run_step ep "global_carbon_mass" Hi Hlt.
  - apply Hfin, (numpy_fill_loop (episode_scalar feature)); [| exact Hst | lia].
    intros i ep l0 w0 Hi Hlt.
    numpy_run_step ep feature Hi Hlt.
    rewrite !bool_decide_eq_false_2 by assumption.
    rewrite numpy_sum_array_sum. reflexivity.
Qed.

Lemma numpy_all_scalars_fmap (xs : list Scalar) : all_scalars (Some <$> xs) = Some xs.
Proof.
  induction xs as [| x xs IH]; [reflexivity |].
  rewrite fmap_cons. cbn [all_scalars]. by rewrite IH.
Qed.

Lemma numpy_feature_metric_run (n : Z) (eps : list EpisodeState) (feature label : string)
    (precision : Z) l w :
  length eps = Z.to_nat n ->
  (forall j ep, eps !! j = Some ep -> cm_episode_states l !! j = Some ep) ->
  odict_get _METRICS_TO_LABEL_DICT feature = Return (label, precision) ->
  0 <= precision ->
  match episode_scalars feature eps with
  | Some xs =>
      match formatted (mean xs) precision with
      | Some v =>
          feature_metric n feature (l, w) =
          (Return tt,
           ({| cm_episode_states := cm_episode_states l;
               cm_eval_metrics := <[label := v]> (cm_eval_metrics l);
               cm_feature_values := Some <$> xs |}, w))
      | None => exists e l', feature_metric n feature (l, w) = (Raise e, (l', w))
      end
  | None => exists e l', feature_metric n feature (l, w) = (Raise e, (l', w))
  end.
Proof.
  intros Hlen Hst Hget Hprec. unfold feature_metric.
  erewrite bind_return; [| reflexivity].
  pose proof (numpy_reduce_feature_run feature n eps
                (set_feature_values (replicate (Z.to_nat n) None) l) w Hlen Hst
                (length_replicate _ _)) as Hred.
  destruct (episode_scalars feature eps) as [xs |].
  - erewrite bind_return; [| exact Hred].
    set (l1 := set_feature_values (Some <$> xs)
                 (set_feature_values (replicate (Z.to_nat n) None) l)).
    erewrite bind_return; [| reflexivity].
    erewrite bind_return; cycle 1.
    { unfold pure, np_mean. cbn [fst cm_feature_values l1 set_feature_values].
      rewrite numpy_all_scalars_fmap. reflexivity. }
    erewrite bind_return; cycle 1.
    { unfold pure. rewrite Hget. reflexivity. }
    cbn [fst snd].
    pose proof (numpy_perform_format_formatted (mean xs) precision (l1, w) Hprec) as Hfmt.
    destruct (formatted (mean xs) precision) as [v |].
    + erewrite bind_return; [| exact Hfmt]. reflexivity.
    + destruct Hfmt as [e Hfmt]. erewrite bind_raise; [| exact Hfmt]. eauto.
  - destruct Hred as (e & l' & Hred).
    erewrite bind_raise; [| exact Hred]. eauto.
Qed.

(** The loop over the features computes [aggregate], or raises. *)
Lemma numpy_aggregate_loop (n : Z) (eps : list EpisodeState) :
  length eps = Z.to_nat n ->
  forall (entries : list (string * (string * Z))) l w,
    (forall j ep, eps !! j = Some ep -> cm_episode_states l !! j = Some ep) ->
    Forall (fun en => odict_get _METRICS_TO_LABEL_DICT en.1 = Return en.2
                      /\ 0 <= en.2.2) entries ->
    match aggregate eps entries (cm_eval_metrics l) with
    | Some m =>
        exists l', for_all entries.*1 (feature_metric n) (l, w) = (Return tt, (l', w))
                   /\ cm_eval_metrics l' = m
    | None =>
        exists e l', for_all entries.*1 (feature_metric n) (l, w) = (Raise e, (l', w))
    end.
Proof.
  intros Hlen. induction entries as [| [feature [label precision]] entries IH];
    intros l w Hst Hreg.
  - simpl. eauto.
  - apply Forall_cons in Hreg as [[Hget Hprec] Hreg].
    cbn [fst snd] in Hget, Hprec.
    cbn [aggregate fmap list_fmap fst]. rewrite for_all_cons.
    pose proof (numpy_feature_metric_run n eps feature label precision l w
                  Hlen Hst Hget Hprec) as Hrun.
    destruct (episode_scalars feature eps) as [xs |]; cbn [mbind option_bind].
    + destruct (formatted (mean xs) precision) as [v |]; cbn [mbind option_bind].
      * rewrite Hrun.
        exact (IH {| cm_episode_states := cm_episode_states l;
                     cm_eval_metrics := <[label := v]> (cm_eval_metrics l);
                     cm_feature_values := Some <$> xs |} w Hst Hreg).
      * destruct Hrun as (e & l' & Hrun). rewrite Hrun. eauto.
    + destruct Hrun as (e & l' & Hrun). rewrite Hrun. eauto.
Qed.

Lemma numpy_rollouts_length (fetch : T -> list string -> Eff X EpisodeState) (trainer : T)
    (desired : list string) (k : nat) :
  forall w eps w',
    rollouts fetch trainer desired k w = (Return eps, w') -> length eps = k.
Proof.
  induction k as [| k IH]; intros w eps w' H.
  - by inversion H.
  - cbn [rollouts] in H. unfold bind in H.
    destruct (extern _ _ w) as [[st | e] w1]; [| discriminate].
    destruct (rollouts fetch trainer desired k w1) as [[rest | e] w2] eqn:E;
      [| discriminate].
    inversion H; subst. simpl. f_equal. by eapply IH.
Qed.

Lemma numpy_store_episodes_before (eps : list EpisodeState) :
  forall (i k : nat) (m : gmap nat EpisodeState),
    (k < i)%nat -> store_episodes i eps m !! k = m !! k.
Proof.
  induction eps as [| ep eps IH]; intros i k m Hk; [reflexivity |].
  simpl. rewrite IH by lia. apply lookup_insert_ne. lia.
Qed.

Lemma numpy_store_episodes_lookup (eps : list EpisodeState) :
  forall (i j : nat) (m : gmap nat EpisodeState) (ep : EpisodeState),
    eps !! j = Some ep -> store_episodes i eps m !! (i + j)%nat = Some ep.
Proof.
  induction eps as [| ep0 eps IH]; intros i j m ep Hj; [done |].
  destruct j as [| j]; simpl in *.
  - inversion Hj; subst. rewrite Nat.add_0_r, numpy_store_episodes_before by lia.
    apply lookup_insert_eq.
  - rewrite <- Nat.add_succ_comm. by apply IH.
Qed.

Lemma numpy_aggregate_other (eps : list EpisodeState)
    (entries : list (string * (string * Z))) (label : string) :
  forall m0 m : Metrics,
    aggregate eps entries m0 = Some m ->
    label ∉ entries.*2.*1 ->
    m !! label = m0 !! label.
Proof.
  induction entries as [| [feature [label' precision]] entries IH]; intros m0 m H Hl.
  - by inversion H.
  - cbn [aggregate] in H.
    destruct (episode_scalars feature eps) as [xs |]; [| discriminate].
    cbn [mbind option_bind] in H.
    destruct (formatted (mean xs) precision) as [v |]; [| discriminate].
    cbn [mbind option_bind] in H.
    rewrite !fmap_cons in Hl. cbn [fst snd] in Hl.
    apply not_elem_of_cons in Hl as [Hne Hl].
    rewrite (IH _ _ H Hl). by apply lookup_insert_ne.
Qed.

Lemma numpy_aggregate_lookup (eps : list EpisodeState)
    (entries : list (string * (string * Z))) (feature label : string) (precision : Z) :
  forall m0 m : Metrics,
    aggregate eps entries m0 = Some m ->
    NoDup (entries.*2.*1) ->
    (feature, (label, precision)) ∈ entries ->
    exists xs v, episode_scalars feature eps = Some xs
                 /\ formatted (mean xs) precision = Some v
                 /\ m !! label = Some v.
Proof.
  induction entries as [| [feature' [label' precision']] entries IH];
    intros m0 m H Hnd Hin.
  - by apply not_elem_of_nil in Hin.
  - cbn [aggregate] in H. rewrite !fmap_cons in Hnd. cbn [fst snd] in Hnd.
    apply NoDup_cons in Hnd as [Hfresh Hnd].
    destruct (episode_scalars feature' eps) as [xs |] eqn:E; [| discriminate].
    cbn [mbind option_bind] in H.
    destruct (formatted (mean xs) precision') as [v |] eqn:Ev; [| discriminate].
    cbn [mbind option_bind] in H.
    apply elem_of_cons in Hin as [Heq | Hin].
    + inversion Heq; subst. exists xs, v. split; [exact E |]. split; [exact Ev |].
      rewrite (numpy_aggregate_other _ _ _ _ _ H Hfresh). apply lookup_insert_eq.
    + by eapply IH.
Qed.

Lemma numpy_aggregate_defined (eps : list EpisodeState)
    (entries : list (string * (string * Z))) :
  (forall feature label precision,
     (feature, (label, precision)) ∈ entries ->
     exists xs, episode_scalars feature eps = Some xs
                /\ is_Some (formatted (mean xs) precision)) ->
  forall m0 : Metrics, is_Some (aggregate eps entries m0).
Proof.
  induction entries as [| [feature [label precision]] entries IH]; intros Hall m0.
  - by eexists.
  - cbn [aggregate].
    destruct (Hall feature label precision) as (xs & Hxs & [v Hv]); [by left |].
    rewrite Hxs. cbn [mbind option_bind]. rewrite Hv. cbn [mbind option_bind].
    apply IH. intros f lb p Hf. apply (Hall f lb p). by right.
Qed.

(** What [compute_metrics] returns, from the episodes fetched. *)
Lemma numpy_compute_metrics_run (fetch : T -> list string -> Eff X EpisodeState)
    (trainer : T) (framework : string) (n : Z) w :
  framework ∈ available_frameworks ->
  compute_metrics (Some fetch) (Some trainer) (Some framework) n w =
  match rollouts fetch trainer (_METRICS_TO_LABEL_DICT.*1) (Z.to_nat n) w with
  | (Return eps, w') =>
      match expected_metrics eps with
      | Some m => (Return (true, "Successful submission", m), w')
      | None => (Return (false, "Could not obtain an episode rollout!", ∅), w')
      end
  | (Raise e, w') =>
      (Return (false, "Could not obtain an episode rollout!", ∅), w')
  end.
Proof.
  intros Hfw. unfold compute_metrics.
  erewrite bind_return; [| reflexivity].
  erewrite bind_return; [| reflexivity].
  erewrite bind_return; cycle 1.
  { unfold assert. rewrite bool_decide_eq_true_2; [reflexivity |].
    by apply list_elem_of_fmap_2. }
  unfold call, compute_metrics_try, range.
  set (l0 := metrics_locals0).
  pose proof (numpy_fetch_loop fetch trainer (_METRICS_TO_LABEL_DICT.*1) (Z.to_nat n)
                0 l0 w) as Hfetch.
  destruct (rollouts fetch trainer _ (Z.to_nat n) w) as [[eps | e] w'] eqn:Hroll.
  - pose proof (numpy_rollouts_length _ _ _ _ _ _ _ Hroll) as Hlen.
    pose proof (numpy_aggregate_loop n eps Hlen _METRICS_TO_LABEL_DICT
                  (with_episodes (store_episodes 0 eps (cm_episode_states l0)) l0) w'
                  (fun j ep Hj => numpy_store_episodes_lookup eps 0 j _ ep Hj)
                  registry_entries) as Hagg.
    change (aggregate eps _METRICS_TO_LABEL_DICT _) with (expected_metrics eps) in Hagg.
    destruct (expected_metrics eps) as [m |].
    + destruct Hagg as (l' & Hagg & Hm).
      erewrite (bind_return (try_except _ _)); cycle 1.
      { unfold try_except. erewrite bind_return; cycle 1.
        { erewrite bind_return; [exact Hagg | exact Hfetch]. }
        reflexivity. }
      unfold bind, locals, ret. simpl. by rewrite Hm.
    + destruct Hagg as (e & l' & Hagg).
      erewrite (bind_return (try_except _ _)); cycle 1.
      { unfold try_except. erewrite bind_raise; cycle 1.
        { erewrite bind_return; [exact Hagg | exact Hfetch]. }
        reflexivity. }
      reflexivity.
  - destruct Hfetch as (l' & Hfetch).
    erewrite (bind_return (try_except _ _)); cycle 1.
    { unfold try_except. erewrite bind_raise; cycle 1.
      { erewrite bind_raise; [reflexivity | exact Hfetch]. }
      reflexivity. }
    reflexivity.
Qed.

(** C3: when every episode has a scalar for every registered
    feature and every mean can be formatted, the metric reported under a
    feature's label is [perform_format(np.mean(scalars), precision)]:
    numpy's mean of the feature's per-episode scalars, brought to the
    feature's precision by [np.round] and, for precision 0, [int].  The
    scalars are numpy's [array[-1,0] - array[0,0]], [array[-1,0]] and
    [np.sum(array)]; all of it is machine arithmetic. *)
Theorem compute_metrics_numpy_means
    (fetch : T -> list string -> Eff X EpisodeState) (trainer : T)
    (framework : string) (n : Z) w (eps : list EpisodeState) w' :
  framework ∈ available_frameworks ->
  rollouts fetch trainer (_METRICS_TO_LABEL_DICT.*1) (Z.to_nat n) w
  = (Return eps, w') ->
  (forall feature label precision,
     (feature, (label, precision)) ∈ _METRICS_TO_LABEL_DICT ->
     exists xs, episode_scalars feature eps = Some xs
                /\ is_Some (formatted (mean xs) precision)) ->
  exists m : Metrics,
    compute_metrics (Some fetch) (Some trainer) (Some framework) n w =
    (Return (true, "Successful submission", m), w')
    /\ length eps = Z.to_nat n
    /\ forall feature label precision,
         (feature, (label, precision)) ∈ _METRICS_TO_LABEL_DICT ->
         exists (xs : list Scalar) (v : Value),
           Forall2 (fun ep x => episode_scalar feature ep = Some x) eps xs
           /\ formatted (mean xs) precision = Some v
           /\ m !! label = Some v.
Proof.
  intros Hfw Hroll Hall.
  destruct (numpy_aggregate_defined eps _METRICS_TO_LABEL_DICT Hall ∅) as [m Hm].
  exists m. split; [| split].
  - rewrite numpy_compute_metrics_run by assumption. rewrite Hroll.
    unfold expected_metrics. by rewrite Hm.
  - by eapply numpy_rollouts_length.
  - intros feature label precision Hin.
    destruct (numpy_aggregate_lookup eps _ feature label precision _ _ Hm)
      as (xs & v & Hxs & Hv & Hl).
    + apply (bool_decide_unpack _). exact I.
    + exact Hin.
    + exists xs, v. split; [| by split]. by apply mapM_Some.
Qed.

(** C7: with no decimal places a finite float64 is formatted as the Python
    integer [round(v)], and NaN and the infinities raise; with [k > 0]
    places a float64 is formatted as the float64 [rint(v * p) / p] for the
    float64 power of ten [p], the product and the quotient rounded, which
    is not integer-typed; an integer comes back with its value,
    integer-typed, whatever [k >= 0]. *)
Theorem perform_format_numpy {S : Type} (s : S) :
  (forall a : Q,
     perform_format (Float64 (Finite a)) 0 s = (Return (PyInt (py_round a)), s))
  /\ perform_format (Float64 NaN) 0 s
     = (Raise (ValueError "cannot convert float NaN to integer"), s)
  /\ (forall negative : bool,
        perform_format (Float64 (Inf negative)) 0 s
        = (Raise (OtherError "OverflowError"), s))
  /\ (forall (f : float64) (k : Z), 0 < k ->
        exists r p : float64,
          perform_format (Float64 f) k s = (Return (Np (Float64 r)), s)
          /\ integer_typed (Np (Float64 r)) = false
          /\ p = power_of_ten (Z.to_N k)
          /\ (k < 9 -> p = rnd (inject_Z (10 ^ k)))
          /\ r = float_divide (float_rint (float_multiply f p)) p)
  /\ (forall z k : Z, 0 <= k -> - 2 ^ 63 <= z < 2 ^ 63 ->
        exists v : Value,
          perform_format (Int64 z) k s = (Return v, s)
          /\ integer_typed v = true
          /\ v = if k =? 0 then PyInt z else Np (Int64 z)).
Proof.
  split; [| split; [| split; [| split]]].
  - intros a. unfold perform_format, bind, assert, pure, ret. cbn [Z.leb Z.compare Z.eqb].
    change (Z.to_N 0) with 0%N. by rewrite numpy_int_rint.
  - reflexivity.
  - intros negative. reflexivity.
  - intros f k Hk. eexists _, (power_of_ten (Z.to_N k)).
    split; [| split; [reflexivity | split; [reflexivity | split; [| reflexivity]]]].
    + unfold perform_format, bind, assert, ret.
      rewrite (proj2 (Z.leb_le 0 k)) by lia.
      rewrite (proj2 (Z.eqb_neq k 0)) by lia.
      rewrite numpy_round_decimals by lia. reflexivity.
    + intros Hk9. apply numpy_power_of_ten. lia.
  - intros z k Hk _. exists (if k =? 0 then PyInt z else Np (Int64 z)).
    split; [| split].
    + unfold perform_format, bind, assert, pure, ret.
      rewrite (proj2 (Z.leb_le 0 k) Hk). cbn [np_round int].
      destruct (k =? 0); reflexivity.
    + by destruct (k =? 0).
    + reflexivity.
Qed.

Lemma numpy_aggregate_none (eps : list EpisodeState)
    (entries : list (string * (string * Z))) (feature label : string) (precision : Z)
    (xs : list Scalar) :
  (feature, (label, precision)) ∈ entries ->
  episode_scalars feature eps = Some xs ->
  formatted (mean xs) precision = None ->
  forall m0 : Metrics, aggregate eps entries m0 = None.
Proof.
  intros Hin Hxs Hv.
  induction entries as [| [feature' [label' precision']] entries IH]; intros m0.
  - by apply not_elem_of_nil in Hin.
  - cbn [aggregate]. apply elem_of_cons in Hin as [Heq | Hin].
    + inversion Heq; subst. rewrite Hxs. cbn [mbind option_bind]. by rewrite Hv.
    + destruct (episode_scalars feature' eps) as [xs' |]; [| reflexivity].
      cbn [mbind option_bind].
      destruct (formatted (mean xs') precision') as [v |]; [| reflexivity].
      cbn [mbind option_bind]. by apply IH.
Qed.

(** X29: a mean that is NaN or infinite cannot be turned into an integer:
    when this happens to a feature of precision 0, [compute_metrics]
    reports the failure of the rollouts and no metrics, though every fetch
    succeeded and every episode has its scalars. *)
Theorem compute_metrics_unformattable
    (fetch : T -> list string -> Eff X EpisodeState) (trainer : T)
    (framework : string) (n : Z) w (eps : list EpisodeState) w'
    (feature label : string) (xs : list Scalar) :
  framework ∈ available_frameworks ->
  rollouts fetch trainer (_METRICS_TO_LABEL_DICT.*1) (Z.to_nat n) w
  = (Return eps, w') ->
  (feature, (label, 0)) ∈ _METRICS_TO_LABEL_DICT ->
  episode_scalars feature eps = Some xs ->
  (forall a : Q, mean xs <> Finite a) ->
  compute_metrics (Some fetch) (Some trainer) (Some framework) n w
  = (Return (false, "Could not obtain an episode rollout!", ∅), w').
Proof.
  intros Hfw Hroll Hin Hxs Hnan.
  rewrite numpy_compute_metrics_run by assumption. rewrite Hroll.
  unfold expected_metrics.
  rewrite (numpy_aggregate_none eps _ feature label 0 xs Hin Hxs); [reflexivity |].
  unfold formatted. cbn [Z.eqb].
  destruct (mean xs) as [a | negative |]; [| reflexivity | reflexivity].
  by destruct (Hnan a).
Qed.


End NumpyFacts.

Section NumpyExamples.
Import Numpy.

Lemma compute_metrics_numpy_means_witness :
  exists m : Metrics,
    compute_metrics (rounding := binary64) (reduction := add_in_order)
      (Some (replay exact_episode)) (Some 7%nat) (Some "warpdrive") 2 start
    = (Return (true, "Successful submission", m),
       {| ext := 2%nat;
          trace := [EvFetchEpisodeStates 7%nat; EvFetchEpisodeStates 7%nat] |})
    /\ length [exact_episode 0; exact_episode 1] = Z.to_nat 2
    /\ (forall feature label precision,
          (feature, (label, precision)) ∈ _METRICS_TO_LABEL_DICT ->
          exists (xs : list Scalar) (v : Value),
            Forall2 (fun ep x =>
                       episode_scalar (rounding := binary64) (reduction := add_in_order)
                         feature ep = Some x)
                    [exact_episode 0; exact_episode 1] xs
            /\ formatted (rounding := binary64)
                 (mean (rounding := binary64) (reduction := add_in_order) xs) precision
               = Some v
            /\ m !! label = Some v)
    /\ m !! "Total Episode Reward" = Some (Np (literal (23 # 2)))
    /\ m !! "Global Temperature Rise" = Some (Np (literal (5 # 2)))
    /\ m !! "Global Carbon Mass" = Some (PyInt 4)
    /\ m !! "Total Capital" = Some (PyInt 11)
    /\ m !! "Total Production" = Some (PyInt 12)
    /\ m !! "Total Gross Output" = Some (PyInt 12)
    /\ m !! "Total Investment" = Some (PyInt 12)
    /\ m !! "Total Abatement Cost" = Some (Np (literal (23 # 2))).
Proof.
  destruct (compute_metrics_numpy_means (rounding := binary64) (reduction := add_in_order)
              (replay exact_episode) 7%nat "warpdrive" 2 start
              [exact_episode 0; exact_episode 1]
              {| ext := 2%nat;
                 trace := [EvFetchEpisodeStates 7%nat; EvFetchEpisodeStates 7%nat] |})
    as (m & Hrun & Hlen & Hall).
  - apply (bool_decide_unpack _). exact I.
  - reflexivity.
  - intros feature label precision Hin.
    repeat (apply elem_of_cons in Hin as [[= -> -> ->] | Hin];
            [eexists; split; [vm_compute; reflexivity | vm_compute; by eexists] |]).
    by apply not_elem_of_nil in Hin.
  - exists m. split; [exact Hrun |]. split; [exact Hlen |]. split; [exact Hall |].
    assert (Hm : m = default ∅ (snd <$> defined
                   (compute_metrics (rounding := binary64) (reduction := add_in_order)
                      (Some (replay exact_episode)) (Some 7%nat) (Some "warpdrive")
                      2 start).1)).
    { rewrite Hrun. reflexivity. }
    rewrite Hm. repeat split; vm_compute; reflexivity.
Defined.

(** C3: float64 arithmetic shows in the metrics.  The rewards [1e16] and
    [1.0] of the one episode add up to [1e16]; the temperature rise, the
    float64 written [2.675], lies below 2.675 and is reported as [2.68],
    more than half a hundredth away. *)
Lemma compute_metrics_inexact :
  exists (m : Metrics) (rise : Q),
    compute_metrics (rounding := binary64) (reduction := add_in_order)
      (Some (replay inexact_episode)) (Some 7%nat) (Some "rllib") 1 start
    = (Return (true, "Successful submission", m),
       {| ext := 1%nat; trace := [EvFetchEpisodeStates 7%nat] |})
    /\ inexact_episode 0 !! "reward_all_regions"
       = Some (float_array [[inject_Z (10 ^ 16); 1]]%Q)
    /\ exact_sum (float_array [[inject_Z (10 ^ 16); 1]]%Q)
       = Some (inject_Z (10 ^ 16 + 1))
    /\ m !! "Total Episode Reward" = Some (Np (Float64 (Finite (inject_Z (10 ^ 16)))))
    /\ episode_scalar (rounding := binary64) (reduction := add_in_order)
         "global_temperature" (inexact_episode 0) = Some (Float64 (Finite rise))
    /\ (rise < 2675 # 1000)%Q
    /\ (decimal rise 2 == 267 # 100)%Q
    /\ m !! "Global Temperature Rise" = Some (Np (literal (268 # 100)))
    /\ literal (268 # 100) <> literal (267 # 100).
Proof.
  eexists (default ∅ (snd <$> defined
            (compute_metrics (rounding := binary64) (reduction := add_in_order)
               (Some (replay inexact_episode)) (Some 7%nat) (Some "rllib") 1 start).1)),
          (3011782250804019 # 1125899906842624)%Q.
  repeat split; try (vm_compute; reflexivity).
  vm_compute. discriminate.
Qed.

Lemma perform_format_numpy_witness :
  perform_format (rounding := binary64) (literal (5 # 2)) 0 tt = (Return (PyInt 2), tt)
  /\ perform_format (rounding := binary64) (literal (7 # 2)) 0 tt = (Return (PyInt 4), tt)
  /\ (exists r : float64,
        perform_format (rounding := binary64) (literal (1 # 3)) 2 tt
        = (Return (Np (Float64 r)), tt)
        /\ integer_typed (Np (Float64 r)) = false
        /\ Float64 r = literal (33 # 100))
  /\ (exists v : Value,
        perform_format (rounding := binary64) (Int64 7) 0 tt = (Return v, tt)
        /\ integer_typed v = true
        /\ v = PyInt 7).
Proof.
  pose proof (perform_format_numpy (rounding := binary64) tt) as (H0 & _ & _ & Hk & Hz).
  split; [| split; [| split]].
  - exact (H0 (5 # 2)%Q).
  - exact (H0 (7 # 2)%Q).
  - destruct (Hk (binary64 (1 # 3)) 2 eq_refl) as (r & p & Hr & Ht & Ep & _ & Er).
    exists r. split; [exact Hr |]. split; [exact Ht |].
    rewrite Er, Ep. vm_compute. reflexivity.
  - exact (Hz 7 0 ltac:(lia) ltac:(lia)).
Defined.

(** C7: an integer is returned as an integer also for [k > 0]; NaN has no
    integer; and the float64 written [2.675], whose nearest multiple of a
    hundredth is 2.67, is formatted as [2.68]. *)
Lemma perform_format_unrounded :
  perform_format (rounding := binary64) (Int64 5) 2 tt = (Return (Np (Int64 5)), tt)
  /\ integer_typed (Np (Int64 5)) = true
  /\ perform_format (rounding := binary64) (Float64 NaN) 0 tt
     = (Raise (ValueError "cannot convert float NaN to integer"), tt)
  /\ exists a : Q,
       literal (2675 # 1000) = Float64 (Finite a)
       /\ (decimal a 2 == 267 # 100)%Q
       /\ perform_format (rounding := binary64) (literal (2675 # 1000)) 2 tt
          = (Return (Np (literal (268 # 100))), tt)
       /\ literal (268 # 100) <> literal (267 # 100).
Proof.
  split; [reflexivity |]. split; [reflexivity |]. split; [reflexivity |].
  exists (3011782250804019 # 1125899906842624)%Q.
  split; [vm_compute; reflexivity |]. split; [vm_compute; reflexivity |].
  split; [vm_compute; reflexivity |]. vm_compute. discriminate.
Qed.

Lemma compute_metrics_unformattable_witness :
  compute_metrics (rounding := binary64) (reduction := add_in_order)
    (Some (replay nan_episode)) (Some 7%nat) (Some "rllib") 2 start
  = (Return (false, "Could not obtain an episode rollout!", ∅),
     {| ext := 2%nat;
        trace := [EvFetchEpisodeStates 7%nat; EvFetchEpisodeStates 7%nat] |}).
Proof.
  apply (compute_metrics_unformattable (rounding := binary64) (reduction := add_in_order)
           (replay nan_episode) 7%nat "rllib" 2 start
           [nan_episode 0; nan_episode 1] _
           "global_carbon_mass" "Global Carbon Mass"
           [Float64 NaN; Float64 NaN]).
  - apply (bool_decide_unpack _). exact I.
  - reflexivity.
  - apply (bool_decide_unpack _). exact I.
  - reflexivity.
  - intros a. vm_compute. discriminate.
Defined.

(** X30: with IEEE 754 arithmetic, [compute_metrics] asked for no episode
    fetches nothing and reports failure: the mean of an empty list is NaN,
    which has no integer. *)
Theorem compute_metrics_no_episodes {X T : Type}
    (fetch : T -> list string -> Eff X EpisodeState) (trainer : T)
    (framework : string) (n : Z) (w : World X T) :
  framework ∈ available_frameworks ->
  n <= 0 ->
  compute_metrics (rounding := binary64) (reduction := add_in_order)
    (Some fetch) (Some trainer) (Some framework) n w
  = (Return (false, "Could not obtain an episode rollout!", ∅), w).
Proof.
  intros Hfw Hn. rewrite numpy_compute_metrics_run by assumption.
  replace (Z.to_nat n) with 0%nat by lia. reflexivity.
Qed.

Lemma compute_metrics_no_episodes_witness :
  compute_metrics (rounding := binary64) (reduction := add_in_order)
    (Some (replay exact_episode)) (Some 7%nat) (Some "warpdrive") 0 start
  = (Return (false, "Could not obtain an episode rollout!", ∅), start).
Proof.
  apply (compute_metrics_no_episodes (replay exact_episode) 7%nat "warpdrive" 0 start).
  - apply (bool_decide_unpack _). exact I.
  - lia.
Defined.


End NumpyExamples.

(** ** The top-level evaluator *)

Lemma shutdowns_app {T : Type} (tr1 tr2 : list (Event T)) :
  shutdowns (tr1 ++ tr2) = (shutdowns tr1 ++ shutdowns tr2)%list.
Proof. apply omap_app. Qed.

Lemma shutdowns_fetches {T : Type} (j : nat) (trainer : T) :
  shutdowns (replicate j (EvFetchEpisodeStates trainer)) = [].
Proof. induction j as [| j IH]; [reflexivity | exact IH]. Qed.

(** Closes a run that recorded no shutdown and returned neither success
    nor metrics. *)
Ltac leaf :=
  split;
  [ intros _; simpl in *;
    repeat match goal with
    | H : trace _ = _ |- _ => rewrite H; clear H
    end;
    rewrite ?shutdowns_app, ?shutdowns_fetches; simpl;
    rewrite ?app_nil_r; reflexivity
  | intros ? [? | ?]; [simplify_eq | done] ].

Section EvaluationFacts.
Context {X T C : Type}.
Variable env : Env X T C.
Implicit Types (l : EvalLocals) (w : World X T).

Lemma available_cases (framework : string) :
  framework ∈ available_frameworks -> framework = "rllib" \/ framework = "warpdrive".
Proof.
  intros H. unfold available_frameworks in H.
  apply elem_of_cons in H as [-> | H]; [by left |].
  apply elem_of_cons in H as [-> | H]; [by right |].
  by apply not_elem_of_nil in H.
Qed.

Opaque compute_metrics.

(** The stages after the validation, written out call by call. *)
Lemma evaluation_stages_run (dir framework : string) (n : Z) (seed : option Z) l w :
  framework ∈ available_frameworks ->
  evaluation_stages env dir (Some framework) n seed (l, w) =
  match run_unittests env dir (ext w) with
  | (Raise e, x1) => (Raise e, (l, record_call (EvRunUnittests dir) x1 w))
  | (Return _, x1) =>
    let w1 := record_call (EvRunUnittests dir) x1 w in
    let config_file := os_path_join dir ("rice_" +:+ framework +:+ ".yaml") in
    if negb (os_path_exists env config_file x1) then
      (Return tt,
       (set_pe_comment ("The run configuration is missing in " +:+ dir +:+ ".")
                       (set_pe_success false l), w1))
    else
      match open_read env config_file x1 with
      | (Raise e, x2) => (Raise e, (l, record_call (EvOpen config_file) x2 w1))
      | (Return contents, x2) =>
        let w2 := record_call (EvOpen config_file) x2 w1 in
        match yaml_safe_load env contents with
        | Raise e => (Raise e, (l, w2))
        | Return run_config =>
          match create_trainer (backend_of env framework) run_config seed x2 with
          | (Raise e, x3) =>
              (Return tt,
               (failed "Could not create trainer with the run_config provided." l,
                record_call EvCreateTrainer x3 w2))
          | (Return trainer, x3) =>
            let w3 := record_call EvCreateTrainer x3 w2 in
            match load_model_checkpoints (backend_of env framework) trainer dir x3 with
            | (Raise e, x4) =>
                (Return tt,
                 (failed "Could not load model checkpoints." l,
                  record_call (EvLoadCheckpoints trainer dir) x4 w3))
            | (Return _, x4) =>
              let w4 := record_call (EvLoadCheckpoints trainer dir) x4 w3 in
              match compute_metrics
                      (Some (fetch_episode_states (backend_of env framework)))
                      (Some trainer) (Some framework) n w4 with
              | (Raise e, w5) =>
                  (Return tt,
                   (failed "Count not fetch episode and compute metrics." l, w5))
              | (Return r, w5) =>
                if bool_decide (framework = "warpdrive") then
                  match graceful_close env trainer (ext w5) with
                  | (Return _, x6) =>
                      (Return tt,
                       (assigned r l, record_call (EvGracefulClose trainer) x6 w5))
                  | (Raise e, x6) =>
                      (Return tt,
                       (failed "Count not fetch episode and compute metrics."
                               (assigned r l),
                        record_call (EvGracefulClose trainer) x6 w5))
                  end
                else (Return tt, (assigned r l, w5))
              end
            end
          end
        end
      end
  end.
Proof.
  intros Hfw.
  unfold evaluation_stages, metrics_stage, get_imports, fail_with.
  unfold bind, world, extern, query, pure, assert, ret, raise, assign, try_except.
  destruct (available_cases _ Hfw) as [-> | ->]; simpl;
    destruct (run_unittests env dir (ext w)) as [[[] | e1] x1]; try reflexivity;
    simpl;
    destruct (os_path_exists env _ x1); try reflexivity; simpl;
    destruct (open_read env _ x1) as [[contents | e2] x2]; try reflexivity; simpl;
    destruct (yaml_safe_load env contents) as [run_config | e3]; try reflexivity;
    simpl;
    destruct (create_trainer _ run_config seed x2) as [[trainer | e4] x3];
    try reflexivity; simpl;
    destruct (load_model_checkpoints _ trainer dir x3) as [[[] | e5] x4];
    try reflexivity; simpl;
    destruct (compute_metrics _ _ _ n _) as [[r | e6] w5];
    try reflexivity; simpl;
    try (destruct (graceful_close env trainer (ext w5)) as [[[] | e7] x6]);
    reflexivity.
Qed.

Transparent compute_metrics.

(** The validation records the directory listing and nothing else. *)
Lemma validate_dir_trace (dir : string) w r w1 :
  validate_dir (fun d => extern (EvListdir d) (os_listdir env d)) (Some dir) w
  = (r, w1) ->
  trace w1 = (trace w ++ [EvListdir dir])%list.
Proof.
  intros H.
  destruct (extern (EvListdir dir) (os_listdir env dir) w) as [[files | e] w2] eqn:Hls.
  - rewrite (validate_dir_run _ _ _ _ _ Hls) in H. inversion H; subst.
    unfold extern in Hls. destruct (os_listdir env dir (ext w)); by inversion Hls.
  - rewrite (validate_dir_raises _ _ _ _ _ Hls) in H. inversion H; subst.
    unfold extern in Hls. destruct (os_listdir env dir (ext w)); by inversion Hls.
Qed.

(** After a failed validation nothing else runs. *)
Lemma perform_evaluation_invalid (dir : string) (n : Z) (seed : option Z) w
    framework comment w1 :
  0 < n ->
  validate_dir (fun d => extern (EvListdir d) (os_listdir env d)) (Some dir) w
  = (Return (framework, false, comment), w1) ->
  perform_evaluation env (Some dir) n seed w
  = (Return (framework, false, ∅, comment), w1).
Proof.
  intros Hn Hv. unfold perform_evaluation.
  erewrite bind_return; [| reflexivity].
  erewrite bind_return; cycle 1.
  { unfold assert. rewrite (proj2 (Z.ltb_lt 0 n) Hn). reflexivity. }
  erewrite bind_return; [| exact Hv]. reflexivity.
Qed.

(** After a successful validation the stages run inside the outermost
    [try]. *)
Lemma perform_evaluation_valid (dir : string) (n : Z) (seed : option Z) w
    framework comment w1 :
  0 < n ->
  validate_dir (fun d => extern (EvListdir d) (os_listdir env d)) (Some dir) w
  = (Return (framework, true, comment), w1) ->
  perform_evaluation env (Some dir) n seed w =
  match evaluation_stages env dir framework n seed
          ({| pe_success := true; pe_comment := comment; pe_eval_metrics := ∅ |}, w1)
  with
  | (Return _, (l, w')) =>
      (Return (framework, pe_success l, pe_eval_metrics l, pe_comment l), w')
  | (Raise e, (l, w')) =>
      (Return (framework, false, pe_eval_metrics l,
               "Unit tests were not successful."), w')
  end.
Proof.
  intros Hn Hv. unfold perform_evaluation.
  erewrite bind_return; [| reflexivity].
  erewrite bind_return; cycle 1.
  { unfold assert. rewrite (proj2 (Z.ltb_lt 0 n) Hn). reflexivity. }
  erewrite bind_return; [| exact Hv].
  unfold call, bind, try_except, fail_with, assign, locals, ret. simpl.
  destruct (evaluation_stages env dir framework n seed _) as [[[] | e] [l w']];
    reflexivity.
Qed.

Lemma perform_evaluation_not_positive (dir : string) (n : Z) (seed : option Z) w :
  n <= 0 -> perform_evaluation env (Some dir) n seed w = (Raise AssertionError, w).
Proof.
  intros Hn. unfold perform_evaluation.
  erewrite bind_return; [| reflexivity].
  erewrite bind_raise; [reflexivity |].
  unfold assert. rewrite (proj2 (Z.ltb_ge 0 n) Hn). reflexivity.
Qed.

Lemma perform_evaluation_raises (dir : string) (n : Z) (seed : option Z) w e w1 :
  0 < n ->
  validate_dir (fun d => extern (EvListdir d) (os_listdir env d)) (Some dir) w
  = (Raise e, w1) ->
  perform_evaluation env (Some dir) n seed w = (Raise e, w1).
Proof.
  intros Hn Hv. unfold perform_evaluation.
  erewrite bind_return; [| reflexivity].
  erewrite bind_return; cycle 1.
  { unfold assert. rewrite (proj2 (Z.ltb_lt 0 n) Hn). reflexivity. }
  erewrite bind_raise; [reflexivity | exact Hv].
Qed.


(** C4: the trainer is shut down for the warpdrive backend only.  When a
    warpdrive evaluation succeeds, or at least returns computed metrics,
    [graceful_close] is the last call, made on the trainer once all the
    episodes have been fetched and the metrics computed; for any other
    backend no shutdown is ever performed. *)
Theorem graceful_close_warpdrive_only (dir : string) (n : Z) (seed : option Z)
    w framework success (m : Metrics) comment w' :
  perform_evaluation env (Some dir) n seed w
  = (Return (framework, success, m, comment), w') ->
  (framework <> Some "warpdrive" -> shutdowns (trace w') = shutdowns (trace w))
  /\ (framework = Some "warpdrive" -> success = true \/ m <> ∅ ->
      exists trainer : T,
        trace w' =
        (trace w
         ++ [EvListdir dir; EvRunUnittests dir;
             EvOpen (os_path_join dir "rice_warpdrive.yaml");
             EvCreateTrainer; EvLoadCheckpoints trainer dir]
         ++ replicate (Z.to_nat n) (EvFetchEpisodeStates trainer)
         ++ [EvGracefulClose trainer])%list).
Proof.
  intros H.
  destruct (Z.le_gt_cases n 0) as [Hn | Hn].
  { rewrite perform_evaluation_not_positive in H by assumption. discriminate. }
  destruct (validate_dir (fun d => extern (EvListdir d) (os_listdir env d))
                         (Some dir) w) as [[[[fwo s] c] | e] w1] eqn:Hv;
    [| rewrite (perform_evaluation_raises _ _ _ _ _ _ Hn Hv) in H; discriminate].
  pose proof (validate_dir_trace _ _ _ _ Hv) as Htr1.
  destruct s.
  - destruct (validate_dir_success _ _ _ _ _ _ Hv) as (fw & -> & Hfw).
    rewrite (perform_evaluation_valid _ _ _ _ _ _ _ Hn Hv) in H.
    rewrite evaluation_stages_run in H by assumption. cbn zeta in H.
    destruct (run_unittests env dir (ext w1)) as [[[] | e1] x1];
      [| inversion H; subst; leaf].
    destruct (os_path_exists env _ x1); cbn [negb] in H;
      [| inversion H; subst; leaf].
    destruct (open_read env _ x1) as [[contents | e2] x2];
      [| inversion H; subst; leaf].
    destruct (yaml_safe_load env contents) as [run_config | e3];
      [| inversion H; subst; leaf].
    destruct (create_trainer _ run_config seed x2) as [[trainer | e4] x3];
      [| inversion H; subst; leaf].
    destruct (load_model_checkpoints _ trainer dir x3) as [[[] | e5] x4];
      [| inversion H; subst; leaf].
    match type of H with
    | context [compute_metrics ?f ?t ?fwo n ?w4] =>
        destruct (compute_metrics_returns
                    (fetch_episode_states (backend_of env fw)) trainer fw n w4 Hfw)
          as (s & c' & m' & w5 & j & Hcm & Htr5 & Hs & Hf)
    end.
    assert (Hj : s = true \/ m' <> ∅ -> j = Z.to_nat n).
    { intros [Hst | Hm]; [by apply Hs |].
      apply Hs. destruct s; [reflexivity |]. by destruct Hm; apply Hf. }
    rewrite Hcm in H.
    destruct (available_cases _ Hfw) as [-> | ->].
    + rewrite bool_decide_eq_false_2 in H by discriminate.
      inversion H; subst. leaf.
    + rewrite bool_decide_eq_true_2 in H by reflexivity.
      destruct (graceful_close env trainer (ext w5)) as [[[] | e7] x6];
        inversion H; subst.
      * split; [intros Hne; by destruct Hne |].
        intros _ Hdone. exists trainer. simpl in *.
        rewrite Htr5, Hj by exact Hdone. simpl. rewrite Htr1.
        rewrite <- !app_assoc. reflexivity.
      * split; [intros Hne; by destruct Hne |].
        intros _ Hdone. exists trainer. simpl in *.
        rewrite Htr5, Hj by (right; by destruct Hdone). simpl. rewrite Htr1.
        rewrite <- !app_assoc. reflexivity.
  - rewrite (perform_evaluation_invalid _ _ _ _ _ _ _ Hn Hv) in H.
    inversion H; subst. leaf.
Qed.

(** X23: a failed evaluation returns an empty mapping, except on one
    path: on warpdrive, when the shutdown of the trainer raises after the
    metrics have been assigned. *)
Lemma failure_metrics (dir : string) (n : Z) (seed : option Z)
    w framework (m : Metrics) comment w' :
  perform_evaluation env (Some dir) n seed w
  = (Return (framework, false, m, comment), w') ->
  m = ∅
  \/ (framework = Some "warpdrive"
      /\ comment = "Count not fetch episode and compute metrics."
      /\ exists trainer tr, trace w' = (tr ++ [EvGracefulClose trainer])%list).
Proof.
  intros H.
  destruct (Z.le_gt_cases n 0) as [Hn | Hn].
  { rewrite perform_evaluation_not_positive in H by assumption. discriminate. }
  destruct (validate_dir (fun d => extern (EvListdir d) (os_listdir env d))
                         (Some dir) w) as [[[[fwo s] c] | e] w1] eqn:Hv;
    [| rewrite (perform_evaluation_raises _ _ _ _ _ _ Hn Hv) in H; discriminate].
  destruct s.
  - destruct (validate_dir_success _ _ _ _ _ _ Hv) as (fw & -> & Hfw).
    rewrite (perform_evaluation_valid _ _ _ _ _ _ _ Hn Hv) in H.
    rewrite evaluation_stages_run in H by assumption. cbn zeta in H.
    destruct (run_unittests env dir (ext w1)) as [[[] | e1] x1];
      [| inversion H; by left].
    destruct (os_path_exists env _ x1); cbn [negb] in H;
      [| inversion H; by left].
    destruct (open_read env _ x1) as [[contents | e2] x2];
      [| inversion H; by left].
    destruct (yaml_safe_load env contents) as [run_config | e3];
      [| inversion H; by left].
    destruct (create_trainer _ run_config seed x2) as [[trainer | e4] x3];
      [| inversion H; by left].
    destruct (load_model_checkpoints _ trainer dir x3) as [[[] | e5] x4];
      [| inversion H; by left].
    match type of H with
    | context [compute_metrics ?f ?t ?fwo n ?w4] =>
        destruct (compute_metrics_returns
                    (fetch_episode_states (backend_of env fw)) trainer fw n w4 Hfw)
          as (s & c' & m' & w5 & j & Hcm & Htr5 & Hs & Hf)
    end.
    rewrite Hcm in H.
    destruct (available_cases _ Hfw) as [-> | ->].
    + rewrite bool_decide_eq_false_2 in H by discriminate.
      inversion H; subst. left. by apply Hf.
    + rewrite bool_decide_eq_true_2 in H by reflexivity.
      destruct (graceful_close env trainer (ext w5)) as [[[] | e7] x6];
        inversion H; subst.
      * left. by apply Hf.
      * right. split; [reflexivity |]. split; [reflexivity |].
        by exists trainer, (trace w5).
  - rewrite (perform_evaluation_invalid _ _ _ _ _ _ _ Hn Hv) in H.
    inversion H. by left.
Qed.

(** C8: once the validation and the unit tests have succeeded, a missing
    run configuration [rice_<framework>.yaml] makes the evaluation return
    success [false] with a comment that names the results directory; the
    function returns, it does not raise. *)
Theorem perform_evaluation_missing_config (dir : string) (n : Z) (seed : option Z)
    w framework comment w1 x2 :
  0 < n ->
  validate_dir (fun d => extern (EvListdir d) (os_listdir env d)) (Some dir) w
  = (Return (framework, true, comment), w1) ->
  run_unittests env dir (ext w1) = (Return tt, x2) ->
  os_path_exists env (os_path_join dir ("rice_" +:+ fmt framework +:+ ".yaml")) x2
  = false ->
  perform_evaluation env (Some dir) n seed w =
  (Return (framework, false, ∅,
           "The run configuration is missing in " +:+ dir +:+ "."),
   record_call (EvRunUnittests dir) x2 w1).
Proof.
  intros Hn Hv Hut Hex.
  destruct (validate_dir_success _ _ _ _ _ _ Hv) as (fw & -> & Hfw).
  rewrite (perform_evaluation_valid _ _ _ _ _ _ _ Hn Hv).
  rewrite evaluation_stages_run by assumption.
  rewrite Hut. cbn zeta. simpl fmt in Hex. rewrite Hex. reflexivity.
Qed.

(** C9: when the run configuration exists but [yaml.safe_load] raises on
    it, the outermost handler catches the exception: the evaluation
    returns success [false] with the comment "Unit tests were not
    successful." *)
Theorem perform_evaluation_yaml_error (dir : string) (n : Z) (seed : option Z)
    w framework comment w1 x2 contents x3 e :
  0 < n ->
  validate_dir (fun d => extern (EvListdir d) (os_listdir env d)) (Some dir) w
  = (Return (framework, true, comment), w1) ->
  run_unittests env dir (ext w1) = (Return tt, x2) ->
  os_path_exists env (os_path_join dir ("rice_" +:+ fmt framework +:+ ".yaml")) x2
  = true ->
  open_read env (os_path_join dir ("rice_" +:+ fmt framework +:+ ".yaml")) x2
  = (Return contents, x3) ->
  yaml_safe_load env contents = Raise e ->
  perform_evaluation env (Some dir) n seed w =
  (Return (framework, false, ∅, "Unit tests were not successful."),
   record_call (EvOpen (os_path_join dir ("rice_" +:+ fmt framework +:+ ".yaml"))) x3
     (record_call (EvRunUnittests dir) x2 w1)).
Proof.
  intros Hn Hv Hut Hex Hopen Hyaml.
  destruct (validate_dir_success _ _ _ _ _ _ Hv) as (fw & -> & Hfw).
  rewrite (perform_evaluation_valid _ _ _ _ _ _ _ Hn Hv).
  rewrite evaluation_stages_run by assumption.
  simpl fmt in Hex, Hopen.
  rewrite Hut. cbn zeta. rewrite Hex. cbn [negb]. rewrite Hopen, Hyaml.
  reflexivity.
Qed.
End EvaluationFacts.

Lemma perform_evaluation_missing_config_witness :
  perform_evaluation (scenario_env missing_config) (Some "results")
                     _NUM_ROLLOUT_EPISODES (Some _SEED) start
  = (Return (Some "rllib", false, ∅, "The run configuration is missing in results."),
     {| ext := 0%nat; trace := [EvListdir "results"; EvRunUnittests "results"] |}).
Proof.
  apply (perform_evaluation_missing_config (scenario_env missing_config)
           "results" _NUM_ROLLOUT_EPISODES (Some _SEED) start
           (Some "rllib") "Valid submission"
           {| ext := 0%nat; trace := [EvListdir "results"] |} 0%nat);
    reflexivity.
Defined.

Lemma perform_evaluation_yaml_error_witness :
  perform_evaluation (scenario_env broken_yaml) (Some "results")
                     _NUM_ROLLOUT_EPISODES (Some _SEED) start
  = (Return (Some "rllib", false, ∅, "Unit tests were not successful."),
     {| ext := 0%nat;
        trace := [EvListdir "results"; EvRunUnittests "results";
                  EvOpen "results/rice_rllib.yaml"] |}).
Proof.
  apply (perform_evaluation_yaml_error (scenario_env broken_yaml)
           "results" _NUM_ROLLOUT_EPISODES (Some _SEED) start
           (Some "rllib") "Valid submission"
           {| ext := 0%nat; trace := [EvListdir "results"] |} 0%nat
           "seed: [1" 0%nat (OtherError "yaml.parser.ParserError"));
    reflexivity.
Defined.

Lemma graceful_close_warpdrive_only_witness :
  (exists trainer : nat,
     trace (perform_evaluation (scenario_env good_warpdrive) (Some "results") 2
                               (Some _SEED) start).2
     = (trace start
        ++ [EvListdir "results"; EvRunUnittests "results";
            EvOpen (os_path_join "results" "rice_warpdrive.yaml");
            EvCreateTrainer; EvLoadCheckpoints trainer "results"]
        ++ replicate (Z.to_nat 2) (EvFetchEpisodeStates trainer)
        ++ [EvGracefulClose trainer])%list)
  /\ shutdowns (trace (perform_evaluation (scenario_env good_rllib) (Some "results") 2
                                          (Some _SEED) start).2)
     = shutdowns (trace start).
Proof.
  split.
  - refine (proj2 (graceful_close_warpdrive_only (scenario_env good_warpdrive)
                     "results" 2 (Some _SEED) start
                     (Some "warpdrive") true
                     (metrics_of (perform_evaluation (scenario_env good_warpdrive)
                                    (Some "results") 2 (Some _SEED) start).1)
                     "Successful submission"
                     (perform_evaluation (scenario_env good_warpdrive)
                        (Some "results") 2 (Some _SEED) start).2
                     _) eq_refl (or_introl eq_refl)).
    vm_compute. reflexivity.
  - refine (proj1 (graceful_close_warpdrive_only (scenario_env good_rllib)
                     "results" 2 (Some _SEED) start
                     (Some "rllib") true
                     (metrics_of (perform_evaluation (scenario_env good_rllib)
                                    (Some "results") 2 (Some _SEED) start).1)
                     "Successful submission"
                     (perform_evaluation (scenario_env good_rllib)
                        (Some "results") 2 (Some _SEED) start).2
                     _) _).
    + vm_compute. reflexivity.
    + discriminate.
Defined.

(** The defect behind C2: when the shutdown of a warpdrive trainer raises,
    the evaluation reports failure, yet it returns the mapping that
    [compute_metrics] had filled. *)
Theorem perform_evaluation_close_failure :
  exists m : Metrics,
    (perform_evaluation (scenario_env failing_close) (Some "results")
                        _NUM_ROLLOUT_EPISODES (Some _SEED) start).1
    = Return (Some "warpdrive", false, m,
              "Count not fetch episode and compute metrics.")
    /\ dom m = labels
    /\ m !! "Global Carbon Mass" = Some (VInt 6)
    /\ m <> ∅.
Proof.
  exists (metrics_of (perform_evaluation (scenario_env failing_close) (Some "results")
                        _NUM_ROLLOUT_EPISODES (Some _SEED) start).1).
  split; [vm_compute; reflexivity |]. split; [| split].
  - apply (bool_decide_unpack _). vm_compute. exact I.
  - vm_compute. reflexivity.
  - intros E. apply (f_equal (fun m : Metrics => m !! "Global Carbon Mass")) in E.
    vm_compute in E. discriminate E.
Qed.

(** * Further properties *)

(** ** The directory validator *)

Lemma first_missing_none (required files : list string) :
  first_missing required files = None <-> (forall f, f ∈ required -> f ∈ files).
Proof.
  induction required as [| file rest IH].
  - split; [intros _ f Hf; by apply not_elem_of_nil in Hf | reflexivity].
  - rewrite first_missing_cons. case_bool_decide as Hin.
    + rewrite IH. split.
      * intros Hall f Hf. apply elem_of_cons in Hf as [-> | Hf]; auto.
      * intros Hall f Hf. apply Hall. by right.
    + split; [discriminate |]. intros Hall. destruct Hin. apply Hall. by left.
Qed.

Lemma first_missing_members (required files files' : list string) :
  (forall f, f ∈ files <-> f ∈ files') ->
  first_missing required files = first_missing required files'.
Proof.
  intros Hsame. unfold first_missing. f_equal.
  apply list_filter_iff. intros f. by rewrite Hsame.
Qed.

Lemma marker_backend_members (files files' : list string) :
  (forall f, f ∈ files <-> f ∈ files') ->
  marker_backend files = marker_backend files'.
Proof.
  intros Hsame. unfold marker_backend.
  by rewrite (bool_decide_ext _ _ (Hsame ".warpdrive")),
             (bool_decide_ext _ _ (Hsame ".rllib")).
Qed.

Section ValidateMore.
Context {W : Type}.
Variable os_listdir : string -> Eff W (list string).

(** X1: a listed directory is a valid submission exactly when it holds a
    marker file and every companion file of the backend the marker
    selects; the verdict is then that backend with the comment "Valid
    submission". *)
Theorem validate_dir_valid_iff dir files (w w' : W) framework comment :
  os_listdir dir w = (Return files, w') ->
  validate_dir os_listdir (Some dir) w = (Return (framework, true, comment), w')
  <-> exists fw, marker_backend files = Some fw
                 /\ (forall f, f ∈ required_files fw -> f ∈ files)
                 /\ framework = Some fw
                 /\ comment = "Valid submission".
Proof.
  intros Hls. rewrite (validate_dir_run _ _ _ _ _ Hls). split.
  - intros H. destruct (marker_backend files) as [fw |]; [| discriminate].
    destruct (first_missing (required_files fw) files) eqn:E; [discriminate |].
    inversion H; subst. exists fw. by rewrite <- first_missing_none.
  - intros (fw & -> & Hall & -> & ->).
    by rewrite (proj2 (first_missing_none _ _) Hall).
Qed.

(** X2: the verdict depends on which names the listing holds, not on
    their order or on repetitions. *)
Theorem validate_dir_same_members (os_listdir' : string -> Eff W (list string))
    dir files files' (w w' : W) :
  os_listdir dir w = (Return files, w') ->
  os_listdir' dir w = (Return files', w') ->
  (forall f, f ∈ files <-> f ∈ files') ->
  validate_dir os_listdir (Some dir) w = validate_dir os_listdir' (Some dir) w.
Proof.
  intros Hls Hls' Hsame.
  rewrite (validate_dir_run _ _ _ _ _ Hls), (validate_dir_run _ _ _ _ _ Hls').
  rewrite (marker_backend_members _ _ Hsame).
  destruct (marker_backend files') as [fw |]; [| reflexivity].
  by rewrite (first_missing_members _ _ _ Hsame).
Qed.

(** X3: the framework is reported even when a companion file is missing;
    it is [None] exactly when the listing holds neither marker file. *)
Theorem validate_dir_framework_none dir files (w w' : W) framework success comment :
  os_listdir dir w = (Return files, w') ->
  validate_dir os_listdir (Some dir) w
  = (Return (framework, success, comment), w') ->
  framework = None <-> (".warpdrive" ∉ files) /\ (".rllib" ∉ files).
Proof.
  intros Hls. rewrite (validate_dir_run _ _ _ _ _ Hls). unfold marker_backend.
  case_bool_decide as Hw; [| case_bool_decide as Hr].
  - destruct (first_missing _ files); intros [= <- _ _];
      (split; [discriminate | by intros [? _]]).
  - destruct (first_missing _ files); intros [= <- _ _];
      (split; [discriminate | by intros [_ ?]]).
  - intros [= <- _ _]. by split.
Qed.
End ValidateMore.

Lemma validate_dir_valid_iff_witness :
  validate_dir (fun _ : string => ret ("notes.txt" :: ".rllib" :: rllib_files))
               (Some "results") tt
  = (Return (Some "rllib", true, "Valid submission"), tt).
Proof.
  apply (proj2 (validate_dir_valid_iff _ "results"
                  ("notes.txt" :: ".rllib" :: rllib_files) tt tt
                  (Some "rllib") "Valid submission" eq_refl)).
  exists "rllib". split; [reflexivity |]. split; [| by split].
  intros f Hf. apply elem_of_cons. right. apply elem_of_cons. by right.
Defined.

Lemma validate_dir_same_members_witness :
  validate_dir (fun _ : string => ret [".rllib"; "rice.py"; "rice_rllib.yaml"])
               (Some "results") tt
  = validate_dir (fun _ : string => ret ["rice_rllib.yaml"; "rice.py"; ".rllib"; "rice.py"])
                 (Some "results") tt.
Proof.
  apply (validate_dir_same_members _ _ "results"
           [".rllib"; "rice.py"; "rice_rllib.yaml"]
           ["rice_rllib.yaml"; "rice.py"; ".rllib"; "rice.py"] tt tt);
    [reflexivity | reflexivity |].
  intros f. rewrite !elem_of_cons, !elem_of_nil. tauto.
Defined.

Lemma validate_dir_framework_none_witness :
  @None string = None
  <-> (".warpdrive" ∉ ["rice.py"; "rice_helpers.py"])
      /\ (".rllib" ∉ ["rice.py"; "rice_helpers.py"]).
Proof.
  apply (validate_dir_framework_none
           (fun _ : string => ret ["rice.py"; "rice_helpers.py"])
           "results" ["rice.py"; "rice_helpers.py"] tt tt None false
           "Missing identifier file!");
    reflexivity.
Defined.

(** ** Rounding and formatting *)

Lemma Qfloor_half (z : Z) : Qfloor (inject_Z z + (1 # 2)) = z.
Proof.
  pose proof (Qfloor_le (inject_Z z + (1 # 2))) as Hlo.
  pose proof (Qlt_floor (inject_Z z + (1 # 2))) as Hhi.
  set (f := Qfloor (inject_Z z + (1 # 2))) in *.
  assert (H1 : (inject_Z f < inject_Z (z + 1))%Q).
  { rewrite inject_Z_plus. change (inject_Z 1) with 1%Q. lra. }
  assert (H2 : (inject_Z z < inject_Z (f + 1))%Q) by lra.
  rewrite <- Zlt_Qlt in H1, H2. lia.
Qed.

Lemma rint_bounds (q : Q) : Qfloor q <= rint q <= Qfloor q + 1.
Proof.
  unfold rint. destruct (Qcompare _ _); [destruct (Z.even _) | |]; lia.
Qed.

Lemma rint_mono (q q' : Q) : (q <= q')%Q -> rint q <= rint q'.
Proof.
  intros Hle. pose proof (Qfloor_resp_le _ _ Hle) as Hf.
  destruct (Z.eq_dec (Qfloor q) (Qfloor q')) as [E | Hne].
  - unfold rint. rewrite E.
    destruct (Qcompare_spec (q - inject_Z (Qfloor q')) (1 # 2)) as [H | H | H];
      destruct (Qcompare_spec (q' - inject_Z (Qfloor q')) (1 # 2)) as [H' | H' | H'];
      try destruct (Z.even (Qfloor q')); try lia; lra.
  - pose proof (rint_bounds q). pose proof (rint_bounds q'). lia.
Qed.

Lemma np_round_mono (v v' : Q) (k : Z) :
  0 <= k -> (v <= v')%Q -> (np_round v k <= np_round v' k)%Q.
Proof.
  intros Hk Hle. pose proof (pow10_pos k Hk) as Hs.
  rewrite !np_round_decimals by assumption.
  apply Qmult_le_compat_r; [| apply Qlt_le_weak, Qinv_lt_0_compat, Hs].
  rewrite <- Zle_Qle. apply rint_mono.
  apply Qmult_le_compat_r; [exact Hle | by apply Qlt_le_weak].
Qed.

Lemma perform_format_assertion {S : Type} (v : Q) (k : Z) (s : S) :
  (0 <=? k) = false -> perform_format v k s = (Raise AssertionError, s).
Proof. intros Hk. unfold perform_format, bind, assert. by rewrite Hk. Qed.

(** X4: a negative number of decimal places fails the assertion; nothing
    is rounded. *)
Theorem perform_format_negative {S : Type} (v : Q) (k : Z) (s : S) :
  k < 0 -> perform_format v k s = (Raise AssertionError, s).
Proof. intros Hk. apply perform_format_assertion. by apply Z.leb_gt. Qed.

Lemma perform_format_negative_witness :
  perform_format (1 # 3) (-1) tt = (Raise AssertionError, tt).
Proof. apply perform_format_negative. reflexivity. Defined.

(** X5: with zero decimal places a value half way between two integers
    goes to the even one. *)
Theorem perform_format_half_even {S : Type} (z : Z) (s : S) :
  perform_format (inject_Z z + (1 # 2)) 0 s
  = (Return (VInt (if Z.even z then z else z + 1)), s).
Proof.
  rewrite perform_format_rounded by lia. unfold rounded, py_round, rint.
  change (0 =? 0) with true. cbv beta iota zeta. rewrite Qfloor_half.
  assert (E : (inject_Z z + (1 # 2) - inject_Z z ?= 1 # 2)%Q = Eq).
  { apply Qeq_alt. ring. }
  by rewrite E.
Qed.

(** X6: formatting keeps the order of two values: with the same number of
    decimal places, the larger value never gets the smaller result. *)
Theorem perform_format_monotone {S : Type} (v v' : Q) (k : Z) (s : S) (a b : Value) :
  (v <= v')%Q ->
  perform_format v k s = (Return a, s) ->
  perform_format v' k s = (Return b, s) ->
  value_le a b.
Proof.
  intros Hle Ha Hb.
  destruct (Z.lt_ge_cases k 0) as [Hk | Hk].
  { rewrite perform_format_assertion in Ha by (by apply Z.leb_gt). discriminate. }
  rewrite perform_format_rounded in Ha, Hb by assumption.
  inversion Ha; inversion Hb; subst. unfold rounded.
  destruct (k =? 0) eqn:E; simpl.
  - by apply rint_mono.
  - by apply np_round_mono.
Qed.

Lemma perform_format_monotone_witness :
  value_le (VFloat (33 # 100)) (VFloat (1 # 2)).
Proof.
  apply (perform_format_monotone (1 # 3) (1 # 2) 2 tt); [| reflexivity | reflexivity].
  unfold Qle. simpl. lia.
Defined.

(** ** The backend imports *)

Section ImportFacts.
Context {X T C : Type}.
Variable env : Env X T C.

(** X7: without a framework the import fails its assertion, and a tag
    other than "rllib" and "warpdrive" is a [ValueError] that names the
    tag. *)
Theorem get_imports_errors {S : Type} (s : S) :
  get_imports env None s = (Raise AssertionError, s)
  /\ (forall tag : string,
        tag ∉ available_frameworks ->
        get_imports env (Some tag) s
        = (Raise (ValueError ("Unknown framework " +:+ tag +:+ "!")), s)).
Proof.
  split; [reflexivity |]. intros tag Htag.
  unfold get_imports, bind, assert, raise. simpl.
  rewrite !bool_decide_eq_false_2; [reflexivity | |];
    intros [= ->]; apply Htag; set_solver.
Qed.

(** X8: the framework of a successful validation can always be imported:
    the warpdrive module when the listing holds .warpdrive, the rllib
    module otherwise. *)
Theorem get_imports_after_validation {S : Type} (dir : string) (files : list string)
    (w : World X T) x' framework comment w1 (s : S) :
  os_listdir env dir (ext w) = (Return files, x') ->
  validate_dir (fun d => extern (EvListdir d) (os_listdir env d)) (Some dir) w
  = (Return (framework, true, comment), w1) ->
  get_imports env framework s
  = (Return (if bool_decide (".warpdrive" ∈ files) then train_with_warp_drive env
             else train_with_rllib env), s).
Proof.
  intros Hls Hv.
  assert (Hext : extern (EvListdir dir) (os_listdir env dir) w
                 = (Return files, record_call (EvListdir dir) x' w)).
  { unfold extern. by rewrite Hls. }
  rewrite (validate_dir_run _ _ _ _ _ Hext) in Hv. unfold marker_backend in Hv.
  case_bool_decide; [| case_bool_decide]; [| | discriminate];
    destruct (first_missing _ files); inversion Hv; subst; reflexivity.
Qed.
End ImportFacts.

Lemma get_imports_errors_witness :
  get_imports (scenario_env good_rllib) (Some "torch") tt
  = (Raise (ValueError "Unknown framework torch!"), tt).
Proof.
  apply (proj2 (get_imports_errors (scenario_env good_rllib) tt) "torch").
  apply (bool_decide_unpack _). exact I.
Defined.

Lemma get_imports_after_validation_witness :
  get_imports (scenario_env good_warpdrive) (Some "warpdrive") tt
  = (Return (train_with_warp_drive (scenario_env good_warpdrive)), tt).
Proof.
  apply (get_imports_after_validation (scenario_env good_warpdrive) "results"
           (".warpdrive" :: warpdrive_files) start 0%nat (Some "warpdrive")
           "Valid submission" {| ext := 0%nat; trace := [EvListdir "results"] |} tt);
    reflexivity.
Defined.

(** ** Episode rollouts and metric aggregation *)

Section MetricsMore.
Context {X T : Type}.
Implicit Types (w : World X T).

(** Once a fetch has raised, asking for more episodes changes nothing. *)
Lemma rollouts_stop (fetch : T -> list string -> Eff X EpisodeState) (trainer : T)
    (desired : list string) (i : nat) :
  forall w eps w1 e x2 (k : nat),
    rollouts fetch trainer desired i w = (Return eps, w1) ->
    fetch trainer desired (ext w1) = (Raise e, x2) ->
    (i < k)%nat ->
    rollouts fetch trainer desired k w
    = (Raise e, record_call (EvFetchEpisodeStates trainer) x2 w1).
Proof.
  induction i as [| i IH]; intros w eps w1 e x2 k Hroll Hfail Hk;
    (destruct k as [| k]; [lia |]); cbn [rollouts] in *.
  - inversion Hroll; subst. unfold bind, extern. by rewrite Hfail.
  - unfold bind in *.
    destruct (extern _ _ w) as [[st | e0] wa]; [| discriminate].
    destruct (rollouts fetch trainer desired i wa) as [[rest | e0] wb] eqn:E;
      [| discriminate].
    inversion Hroll; subst.
    by rewrite (IH wa rest w1 e x2 k E Hfail ltac:(lia)).
Qed.

Lemma episode_scalars_undefined (feature : string) (eps : list EpisodeState)
    (ep : EpisodeState) :
  ep ∈ eps -> episode_scalar feature ep = None -> episode_scalars feature eps = None.
Proof.
  intros Hin Hnone. unfold episode_scalars.
  destruct (mapM (episode_scalar feature) eps) as [qs |] eqn:E; [| reflexivity].
  apply mapM_Some in E.
  apply list_elem_of_lookup in Hin as [i Hi].
  destruct (Forall2_lookup_l _ _ _ i ep E Hi) as (q & _ & Hq). congruence.
Qed.

Lemma aggregate_undefined (eps : list EpisodeState)
    (entries : list (string * (string * Z))) (feature : string) :
  feature ∈ entries.*1 ->
  episode_scalars feature eps = None ->
  forall m0 : Metrics, aggregate eps entries m0 = None.
Proof.
  induction entries as [| [feature' [label precision]] entries IH];
    intros Hin Hnone m0.
  - by apply not_elem_of_nil in Hin.
  - cbn [aggregate]. rewrite fmap_cons in Hin. cbn [fst] in Hin.
    apply elem_of_cons in Hin as [<- | Hin]; [by rewrite Hnone |].
    destruct (episode_scalars feature' eps); [| reflexivity]. by apply IH.
Qed.

(** An episode without a scalar for a registered feature fails the whole
    aggregation. *)
Lemma compute_metrics_undefined_scalar
    (fetch : T -> list string -> Eff X EpisodeState) (trainer : T)
    (framework : string) (n : Z) w (eps : list EpisodeState) w'
    (ep : EpisodeState) (feature : string) :
  framework ∈ available_frameworks ->
  rollouts fetch trainer (_METRICS_TO_LABEL_DICT.*1) (Z.to_nat n) w
  = (Return eps, w') ->
  ep ∈ eps ->
  feature ∈ _METRICS_TO_LABEL_DICT.*1 ->
  episode_scalar feature ep = None ->
  compute_metrics (Some fetch) (Some trainer) (Some framework) n w
  = (Return (false, "Could not obtain an episode rollout!", ∅), w').
Proof.
  intros Hfw Hroll Hep Hfeat Hnone.
  rewrite compute_metrics_run by assumption. rewrite Hroll.
  unfold expected_metrics.
  by rewrite (aggregate_undefined eps _ feature Hfeat
                (episode_scalars_undefined _ _ _ Hep Hnone)).
Qed.

(** X9: without a fetch function, without a trainer or with a framework
    other than "rllib" and "warpdrive", [compute_metrics] fails its
    assertion before the [try] block: the error is not turned into a
    result, and no episode is fetched. *)
Theorem compute_metrics_asserts
    (fetch : option (T -> list string -> Eff X EpisodeState)) (trainer : option T)
    (framework : option string) (n : Z) w :
  fetch = None \/ trainer = None \/ framework ∉ Some <$> available_frameworks ->
  compute_metrics fetch trainer framework n w = (Raise AssertionError, w).
Proof.
  intros H. unfold compute_metrics.
  destruct fetch as [f |]; [| reflexivity].
  destruct trainer as [t |]; [| reflexivity].
  destruct H as [H | [H | H]]; [discriminate | discriminate |].
  erewrite bind_return; [| reflexivity].
  erewrite bind_return; [| reflexivity].
  erewrite bind_raise; [reflexivity |].
  unfold assert. by rewrite bool_decide_eq_false_2.
Qed.

(** X10: with a fetch function, a trainer and a valid framework,
    [compute_metrics] never raises: it returns a triple, and the only
    calls it makes are fetches, at most one per episode and exactly one
    per episode when it succeeds. *)
Theorem compute_metrics_total
    (fetch : T -> list string -> Eff X EpisodeState) (trainer : T)
    (framework : string) (n : Z) w :
  framework ∈ available_frameworks ->
  exists success comment (m : Metrics) w' (j : nat),
    compute_metrics (Some fetch) (Some trainer) (Some framework) n w
    = (Return (success, comment, m), w')
    /\ (j <= Z.to_nat n)%nat
    /\ trace w' = (trace w ++ replicate j (EvFetchEpisodeStates trainer))%list
    /\ (success = true -> j = Z.to_nat n).
Proof.
  intros Hfw. rewrite compute_metrics_run by assumption.
  destruct (rollouts_trace fetch trainer (_METRICS_TO_LABEL_DICT.*1) (Z.to_nat n) w)
    as (j & Hj & Htr & Hret).
  destruct (rollouts fetch trainer _ (Z.to_nat n) w) as [[eps | e] w']; simpl in *.
  - destruct (expected_metrics eps) as [m |].
    + exists true, "Successful submission", m, w', j. repeat split; eauto.
    + exists false, "Could not obtain an episode rollout!", ∅, w', j.
      repeat split; eauto; discriminate.
  - exists false, "Could not obtain an episode rollout!", ∅, w', j.
    repeat split; eauto; discriminate.
Qed.

(** X11: the episode loop stops at the first fetch that raises: after [i]
    fetched episodes, a failing fetch ends the rollouts, the remaining
    episodes are not requested, and the result is the rollout failure. *)
Theorem compute_metrics_first_failure
    (fetch : T -> list string -> Eff X EpisodeState) (trainer : T)
    (framework : string) (n : Z) w (i : nat) (eps : list EpisodeState) w1 e x2 :
  framework ∈ available_frameworks ->
  (i < Z.to_nat n)%nat ->
  rollouts fetch trainer (_METRICS_TO_LABEL_DICT.*1) i w = (Return eps, w1) ->
  fetch trainer (_METRICS_TO_LABEL_DICT.*1) (ext w1) = (Raise e, x2) ->
  compute_metrics (Some fetch) (Some trainer) (Some framework) n w
  = (Return (false, "Could not obtain an episode rollout!", ∅),
     record_call (EvFetchEpisodeStates trainer) x2 w1).
Proof.
  intros Hfw Hi Hroll Hfail. rewrite compute_metrics_run by assumption.
  by rewrite (rollouts_stop _ _ _ _ _ _ _ _ _ _ Hroll Hfail Hi).
Qed.

(** X12: if any fetched episode lacks one of the registered features, the
    evaluation of the metrics fails as a whole, although every fetch
    succeeded. *)
Theorem compute_metrics_missing_feature
    (fetch : T -> list string -> Eff X EpisodeState) (trainer : T)
    (framework : string) (n : Z) w (eps : list EpisodeState) w'
    (ep : EpisodeState) (feature : string) :
  framework ∈ available_frameworks ->
  rollouts fetch trainer (_METRICS_TO_LABEL_DICT.*1) (Z.to_nat n) w
  = (Return eps, w') ->
  ep ∈ eps ->
  feature ∈ _METRICS_TO_LABEL_DICT.*1 ->
  ep !! feature = None ->
  compute_metrics (Some fetch) (Some trainer) (Some framework) n w
  = (Return (false, "Could not obtain an episode rollout!", ∅), w').
Proof.
  intros Hfw Hroll Hep Hfeat Hnone.
  apply (compute_metrics_undefined_scalar _ _ _ _ _ eps _ ep feature); try done.
  unfold episode_scalar. by rewrite Hnone.
Qed.

(** X13: an array without time steps under the temperature or the carbon
    mass of any episode fails the evaluation of the metrics: these two
    features index the first and the last row. *)
Theorem compute_metrics_empty_array
    (fetch : T -> list string -> Eff X EpisodeState) (trainer : T)
    (framework : string) (n : Z) w (eps : list EpisodeState) w'
    (ep : EpisodeState) (feature : string) :
  framework ∈ available_frameworks ->
  rollouts fetch trainer (_METRICS_TO_LABEL_DICT.*1) (Z.to_nat n) w
  = (Return eps, w') ->
  ep ∈ eps ->
  feature = "global_temperature" \/ feature = "global_carbon_mass" ->
  ep !! feature = Some ([] : Array) ->
  compute_metrics (Some fetch) (Some trainer) (Some framework) n w
  = (Return (false, "Could not obtain an episode rollout!", ∅), w').
Proof.
  intros Hfw Hroll Hep Hfeat Hempty.
  apply (compute_metrics_undefined_scalar _ _ _ _ _ eps _ ep feature); try done.
  - destruct Hfeat as [-> | ->]; apply (bool_decide_unpack _); exact I.
  - unfold episode_scalar. rewrite Hempty. by destruct Hfeat as [-> | ->].
Qed.

(** X14: the framework tag is only checked, never used: both valid tags
    give the same result. *)
Theorem compute_metrics_framework_irrelevant
    (fetch : T -> list string -> Eff X EpisodeState) (trainer : T)
    (framework framework' : string) (n : Z) w :
  framework ∈ available_frameworks ->
  framework' ∈ available_frameworks ->
  compute_metrics (Some fetch) (Some trainer) (Some framework) n w
  = compute_metrics (Some fetch) (Some trainer) (Some framework') n w.
Proof. intros Hfw Hfw'. by rewrite !compute_metrics_run. Qed.
End MetricsMore.

Lemma compute_metrics_asserts_witness :
  compute_metrics (@None (nat -> list string -> Eff nat EpisodeState))
                  (Some 7%nat) (Some "rllib") 5 start
  = (Raise AssertionError, start).
Proof. apply compute_metrics_asserts. by left. Defined.

Lemma compute_metrics_total_witness :
  exists success comment (m : Metrics) w' (j : nat),
    compute_metrics (Some (fetch_episode_states (scenario_backend crashing_rollout)))
                    (Some 7%nat) (Some "rllib") 3 start
    = (Return (success, comment, m), w')
    /\ (j <= Z.to_nat 3)%nat
    /\ trace w' = (trace start ++ replicate j (EvFetchEpisodeStates 7%nat))%list
    /\ (success = true -> j = Z.to_nat 3).
Proof.
  apply compute_metrics_total. apply (bool_decide_unpack _). exact I.
Defined.

Lemma compute_metrics_first_failure_witness :
  compute_metrics (Some (fetch_episode_states (scenario_backend crashing_rollout)))
                  (Some 7%nat) (Some "rllib") 3 start
  = (Return (false, "Could not obtain an episode rollout!", ∅),
     record_call (EvFetchEpisodeStates 7%nat) 2%nat
       {| ext := 1%nat; trace := [EvFetchEpisodeStates 7%nat] |}).
Proof.
  apply (compute_metrics_first_failure
           (fetch_episode_states (scenario_backend crashing_rollout)) 7%nat "rllib" 3
           start 1 [demo_episode 0]
           {| ext := 1%nat; trace := [EvFetchEpisodeStates 7%nat] |}
           (OtherError "rollout worker died") 2%nat).
  - apply (bool_decide_unpack _). exact I.
  - apply (bool_decide_unpack _). exact I.
  - reflexivity.
  - reflexivity.
Defined.

Lemma compute_metrics_missing_feature_witness :
  compute_metrics (Some (fetch_episode_states (scenario_backend sparse_episodes)))
                  (Some 7%nat) (Some "rllib") 2 start
  = (Return (false, "Could not obtain an episode rollout!", ∅),
     {| ext := 2%nat;
        trace := [EvFetchEpisodeStates 7%nat; EvFetchEpisodeStates 7%nat] |}).
Proof.
  apply (compute_metrics_missing_feature
           (fetch_episode_states (scenario_backend sparse_episodes)) 7%nat "rllib" 2
           start
           [delete "global_carbon_mass" (demo_episode 0);
            delete "global_carbon_mass" (demo_episode 1)]
           _ (delete "global_carbon_mass" (demo_episode 0)) "global_carbon_mass").
  - apply (bool_decide_unpack _). exact I.
  - reflexivity.
  - apply list_elem_of_here.
  - apply (bool_decide_unpack _). exact I.
  - apply lookup_delete_eq.
Defined.

Lemma compute_metrics_empty_array_witness :
  compute_metrics (Some (fetch_episode_states (scenario_backend empty_temperature)))
                  (Some 7%nat) (Some "rllib") 2 start
  = (Return (false, "Could not obtain an episode rollout!", ∅),
     {| ext := 2%nat;
        trace := [EvFetchEpisodeStates 7%nat; EvFetchEpisodeStates 7%nat] |}).
Proof.
  apply (compute_metrics_empty_array
           (fetch_episode_states (scenario_backend empty_temperature)) 7%nat "rllib" 2
           start
           [<["global_temperature" := []]> (demo_episode 0);
            <["global_temperature" := []]> (demo_episode 1)]
           _ (<["global_temperature" := []]> (demo_episode 0)) "global_temperature").
  - apply (bool_decide_unpack _). exact I.
  - reflexivity.
  - apply list_elem_of_here.
  - by left.
  - apply lookup_insert_eq.
Defined.

Lemma compute_metrics_framework_irrelevant_witness :
  compute_metrics (Some (fetch_episode_states (scenario_backend good_rllib)))
                  (Some 7%nat) (Some "rllib") 2 start
  = compute_metrics (Some (fetch_episode_states (scenario_backend good_rllib)))
                    (Some 7%nat) (Some "warpdrive") 2 start.
Proof.
  apply compute_metrics_framework_irrelevant; apply (bool_decide_unpack _); exact I.
Defined.

(** ** The top-level evaluator *)

(** Closes a run whose calls are listed in the goal once the trace of the
    validation is rewritten. *)
Ltac ordered Htr :=
  simpl; rewrite Htr, <- ?app_assoc; eexists; split; [reflexivity | reflexivity].

Section EvaluationMore.
Context {X T C : Type}.
Variable env : Env X T C.
Implicit Types (w : World X T).

(** X15: without a results directory, or with an episode count that is
    not positive, the evaluation fails its entry assertion before it
    touches anything. *)
Theorem perform_evaluation_asserts (results_dir : option string) (n : Z)
    (seed : option Z) w :
  results_dir = None \/ n <= 0 ->
  perform_evaluation env results_dir n seed w = (Raise AssertionError, w).
Proof.
  intros H. destruct results_dir as [dir |]; [| reflexivity].
  destruct H as [H | H]; [discriminate |].
  by apply perform_evaluation_not_positive.
Qed.

(** X16: an error of [os.listdir] is not caught: the validation runs
    outside the [try] blocks, so the exception leaves the evaluation. *)
Theorem perform_evaluation_listdir_raises (dir : string) (n : Z) (seed : option Z)
    w e x' :
  0 < n ->
  os_listdir env dir (ext w) = (Raise e, x') ->
  perform_evaluation env (Some dir) n seed w
  = (Raise e, record_call (EvListdir dir) x' w).
Proof.
  intros Hn Hls. apply perform_evaluation_raises; [exact Hn |].
  apply validate_dir_raises. unfold extern. by rewrite Hls.
Qed.

(** X17: a directory the validation rejects is not evaluated: the
    verdict of the validation is returned with an empty mapping, and the
    listing is the only call made. *)
Theorem perform_evaluation_rejected (dir : string) (n : Z) (seed : option Z)
    w framework comment w1 :
  0 < n ->
  validate_dir (fun d => extern (EvListdir d) (os_listdir env d)) (Some dir) w
  = (Return (framework, false, comment), w1) ->
  perform_evaluation env (Some dir) n seed w
  = (Return (framework, false, ∅, comment), w1)
  /\ trace w1 = (trace w ++ [EvListdir dir])%list.
Proof.
  intros Hn Hv. split.
  - by apply perform_evaluation_invalid.
  - by eapply validate_dir_trace.
Qed.

(** X18: failing unit tests end the evaluation with the comment "Unit
    tests were not successful."; no configuration is read and no trainer
    is created. *)
Theorem perform_evaluation_unittests_fail (dir : string) (n : Z) (seed : option Z)
    w framework comment w1 e x1 :
  0 < n ->
  validate_dir (fun d => extern (EvListdir d) (os_listdir env d)) (Some dir) w
  = (Return (framework, true, comment), w1) ->
  run_unittests env dir (ext w1) = (Raise e, x1) ->
  perform_evaluation env (Some dir) n seed w
  = (Return (framework, false, ∅, "Unit tests were not successful."),
     record_call (EvRunUnittests dir) x1 w1).
Proof.
  intros Hn Hv Hut.
  destruct (validate_dir_success _ _ _ _ _ _ Hv) as (fw & -> & Hfw).
  rewrite (perform_evaluation_valid _ _ _ _ _ _ _ _ Hn Hv).
  rewrite evaluation_stages_run by assumption. by rewrite Hut.
Qed.

(** X19: when the backend cannot create the trainer, the evaluation
    returns the comment "Could not create trainer with the run_config
    provided."; no checkpoint is loaded and no episode is fetched. *)
Theorem perform_evaluation_create_fails (dir fw : string) (n : Z) (seed : option Z)
    w comment w1 x1 contents x2 run_config e x3 :
  0 < n ->
  validate_dir (fun d => extern (EvListdir d) (os_listdir env d)) (Some dir) w
  = (Return (Some fw, true, comment), w1) ->
  run_unittests env dir (ext w1) = (Return tt, x1) ->
  os_path_exists env (os_path_join dir ("rice_" +:+ fw +:+ ".yaml")) x1 = true ->
  open_read env (os_path_join dir ("rice_" +:+ fw +:+ ".yaml")) x1
  = (Return contents, x2) ->
  yaml_safe_load env contents = Return run_config ->
  create_trainer (backend_of env fw) run_config seed x2 = (Raise e, x3) ->
  perform_evaluation env (Some dir) n seed w
  = (Return (Some fw, false, ∅,
             "Could not create trainer with the run_config provided."),
     record_call EvCreateTrainer x3
       (record_call (EvOpen (os_path_join dir ("rice_" +:+ fw +:+ ".yaml"))) x2
          (record_call (EvRunUnittests dir) x1 w1))).
Proof.
  intros Hn Hv Hut Hex Hopen Hyaml Hcreate.
  destruct (validate_dir_success _ _ _ _ _ _ Hv) as (fw' & [= <-] & Hfw).
  rewrite (perform_evaluation_valid _ _ _ _ _ _ _ _ Hn Hv).
  rewrite evaluation_stages_run by assumption.
  rewrite Hut. cbn zeta. rewrite Hex. cbn [negb].
  by rewrite Hopen, Hyaml, Hcreate.
Qed.

(** X20: when the checkpoints cannot be loaded, the evaluation returns
    the comment "Could not load model checkpoints."; no episode is
    fetched, and the trainer that was created is not shut down, on
    warpdrive either. *)
Theorem perform_evaluation_load_fails (dir fw : string) (n : Z) (seed : option Z)
    w comment w1 x1 contents x2 run_config trainer x3 e x4 :
  0 < n ->
  validate_dir (fun d => extern (EvListdir d) (os_listdir env d)) (Some dir) w
  = (Return (Some fw, true, comment), w1) ->
  run_unittests env dir (ext w1) = (Return tt, x1) ->
  os_path_exists env (os_path_join dir ("rice_" +:+ fw +:+ ".yaml")) x1 = true ->
  open_read env (os_path_join dir ("rice_" +:+ fw +:+ ".yaml")) x1
  = (Return contents, x2) ->
  yaml_safe_load env contents = Return run_config ->
  create_trainer (backend_of env fw) run_config seed x2 = (Return trainer, x3) ->
  load_model_checkpoints (backend_of env fw) trainer dir x3 = (Raise e, x4) ->
  exists w',
    perform_evaluation env (Some dir) n seed w
    = (Return (Some fw, false, ∅, "Could not load model checkpoints."), w')
    /\ trace w'
       = (trace w1
          ++ [EvRunUnittests dir;
              EvOpen (os_path_join dir ("rice_" +:+ fw +:+ ".yaml"));
              EvCreateTrainer; EvLoadCheckpoints trainer dir])%list
    /\ shutdowns (trace w') = shutdowns (trace w1).
Proof.
  intros Hn Hv Hut Hex Hopen Hyaml Hcreate Hload.
  destruct (validate_dir_success _ _ _ _ _ _ Hv) as (fw' & [= <-] & Hfw).
  rewrite (perform_evaluation_valid _ _ _ _ _ _ _ _ Hn Hv).
  rewrite evaluation_stages_run by assumption.
  rewrite Hut. cbn zeta. rewrite Hex. cbn [negb].
  rewrite Hopen, Hyaml, Hcreate, Hload.
  eexists. split; [reflexivity |]. simpl. rewrite <- !app_assoc. split; [reflexivity |].
  rewrite shutdowns_app. simpl. by rewrite app_nil_r.
Qed.

(** After the checkpoints are loaded, the result is that of
    [compute_metrics], followed on warpdrive by the shutdown. *)
Lemma perform_evaluation_loaded (dir fw : string) (n : Z) (seed : option Z)
    w comment w1 trainer w4 :
  0 < n ->
  validate_dir (fun d => extern (EvListdir d) (os_listdir env d)) (Some dir) w
  = (Return (Some fw, true, comment), w1) ->
  stages_loaded env dir fw seed w1 trainer w4 ->
  perform_evaluation env (Some dir) n seed w =
  match compute_metrics (Some (fetch_episode_states (backend_of env fw)))
                        (Some trainer) (Some fw) n w4 with
  | (Raise e, w5) =>
      (Return (Some fw, false, ∅, "Count not fetch episode and compute metrics."), w5)
  | (Return r, w5) =>
      if bool_decide (fw = "warpdrive") then
        match graceful_close env trainer (ext w5) with
        | (Return _, x6) =>
            (Return (Some fw, r.1.1, r.2, r.1.2),
             record_call (EvGracefulClose trainer) x6 w5)
        | (Raise e, x6) =>
            (Return (Some fw, false, r.2,
                     "Count not fetch episode and compute metrics."),
             record_call (EvGracefulClose trainer) x6 w5)
        end
      else (Return (Some fw, r.1.1, r.2, r.1.2), w5)
  end.
Proof.
  intros Hn Hv (x1 & contents & x2 & run_config & x3 & x4
                & Hut & Hex & Hopen & Hyaml & Hcreate & Hload & ->).
  destruct (validate_dir_success _ _ _ _ _ _ Hv) as (fw' & [= <-] & Hfw).
  rewrite (perform_evaluation_valid _ _ _ _ _ _ _ _ Hn Hv).
  rewrite evaluation_stages_run by assumption.
  rewrite Hut. cbn zeta. rewrite Hex. cbn [negb].
  rewrite Hopen, Hyaml, Hcreate, Hload.
  destruct (compute_metrics _ _ _ n _) as [[r | e] w5]; [| reflexivity].
  case_bool_decide; [| reflexivity].
  destruct (graceful_close env trainer (ext w5)) as [[[] | e] x6]; reflexivity.
Qed.

(** X21: on warpdrive a failed rollout is reported with the comment of
    [compute_metrics] and an empty mapping, and the trainer is still shut
    down afterwards. *)
Theorem perform_evaluation_rollout_fails (dir : string) (n : Z) (seed : option Z)
    w comment w1 trainer w4 e w5 x6 :
  0 < n ->
  validate_dir (fun d => extern (EvListdir d) (os_listdir env d)) (Some dir) w
  = (Return (Some "warpdrive", true, comment), w1) ->
  stages_loaded env dir "warpdrive" seed w1 trainer w4 ->
  rollouts (fetch_episode_states (train_with_warp_drive env)) trainer
           (_METRICS_TO_LABEL_DICT.*1) (Z.to_nat n) w4 = (Raise e, w5) ->
  graceful_close env trainer (ext w5) = (Return tt, x6) ->
  perform_evaluation env (Some dir) n seed w
  = (Return (Some "warpdrive", false, ∅, "Could not obtain an episode rollout!"),
     record_call (EvGracefulClose trainer) x6 w5).
Proof.
  intros Hn Hv Hloaded Hroll Hclose.
  rewrite (perform_evaluation_loaded _ _ _ _ _ _ _ _ _ Hn Hv Hloaded).
  rewrite compute_metrics_run by set_solver.
  change (backend_of env "warpdrive") with (train_with_warp_drive env).
  rewrite Hroll. rewrite bool_decide_eq_true_2 by reflexivity.
  by rewrite Hclose.
Qed.

(** What [compute_metrics] returns in the evaluator, and the calls it
    records there. *)
Lemma compute_metrics_shape (fetch : T -> list string -> Eff X EpisodeState)
    (trainer : T) (framework : string) (n : Z) w :
  framework ∈ available_frameworks ->
  0 < n ->
  exists success comment (m : Metrics) w' (j : nat),
    compute_metrics (Some fetch) (Some trainer) (Some framework) n w
    = (Return (success, comment, m), w')
    /\ (success = true -> comment = "Successful submission" /\ dom m = labels)
    /\ (1 <= j)%nat
    /\ trace w' = (trace w ++ replicate j (EvFetchEpisodeStates trainer))%list.
Proof.
  intros Hfw Hn. rewrite compute_metrics_run by assumption.
  assert (Htr : exists j : nat, (1 <= j)%nat /\
            trace (rollouts fetch trainer (_METRICS_TO_LABEL_DICT.*1) (Z.to_nat n) w).2
            = (trace w ++ replicate j (EvFetchEpisodeStates trainer))%list).
  { destruct (Z.to_nat n) as [| k] eqn:Ek; [lia |].
    cbn [rollouts]. unfold bind, extern.
    destruct (fetch trainer _ (ext w)) as [[st | e] x1].
    - destruct (rollouts_trace fetch trainer (_METRICS_TO_LABEL_DICT.*1) k
                  (record_call (EvFetchEpisodeStates trainer) x1 w))
        as (j & _ & Htr & _).
      exists (S j). split; [lia |].
      destruct (rollouts fetch trainer _ k _) as [[eps | e] w2]; simpl in *;
        rewrite Htr, <- app_assoc; reflexivity.
    - exists 1%nat. split; [lia | reflexivity]. }
  destruct Htr as (j & Hj & Htr).
  destruct (rollouts fetch trainer _ (Z.to_nat n) w) as [[eps | e] w']; simpl in *.
  - destruct (expected_metrics eps) as [m |] eqn:E.
    + exists true, "Successful submission", m, w', j.
      split; [reflexivity |]. split; [| by split]. intros _. split; [reflexivity |].
      apply aggregate_dom in E. rewrite E, dom_empty_L. apply (left_id_L ∅ (∪)).
    + exists false, "Could not obtain an episode rollout!", ∅, w', j.
      split; [reflexivity |]. split; [discriminate | by split].
  - exists false, "Could not obtain an episode rollout!", ∅, w', j.
    split; [reflexivity |]. split; [discriminate | by split].
Qed.

(** X24: an evaluation that reports success carries the comment
    "Successful submission", a mapping with exactly the eight labels of
    the registry, and one of the two known frameworks. *)
Theorem perform_evaluation_success_shape (dir : string) (n : Z) (seed : option Z)
    w framework (m : Metrics) comment w' :
  perform_evaluation env (Some dir) n seed w
  = (Return (framework, true, m, comment), w') ->
  comment = "Successful submission"
  /\ dom m = labels
  /\ (framework = Some "rllib" \/ framework = Some "warpdrive").
Proof.
  intros H.
  destruct (Z.le_gt_cases n 0) as [Hn | Hn].
  { rewrite perform_evaluation_not_positive in H by assumption. discriminate. }
  destruct (validate_dir (fun d => extern (EvListdir d) (os_listdir env d))
                         (Some dir) w) as [[[[fwo s] c] | e] w1] eqn:Hv;
    [| rewrite (perform_evaluation_raises _ _ _ _ _ _ _ Hn Hv) in H; discriminate].
  destruct s;
    [| rewrite (perform_evaluation_invalid _ _ _ _ _ _ _ _ Hn Hv) in H; discriminate].
  destruct (validate_dir_success _ _ _ _ _ _ Hv) as (fw & -> & Hfw).
  rewrite (perform_evaluation_valid _ _ _ _ _ _ _ _ Hn Hv) in H.
  rewrite evaluation_stages_run in H by assumption. cbn zeta in H.
  destruct (run_unittests env dir (ext w1)) as [[[] | e1] x1]; [| discriminate].
  destruct (os_path_exists env _ x1); cbn [negb] in H; [| discriminate].
  destruct (open_read env _ x1) as [[contents | e2] x2]; [| discriminate].
  destruct (yaml_safe_load env contents) as [run_config | e3]; [| discriminate].
  destruct (create_trainer _ run_config seed x2) as [[trainer | e4] x3];
    [| discriminate].
  destruct (load_model_checkpoints _ trainer dir x3) as [[[] | e5] x4];
    [| discriminate].
  match type of H with
  | context [compute_metrics ?f ?t ?fwo n ?w4] =>
      destruct (compute_metrics_shape
                  (fetch_episode_states (backend_of env fw)) trainer fw n w4 Hfw Hn)
        as (s & c' & m' & w5 & j & Hcm & Hs & _)
  end.
  rewrite Hcm in H.
  assert (Hfws : Some fw = Some "rllib" \/ Some fw = Some "warpdrive").
  { destruct (available_cases _ Hfw) as [-> | ->]; auto. }
  case_bool_decide.
  - destruct (graceful_close env trainer (ext w5)) as [[[] | e7] x6];
      inversion H; subst.
    destruct (Hs eq_refl). auto.
  - inversion H; subst. destruct (Hs eq_refl). auto.
Qed.

(** X25: with a positive episode count and a directory that can be
    listed, the evaluation always returns a tuple: every later exception
    is turned into a failure result. *)
Theorem perform_evaluation_returns (dir : string) (n : Z) (seed : option Z)
    w files x' :
  0 < n ->
  os_listdir env dir (ext w) = (Return files, x') ->
  exists framework success (m : Metrics) comment w',
    perform_evaluation env (Some dir) n seed w
    = (Return (framework, success, m, comment), w').
Proof.
  intros Hn Hls.
  assert (Hext : extern (EvListdir dir) (os_listdir env dir) w
                 = (Return files, record_call (EvListdir dir) x' w)).
  { unfold extern. by rewrite Hls. }
  pose proof (validate_dir_run (fun d => extern (EvListdir d) (os_listdir env d))
                dir files w _ Hext) as Hv.
  set (v := match marker_backend files with
            | Some fw => _ | None => _ end) in Hv.
  destruct v as [[fwo s] c]. destruct s.
  - rewrite (perform_evaluation_valid _ _ _ _ _ _ _ _ Hn Hv).
    destruct (evaluation_stages env dir fwo n seed _) as [[[] | e] [l w']]; eauto 6.
  - rewrite (perform_evaluation_invalid _ _ _ _ _ _ _ _ Hn Hv). eauto 6.
Qed.

Lemma in_order_more_fetches (trainer : T) (j : nat) (rest : list (Event T)) :
  in_order 6 (replicate j (EvFetchEpisodeStates trainer) ++ rest) = in_order 6 rest.
Proof. induction j as [| j IH]; [reflexivity | exact IH]. Qed.

Lemma in_order_fetches (trainer : T) (j : nat) (rest : list (Event T)) :
  (1 <= j)%nat ->
  in_order 5 (replicate j (EvFetchEpisodeStates trainer) ++ rest) = in_order 6 rest.
Proof.
  intros Hj. destruct j as [| j]; [lia |]. apply in_order_more_fetches.
Qed.

(** X26: the calls of an evaluation are made in pipeline order, however
    it ends: the listing, the unit tests, the reading of the
    configuration, the creation of the trainer, the loading of the
    checkpoints, the fetches, the shutdown; a stage is reached only
    through the one before it, and only fetches repeat. *)
Theorem perform_evaluation_call_order (dir : string) (n : Z) (seed : option Z)
    w r w' :
  perform_evaluation env (Some dir) n seed w = (r, w') ->
  exists evs : list (Event T),
    trace w' = (trace w ++ evs)%list /\ in_order 0 evs = true.
Proof.
  intros H.
  destruct (Z.le_gt_cases n 0) as [Hn | Hn].
  { rewrite perform_evaluation_not_positive in H by assumption.
    inversion H; subst. exists []. by rewrite app_nil_r. }
  destruct (validate_dir (fun d => extern (EvListdir d) (os_listdir env d))
                         (Some dir) w) as [[[[fwo s] c] | e] w1] eqn:Hv.
  2: { rewrite (perform_evaluation_raises _ _ _ _ _ _ _ Hn Hv) in H.
       inversion H; subst. exists [EvListdir dir].
       split; [by eapply validate_dir_trace | reflexivity]. }
  pose proof (validate_dir_trace _ _ _ _ _ Hv) as Htr1.
  destruct s.
  2: { rewrite (perform_evaluation_invalid _ _ _ _ _ _ _ _ Hn Hv) in H.
       inversion H; subst. by exists [EvListdir dir]. }
  destruct (validate_dir_success _ _ _ _ _ _ Hv) as (fw & -> & Hfw).
  rewrite (perform_evaluation_valid _ _ _ _ _ _ _ _ Hn Hv) in H.
  rewrite evaluation_stages_run in H by assumption. cbn zeta in H.
  destruct (run_unittests env dir (ext w1)) as [[[] | e1] x1];
    [| inversion H; subst; ordered Htr1].
  destruct (os_path_exists env _ x1); cbn [negb] in H;
    [| inversion H; subst; ordered Htr1].
  destruct (open_read env _ x1) as [[contents | e2] x2];
    [| inversion H; subst; ordered Htr1].
  destruct (yaml_safe_load env contents) as [run_config | e3];
    [| inversion H; subst; ordered Htr1].
  destruct (create_trainer _ run_config seed x2) as [[trainer | e4] x3];
    [| inversion H; subst; ordered Htr1].
  destruct (load_model_checkpoints _ trainer dir x3) as [[[] | e5] x4];
    [| inversion H; subst; ordered Htr1].
  match type of H with
  | context [compute_metrics ?f ?t ?fwo n ?w4] =>
      destruct (compute_metrics_shape
                  (fetch_episode_states (backend_of env fw)) trainer fw n w4 Hfw Hn)
        as (s & c' & m' & w5 & j & Hcm & _ & Hj & Htr5)
  end.
  rewrite Hcm in H. simpl in Htr5. rewrite Htr1, <- !app_assoc in Htr5.
  case_bool_decide.
  - destruct (graceful_close env trainer (ext w5)) as [[[] | e7] x6];
      inversion H; subst; simpl; rewrite Htr5, <- !app_assoc;
      (eexists; split; [reflexivity |]); simpl;
      by rewrite in_order_fetches.
  - inversion H; subst; simpl; rewrite Htr5;
      (eexists; split; [reflexivity |]); simpl.
    rewrite <- (app_nil_r (replicate j _)). by rewrite in_order_fetches.
Qed.
End EvaluationMore.

Lemma perform_evaluation_asserts_witness :
  perform_evaluation (scenario_env good_rllib) (Some "results") 0 (Some _SEED) start
  = (Raise AssertionError, start).
Proof. apply perform_evaluation_asserts. right. reflexivity. Defined.

Lemma perform_evaluation_listdir_raises_witness :
  perform_evaluation (scenario_env unlisted_directory) (Some "results")
                     _NUM_ROLLOUT_EPISODES (Some _SEED) start
  = (Raise (OtherError "FileNotFoundError"), record_call (EvListdir "results") 0%nat start).
Proof. apply perform_evaluation_listdir_raises; reflexivity. Defined.

Lemma perform_evaluation_rejected_witness :
  perform_evaluation (scenario_env no_marker) (Some "results")
                     _NUM_ROLLOUT_EPISODES (Some _SEED) start
  = (Return (None, false, ∅, "Missing identifier file!"),
     {| ext := 0%nat; trace := [EvListdir "results"] |})
  /\ [EvListdir "results"] = (trace start ++ [@EvListdir nat "results"])%list.
Proof.
  apply (perform_evaluation_rejected (scenario_env no_marker) "results"
           _NUM_ROLLOUT_EPISODES (Some _SEED) start None "Missing identifier file!"
           {| ext := 0%nat; trace := [EvListdir "results"] |});
    reflexivity.
Defined.

Lemma perform_evaluation_unittests_fail_witness :
  perform_evaluation (scenario_env failing_unittests) (Some "results")
                     _NUM_ROLLOUT_EPISODES (Some _SEED) start
  = (Return (Some "rllib", false, ∅, "Unit tests were not successful."),
     {| ext := 0%nat; trace := [EvListdir "results"; EvRunUnittests "results"] |}).
Proof.
  apply (perform_evaluation_unittests_fail (scenario_env failing_unittests) "results"
           _NUM_ROLLOUT_EPISODES (Some _SEED) start (Some "rllib") "Valid submission"
           {| ext := 0%nat; trace := [EvListdir "results"] |} CalledProcessError 0%nat);
    reflexivity.
Defined.

Lemma perform_evaluation_create_fails_witness :
  perform_evaluation (scenario_env failing_create) (Some "results")
                     _NUM_ROLLOUT_EPISODES (Some _SEED) start
  = (Return (Some "rllib", false, ∅,
             "Could not create trainer with the run_config provided."),
     {| ext := 0%nat;
        trace := [EvListdir "results"; EvRunUnittests "results";
                  EvOpen "results/rice_rllib.yaml"; EvCreateTrainer] |}).
Proof.
  apply (perform_evaluation_create_fails (scenario_env failing_create) "results" "rllib"
           _NUM_ROLLOUT_EPISODES (Some _SEED) start "Valid submission"
           {| ext := 0%nat; trace := [EvListdir "results"] |} 0%nat "seed: 1" 0%nat
           "seed: 1" (OtherError "bad run configuration") 0%nat);
    reflexivity.
Defined.

Lemma perform_evaluation_load_fails_witness :
  exists w',
    perform_evaluation (scenario_env failing_load) (Some "results")
                       _NUM_ROLLOUT_EPISODES (Some _SEED) start
    = (Return (Some "warpdrive", false, ∅, "Could not load model checkpoints."), w')
    /\ trace w'
       = ([EvListdir "results"]
          ++ [EvRunUnittests "results"; EvOpen "results/rice_warpdrive.yaml";
              EvCreateTrainer; EvLoadCheckpoints 7%nat "results"])%list
    /\ shutdowns (trace w') = shutdowns [@EvListdir nat "results"].
Proof.
  apply (perform_evaluation_load_fails (scenario_env failing_load) "results" "warpdrive"
           _NUM_ROLLOUT_EPISODES (Some _SEED) start "Valid submission"
           {| ext := 0%nat; trace := [EvListdir "results"] |} 0%nat "seed: 1" 0%nat
           "seed: 1" 7%nat 0%nat (OtherError "no checkpoint found") 0%nat);
    reflexivity.
Defined.

Lemma stages_loaded_demo (sc : Scenario) (dir fw : string) :
  sc_unittests sc = Return tt ->
  sc_config_present sc = true ->
  sc_open sc = Return "seed: 1" ->
  sc_yaml sc = Return "seed: 1" ->
  sc_create sc = Return 7%nat ->
  sc_load sc = Return tt ->
  stages_loaded (scenario_env sc) dir fw (Some _SEED)
    {| ext := 0%nat; trace := [EvListdir dir] |} 7%nat
    {| ext := 0%nat;
       trace := [EvListdir dir; EvRunUnittests dir;
                 EvOpen (os_path_join dir ("rice_" +:+ fw +:+ ".yaml"));
                 EvCreateTrainer; EvLoadCheckpoints 7%nat dir] |}.
Proof.
  intros Hut Hex Hopen Hyaml Hcreate Hload.
  exists 0%nat, "seed: 1", 0%nat, "seed: 1", 0%nat, 0%nat.
  unfold backend_of. simpl. unfold pure.
  rewrite Hut, Hex, Hopen, Hyaml.
  destruct (bool_decide (fw = "rllib")); simpl; unfold pure;
    rewrite Hcreate, Hload; repeat split; reflexivity.
Defined.

Lemma perform_evaluation_rollout_fails_witness :
  perform_evaluation (scenario_env crashing_warpdrive) (Some "results") 3
                     (Some _SEED) start
  = (Return (Some "warpdrive", false, ∅, "Could not obtain an episode rollout!"),
     {| ext := 2%nat;
        trace := [EvListdir "results"; EvRunUnittests "results";
                  EvOpen "results/rice_warpdrive.yaml"; EvCreateTrainer;
                  EvLoadCheckpoints 7%nat "results";
                  EvFetchEpisodeStates 7%nat; EvFetchEpisodeStates 7%nat;
                  EvGracefulClose 7%nat] |}).
Proof.
  apply (perform_evaluation_rollout_fails (scenario_env crashing_warpdrive) "results" 3
           (Some _SEED) start "Valid submission"
           {| ext := 0%nat; trace := [EvListdir "results"] |} 7%nat
           {| ext := 0%nat;
              trace := [EvListdir "results"; EvRunUnittests "results";
                        EvOpen "results/rice_warpdrive.yaml"; EvCreateTrainer;
                        EvLoadCheckpoints 7%nat "results"] |}
           (OtherError "rollout worker died")
           {| ext := 2%nat;
              trace := [EvListdir "results"; EvRunUnittests "results";
                        EvOpen "results/rice_warpdrive.yaml"; EvCreateTrainer;
                        EvLoadCheckpoints 7%nat "results";
                        EvFetchEpisodeStates 7%nat; EvFetchEpisodeStates 7%nat] |}
           2%nat).
  - reflexivity.
  - reflexivity.
  - apply (stages_loaded_demo crashing_warpdrive "results" "warpdrive"); reflexivity.
  - reflexivity.
  - reflexivity.
Defined.

Lemma failure_metrics_witness :
  metrics_of (perform_evaluation (scenario_env failing_close) (Some "results") 2
                                 (Some _SEED) start).1 = ∅
  \/ (Some "warpdrive" = Some "warpdrive"
      /\ "Count not fetch episode and compute metrics."
         = "Count not fetch episode and compute metrics."
      /\ exists (trainer : nat) tr,
           trace (perform_evaluation (scenario_env failing_close) (Some "results") 2
                                     (Some _SEED) start).2
           = (tr ++ [EvGracefulClose trainer])%list).
Proof.
  apply (failure_metrics (scenario_env failing_close) "results" 2 (Some _SEED) start
           (Some "warpdrive")).
  vm_compute. reflexivity.
Defined.

Lemma perform_evaluation_success_shape_witness :
  "Successful submission" = "Successful submission"
  /\ dom (metrics_of (perform_evaluation (scenario_env good_rllib) (Some "results") 2
                                         (Some _SEED) start).1) = labels
  /\ (Some "rllib" = Some "rllib" \/ Some "rllib" = Some "warpdrive").
Proof.
  apply (perform_evaluation_success_shape (scenario_env good_rllib) "results" 2
           (Some _SEED) start (Some "rllib") _ "Successful submission"
           (perform_evaluation (scenario_env good_rllib) (Some "results") 2
                               (Some _SEED) start).2).
  vm_compute. reflexivity.
Defined.

Lemma perform_evaluation_returns_witness :
  exists framework success (m : Metrics) comment w',
    perform_evaluation (scenario_env failing_create) (Some "results")
                       _NUM_ROLLOUT_EPISODES (Some _SEED) start
    = (Return (framework, success, m, comment), w').
Proof.
  apply (perform_evaluation_returns (scenario_env failing_create) "results"
           _NUM_ROLLOUT_EPISODES (Some _SEED) start (".rllib" :: rllib_files) 0%nat);
    reflexivity.
Defined.

Lemma perform_evaluation_call_order_witness :
  exists evs : list (Event nat),
    trace (perform_evaluation (scenario_env good_warpdrive) (Some "results") 2
                              (Some _SEED) start).2
    = (trace start ++ evs)%list
    /\ in_order 0 evs = true.
Proof.
  apply (perform_evaluation_call_order (scenario_env good_warpdrive) "results" 2
           (Some _SEED) start
           (perform_evaluation (scenario_env good_warpdrive) (Some "results") 2
                               (Some _SEED) start).1).
  apply surjective_pairing.
Defined.

(** ** The command line entry point *)

Section MainFacts.
Context {X T C : Type}.
Variable env : Env X T C.
Variable shell : Shell X.
Implicit Types (w : World X T).

(** X27: a results path that does not exist stops the script with a
    [ValueError]: nothing is unpacked and nothing is evaluated. *)
Theorem main_missing_path (argument : string) w :
  os_path_exists env argument (ext w) = false ->
  main env shell argument w
  = (Raise (ValueError
              "The results directory is missing. Please make sure the correct path is specified!"),
     w).
Proof.
  intros Hex. unfold main, get_results_dir.
  erewrite bind_raise; [reflexivity |].
  unfold bind, query. by rewrite Hex.
Qed.

(** X28: a path that ends in ".zip" is unpacked to [/tmp/<time>] and the
    evaluation runs on that directory, with five episodes and the fixed
    seed; it never looks into the archive path.  When the unpacking
    raises, the exception leaves the script and nothing is evaluated. *)
Theorem main_unpacks_archive (argument : string) w :
  os_path_exists env argument (ext w) = true ->
  ends_with argument ".zip" = true ->
  main env shell argument w =
  match unpack_archive shell argument ("/tmp/" +:+ clock shell (ext w)) (ext w) with
  | (Return _, x1) =>
      perform_evaluation env (Some ("/tmp/" +:+ clock shell (ext w))) 5 (Some 123456)
                         {| ext := x1; trace := trace w |}
  | (Raise e, x1) => (Raise e, {| ext := x1; trace := trace w |})
  end.
Proof.
  intros Hex Hzip. unfold main, get_results_dir.
  erewrite bind_return; cycle 1.
  { unfold bind, query. rewrite Hex. reflexivity. }
  rewrite Hzip. unfold bind at 1. unfold bind at 1. unfold query at 1.
  unfold bind at 1. unfold silent.
  change (os_path_join "/tmp" (clock shell (ext w)))
    with ("/tmp/" +:+ clock shell (ext w)).
  destruct (unpack_archive shell argument _ (ext w)) as [[[] | e] x1]; reflexivity.
Qed.

(** Any other existing path is evaluated as it is, with five episodes and
    the fixed seed. *)
Lemma main_plain_directory (argument : string) w :
  os_path_exists env argument (ext w) = true ->
  ends_with argument ".zip" = false ->
  main env shell argument w
  = perform_evaluation env (Some argument) 5 (Some 123456) w.
Proof.
  intros Hex Hzip. unfold main, get_results_dir.
  erewrite bind_return; cycle 1.
  { unfold bind, query. rewrite Hex. reflexivity. }
  rewrite Hzip. erewrite bind_return; reflexivity.
Qed.
End MainFacts.

Lemma main_missing_path_witness :
  main (scenario_env missing_config) demo_shell "results" start
  = (Raise (ValueError
              "The results directory is missing. Please make sure the correct path is specified!"),
     start).
Proof. apply main_missing_path. reflexivity. Defined.

Lemma main_unpacks_archive_witness :
  main (scenario_env failing_unittests) demo_shell "results.zip" start
  = perform_evaluation (scenario_env failing_unittests) (Some "/tmp/1700000000.5") 5
                       (Some 123456) start.
Proof.
  apply (main_unpacks_archive (scenario_env failing_unittests) demo_shell
           "results.zip" start); reflexivity.
Defined.

Lemma main_plain_directory_witness :
  main (scenario_env failing_unittests) demo_shell "results" start
  = perform_evaluation (scenario_env failing_unittests) (Some "results") 5
                       (Some 123456) start.
Proof.
  apply (main_plain_directory (scenario_env failing_unittests) demo_shell
           "results" start); reflexivity.
Defined.
